(** * AQI vs public transport: the processing core of [data_processor.py]

    A shallow embedding of [DataProcessor]: the tabular data the class
    handles, the pandas and scipy operations it calls (modelled from
    their documented behaviour on the schema the class expects) and the
    methods of the class themselves, followed by the properties of the
    processing pipeline.  Of [data_fetcher.py] it embeds the two parts
    that compute: the AQI of a PM2.5 concentration and the generator of
    transport data, with the random draws and [np.sin] as parameters.

    Conventions.
    - A float is an exact rational ([Q]), kept in lowest terms ([Qred])
      by the arithmetic of the model; a missing value (NaN) is [None].
      Where a result of the code depends on the rounding of doubles or
      on the width of an integer, a property leaves the value open, or
      is stated for inputs on which the arithmetic of pandas is exact
      (integer counts of bounded size, [exact_counts]).
    - A [datetime.date] is its proleptic Gregorian ordinal
      ([date.toordinal()]), so the order of dates is the order of [Z].
    - A raised exception is a [Raise] result; the methods of the class
      take the instance ([self]) and return the new instance next to the
      value when they assign to it.
    - A method that assigns columns to the table it is given returns the
      table with these columns; the caller's table is not modelled as a
      shared object, since no property below reads it after the call. *)

From Stdlib Require Import String Ascii ZArith QArith Bool Lia Lqa List.
From Stdlib Require Import Sorted Permutation DecimalString.
From Stdlib Require OrderedTypeEx Qround DecimalZ.
Import ListNotations.

Set Implicit Arguments.

(** ** Exceptions and results *)

Inductive exn : Type :=
| ValueError (msg : string)
| KeyError (key : string)
| TypeError (msg : string)
| AttributeError (msg : string).

Inductive result (A : Type) : Type :=
| Ok (a : A)
| Raise (e : exn).

Arguments Ok {A} a.
Arguments Raise {A} e.

Definition bind {A B} (r : result A) (k : A -> result B) : result B :=
  match r with
  | Ok a => k a
  | Raise e => Raise e
  end.

Notation "x <- r ;; k" := (bind r (fun x => k))
  (at level 61, r at next level, right associativity).

(** ** Cells, series and frames *)

(** A float cell of a column: [None] is NaN. *)
Definition cell : Type := option Q.

Definition date : Type := Z.

(** The labels of [AQI_Category], in the order of the [labels] list. *)
Inductive Category : Type :=
| Good
| Moderate
| UnhealthyForSensitive
| Unhealthy
| VeryUnhealthy
| Hazardous.

Definition category_label (c : Category) : string :=
  match c with
  | Good => "Good"
  | Moderate => "Moderate"
  | UnhealthyForSensitive => "Unhealthy for Sensitive"
  | Unhealthy => "Unhealthy"
  | VeryUnhealthy => "Very Unhealthy"
  | Hazardous => "Hazardous"
  end.

(** ** [pd.cut] *)

(** [bins.searchsorted(x, side='left')] on an increasing array: the first
    index whose element is not below [x]. *)
Fixpoint searchsorted_left (a : list Q) (x : Q) : nat :=
  match a with
  | [] => O
  | b :: t => if Qle_bool x b then O else S (searchsorted_left t x)
  end.

(** One element through [pd.cut(x, bins, labels, right=True,
    include_lowest)]: the bin index by [searchsorted], the lowest edge
    moved into the first bin, and NaN for a missing value and for a value
    outside the outer edges. *)
Definition cut {L : Type} (bins : list Q) (labels : list L)
    (include_lowest : bool) (x : cell) : option L :=
  match x with
  | None => None
  | Some v =>
      let ids := searchsorted_left bins v in
      let ids :=
        if include_lowest && Qeq_bool v (hd 0 bins) then 1%nat else ids in
      if (ids =? length bins)%nat || (ids =? 0)%nat then None
      else nth_error labels (ids - 1)
  end.

Definition aqi_bins : list Q := [0; 50; 100; 150; 200; 300; 500].

Definition aqi_labels : list Category :=
  [Good; Moderate; UnhealthyForSensitive; Unhealthy; VeryUnhealthy; Hazardous].

(** The [AQI_Category] of one AQI cell, as [process_aqi_data] derives it. *)
Definition aqi_category (x : cell) : option Category :=
  cut aqi_bins aqi_labels true x.

(** A column of a frame.  The kinds are those of the columns the class
    reads and writes: dates, floats, the categorical [AQI_Category],
    names (day and month) and booleans. *)
Inductive series : Type :=
| SDate (v : list date)
| SNum (v : list cell)
| SCat (v : list (option Category))
| SStr (v : list string)
| SBool (v : list bool).

(** A [pandas.DataFrame] with the default row index: its columns, in
    column order, under their names.  The tables of the properties have
    distinct column names, as [read_csv] gives them. *)
Definition DataFrame : Type := list (string * series).

(** [df.columns] *)
Definition columns (df : DataFrame) : list string := map fst df.

(** [name in names] *)
Definition mem (name : string) (names : list string) : bool :=
  existsb (String.eqb name) names.

(** [df.get(name)] *)
Fixpoint get_col (df : DataFrame) (name : string) : option series :=
  match df with
  | [] => None
  | (n, s) :: t => if String.eqb n name then Some s else get_col t name
  end.

(** [df[name]], a [KeyError] on an absent column. *)
Definition getitem (df : DataFrame) (name : string) : result series :=
  match get_col df name with
  | Some s => Ok s
  | None => Raise (KeyError name)
  end.

(** [df[name] = s]: the column is replaced where it stands, a new column
    goes last. *)
Fixpoint set_col (df : DataFrame) (name : string) (s : series) : DataFrame :=
  match df with
  | [] => [(name, s)]
  | (n, s0) :: t =>
      if String.eqb n name then (n, s) :: t else (n, s0) :: set_col t name s
  end.

(** The float values of a column the code computes with; a column of
    another kind is outside the schema of the tables and is answered with
    a [TypeError]. *)
Definition as_num (s : series) : result (list cell) :=
  match s with
  | SNum v => Ok v
  | _ => Raise (TypeError "numeric column expected")
  end.

Definition as_date (s : series) : result (list date) :=
  match s with
  | SDate v => Ok v
  | _ => Raise (TypeError "date column expected")
  end.

Definition get_num (df : DataFrame) (name : string) : result (list cell) :=
  s <- getitem df name ;; as_num s.

Definition get_date (df : DataFrame) (name : string) : result (list date) :=
  s <- getitem df name ;; as_date s.

(** The rows at the positions [idx], in that order. *)
Definition take_rows {A : Type} (idx : list nat) (l : list A) : list A :=
  flat_map (fun i => match nth_error l i with
                     | Some a => [a]
                     | None => []
                     end) idx.

Definition series_take (idx : list nat) (s : series) : series :=
  match s with
  | SDate v => SDate (take_rows idx v)
  | SNum v => SNum (take_rows idx v)
  | SCat v => SCat (take_rows idx v)
  | SStr v => SStr (take_rows idx v)
  | SBool v => SBool (take_rows idx v)
  end.

(** ** Calendar features *)

(** [date.weekday()]: Monday is 0. *)
Definition weekday (d : date) : Z := ((d + 6) mod 7)%Z.

Definition day_name (d : date) : string :=
  nth (Z.to_nat (weekday d))
    ["Monday"; "Tuesday"; "Wednesday"; "Thursday"; "Friday"; "Saturday";
     "Sunday"]%string ""%string.

(** [dt.weekday >= 5] *)
Definition is_weekend (d : date) : bool := (5 <=? weekday d)%Z.

(** Days of the year before the first of month [m], leap day apart. *)
Definition days_before_month (m : Z) : Z :=
  nth (Z.to_nat m)
    [0; 0; 31; 59; 90; 120; 151; 181; 212; 243; 273; 304; 334]%Z 0%Z.

(** The month (1 to 12) of an ordinal, by the Gregorian cycles of 400,
    100, 4 and 1 years. *)
Definition month_of (d : date) : Z :=
  (let n := d - 1 in
   let n := n mod 146097 in
   let n100 := n / 36524 in
   let n := n mod 36524 in
   let n4 := n / 1461 in
   let n := n mod 1461 in
   let n1 := n / 365 in
   let n := n mod 365 in
   if (n1 =? 4) || (n100 =? 4) then 12
   else
     let leapyear := (n1 =? 3) && (negb (n4 =? 24) || (n100 =? 3)) in
     let month := Z.shiftr (n + 50) 5 in
     let preceding :=
       days_before_month month + (if (2 <? month) && leapyear then 1 else 0) in
     if n <? preceding then month - 1 else month)%Z.

Definition month_name (d : date) : string :=
  nth (Z.to_nat (month_of d))
    [""; "January"; "February"; "March"; "April"; "May"; "June"; "July";
     "August"; "September"; "October"; "November"; "December"]%string
    ""%string.

(** ** Cleaning a float column *)

(** The number of missing cells before the next value, and that value. *)
Fixpoint next_valid (l : list cell) : option (nat * Q) :=
  match l with
  | [] => None
  | Some v :: _ => Some (O, v)
  | None :: t =>
      match next_valid t with
      | Some (k, v) => Some (S k, v)
      | None => None
      end
  end.

Definition Qnat (n : nat) : Q := inject_Z (Z.of_nat n).

(** [interpolate_from prev j l]: the cells [l] that follow the value
    [prev], the first of them [j] rows after it. *)
Fixpoint interpolate_from (prev : option Q) (j : nat) (l : list cell)
    : list cell :=
  match l with
  | [] => []
  | Some v :: t => Some v :: interpolate_from (Some v) 1 t
  | None :: t =>
      match prev with
      | None => None
      | Some a =>
          match next_valid t with
          | None => Some a
          | Some (k, b) =>
              Some (Qred (a + (b - a) * Qnat j / Qnat (j + k + 1)))
          end
      end :: interpolate_from prev (S j) t
  end.

(** [s.interpolate(method='linear')]: rows are equally spaced, a gap
    between two values is filled on the line through them, the cells
    after the last value repeat it and the cells before the first value
    stay missing. *)
Definition interpolate (l : list cell) : list cell :=
  interpolate_from None 0 l.

(** [s.dropna()] as the values left, in row order. *)
Fixpoint dropna (l : list cell) : list Q :=
  match l with
  | [] => []
  | Some v :: t => v :: dropna t
  | None :: t => dropna t
  end.

(** Insertion sort by a boolean order; equal keys keep their order. *)
Fixpoint insert_by {A : Type} (leb : A -> A -> bool) (x : A) (l : list A)
    : list A :=
  match l with
  | [] => [x]
  | y :: t => if leb x y then x :: l else y :: insert_by leb x t
  end.

Definition sort_by {A : Type} (leb : A -> A -> bool) (l : list A) : list A :=
  fold_right (insert_by leb) [] l.

(** [s.median()]: over the values present; NaN when there is none. *)
Definition median (l : list cell) : cell :=
  let v := sort_by Qle_bool (dropna l) in
  let n := length v in
  match n with
  | O => None
  | _ =>
      if Nat.even n
      then Some (Qred ((nth (n / 2 - 1) v 0 + nth (n / 2) v 0) / 2))
      else Some (nth (n / 2) v 0)
  end.

(** [s.fillna(value)]; filling with NaN changes nothing. *)
Definition fillna (l : list cell) (value : cell) : list cell :=
  map (fun c => match c with
                | Some v => Some v
                | None => value
                end) l.

(** ** [process_aqi_data] *)

Definition numeric_cols : list string :=
  ["AQI"; "PM2.5"; "PM10"; "NO2"; "Ozone"]%string.

(** The body of the loop over [numeric_cols]. *)
Definition clean_column (df : DataFrame) (col : string) : result DataFrame :=
  if mem col (columns df) then
    v <- get_num df col ;;
    let df := set_col df col (SNum (interpolate v)) in
    v <- get_num df col ;;
    Ok (set_col df col (SNum (fillna v (median v))))
  else Ok df.

Fixpoint for_each {A S : Type} (body : S -> A -> result S) (l : list A)
    (s : S) : result S :=
  match l with
  | [] => Ok s
  | a :: t => s' <- body s a ;; for_each body t s'
  end.

Definition process_aqi_data (aqi_df : DataFrame) : result DataFrame :=
  df <- for_each clean_column numeric_cols aqi_df ;;
  aqi <- get_num df "AQI" ;;
  let df := set_col df "AQI_Category" (SCat (map aqi_category aqi)) in
  d <- get_date df "date" ;;
  let df := set_col df "date_dt" (SDate d) in
  d <- get_date df "date_dt" ;;
  let df := set_col df "day_of_week" (SStr (map day_name d)) in
  let df := set_col df "month" (SStr (map month_name d)) in
  let df := set_col df "is_weekend" (SBool (map is_weekend d)) in
  Ok df.

(** ** [process_transport_data] *)

(** A row of the raw transport table. *)
Record TransportEvent : Type := {
  ev_date : date;
  ev_mode : string;
  number_of_passengers : cell
}.

(** The sum of the values present; 0 when there is none. *)
Definition nansum (l : list cell) : Q :=
  fold_left (fun acc v => Qred (acc + v)) (dropna l) 0.

(** The events of the group [(d, m)]. *)
Definition group (events : list TransportEvent) (d : date) (m : string)
    : list TransportEvent :=
  filter (fun e => (ev_date e =? d)%Z && String.eqb (ev_mode e) m) events.

(** A cell of the pivot: the sum over the group, missing for a
    combination of date and mode without an event. *)
Definition pivot_cell (events : list TransportEvent) (d : date) (m : string)
    : cell :=
  match group events d m with
  | [] => None
  | g => Some (nansum (map number_of_passengers g))
  end.

(** The row keys of the pivot: the dates of the events, ascending. *)
Definition pivot_dates (events : list TransportEvent) : list date :=
  sort_by Z.leb (nodup Z.eq_dec (map ev_date events)).

(** The value columns of the pivot: the modes of the events, ascending. *)
Definition pivot_modes (events : list TransportEvent) : list string :=
  sort_by String.leb (nodup string_dec (map ev_mode events)).

Definition index_names : list string :=
  ["date"; "date_dt"; "day_of_week"; "month"; "is_weekend"]%string.

(** [pivot_table(index=[date and its calendar columns], columns='mode',
    values='number_of_passengers', aggfunc='sum').reset_index()].  The
    calendar columns are functions of the date, so the groups are those of
    [(date, mode)].  [reset_index] refuses a mode named as an index
    column. *)
Definition pivot_table (events : list TransportEvent) : result DataFrame :=
  let dates := pivot_dates events in
  let modes := pivot_modes events in
  match find (fun n => mem n modes) (rev index_names) with
  | Some n =>
      Raise (ValueError ("cannot insert " ++ n ++ ", already exists"))
  | None =>
      Ok ([("date", SDate dates);
           ("date_dt", SDate dates);
           ("day_of_week", SStr (map day_name dates));
           ("month", SStr (map month_name dates));
           ("is_weekend", SBool (map is_weekend dates))]%string
          ++ map (fun m => (m, SNum (map (fun d => pivot_cell events d m) dates)))
               modes)
  end.

(** An operand of [+]: a column, or the scalar default of [df.get]. *)
Inductive operand : Type :=
| Scalar (q : Q)
| Column (v : list cell).

Definition cell_add (a b : cell) : cell :=
  match a, b with
  | Some x, Some y => Some (Qred (x + y))
  | _, _ => None
  end.

Fixpoint zip_with {A B C : Type} (f : A -> B -> C) (l : list A) (r : list B)
    : list C :=
  match l, r with
  | a :: l', b :: r' => f a b :: zip_with f l' r'
  | _, _ => []
  end.

Definition operand_add (a b : operand) : operand :=
  match a, b with
  | Scalar x, Scalar y => Scalar (Qred (x + y))
  | Scalar x, Column v => Column (map (cell_add (Some x)) v)
  | Column v, Scalar y => Column (map (fun c => cell_add c (Some y)) v)
  | Column v, Column w => Column (zip_with cell_add v w)
  end.

(** [df.get(name, default)] on a float column. *)
Definition get_default (df : DataFrame) (name : string) (default : Q)
    : result operand :=
  match get_col df name with
  | Some s => v <- as_num s ;; Ok (Column v)
  | None => Ok (Scalar default)
  end.

(** The number of rows: the length of the first column. *)
Definition nrows (df : DataFrame) : nat :=
  match df with
  | [] => O
  | (_, SDate v) :: _ => length v
  | (_, SNum v) :: _ => length v
  | (_, SCat v) :: _ => length v
  | (_, SStr v) :: _ => length v
  | (_, SBool v) :: _ => length v
  end.

(** The value assigned to a column: a scalar fills every row. *)
Definition broadcast (n : nat) (o : operand) : list cell :=
  match o with
  | Scalar q => repeat (Some q) n
  | Column v => v
  end.

Definition process_transport_data (transport_df : list TransportEvent)
    : result DataFrame :=
  transport_pivot <- pivot_table transport_df ;;
  bus <- get_default transport_pivot "bus" 0 ;;
  metro <- get_default transport_pivot "metro" 0 ;;
  Ok (set_col transport_pivot "total_passengers"
        (SNum (broadcast (nrows transport_pivot) (operand_add bus metro)))).

(** ** [merge_datasets] *)

Definition enumerate {A : Type} (l : list A) : list (nat * A) :=
  combine (seq 0 (length l)) l.

(** The row pairs of an inner join on a date key: in the order of the
    left rows, each with its matches in the order of the right rows. *)
Definition join_indices (l r : list date) : list (nat * nat) :=
  flat_map (fun id =>
              map (fun je => (fst id, fst je))
                (filter (fun je => (snd je =? snd id)%Z) (enumerate r)))
    (enumerate l).

(** A name on both sides of a merge, other than the key. *)
Definition overlap (left right : DataFrame) (on n : string) : bool :=
  negb (String.eqb n on) && mem n (columns left) && mem n (columns right).

(** [pd.merge(left, right, on=on, how='inner', suffixes=suffixes)]: the
    columns of [left], then those of [right] but the key; a name on both
    sides other than the key takes the suffix of its side.  A table in
    which a suffixed name meets a name already there is outside the
    model (pandas 2 refuses it, pandas 1 warns); the properties state it
    on their tables with [suffix_free]. *)
Definition merge (left right : DataFrame) (on : string)
    (suffixes : string * string) : result DataFrame :=
  lk <- get_date left on ;;
  rk <- get_date right on ;;
  let pairs := join_indices lk rk in
  let rename sfx n :=
    if overlap left right on n then (n ++ sfx)%string else n in
  Ok (map (fun c => (rename (fst suffixes) (fst c),
                     series_take (map fst pairs) (snd c))) left
      ++ map (fun c => (rename (snd suffixes) (fst c),
                        series_take (map snd pairs) (snd c)))
           (filter (fun c => negb (String.eqb (fst c) on)) right)).

(** [s.endswith(suffix)] *)
Definition endswith (s suffix : string) : bool :=
  let n := String.length s in
  let k := String.length suffix in
  (k <=? n)%nat && String.eqb (substring (n - k) k s) suffix.

(** [df.drop(columns=[names selected by p])] *)
Definition drop_columns (p : string -> bool) (df : DataFrame) : DataFrame :=
  filter (fun c => negb (p (fst c))) df.

(** The order of two numbered rows by their dates. *)
Definition date_pair_leb (a b : nat * date) : bool := (snd a <=? snd b)%Z.

(** The row positions in ascending order of date; rows of one date keep
    their order. *)
Definition argsort (d : list date) : list nat :=
  map fst (sort_by date_pair_leb (enumerate d)).

(** [df.sort_values(by).reset_index(drop=True)] on a date column. *)
Definition sort_values (df : DataFrame) (by_ : string) : result DataFrame :=
  d <- get_date df by_ ;;
  Ok (map (fun c => (fst c, series_take (argsort d) (snd c))) df).

(** The instance: its only attribute is the cache of the last merge. *)
Record DataProcessor : Type := { merged_data : option DataFrame }.

(** [DataProcessor()] *)
Definition init : DataProcessor := {| merged_data := None |}.

Definition merge_datasets (self : DataProcessor) (aqi_df : DataFrame)
    (transport_df : list TransportEvent)
    : result (DataFrame * DataProcessor) :=
  aqi_processed <- process_aqi_data aqi_df ;;
  transport_processed <- process_transport_data transport_df ;;
  merged <- merge aqi_processed transport_processed "date"
              ("_aqi", "_transport")%string ;;
  s <- getitem merged "day_of_week_aqi" ;;
  let merged := set_col merged "day_of_week" s in
  s <- getitem merged "month_aqi" ;;
  let merged := set_col merged "month" s in
  s <- getitem merged "is_weekend_aqi" ;;
  let merged := set_col merged "is_weekend" s in
  let merged :=
    drop_columns (fun col => endswith col "_aqi" || endswith col "_transport")
      merged in
  merged <- sort_values merged "date" ;;
  Ok (merged, {| merged_data := Some merged |}).

(** ** Statistics *)

(** A dict with string keys, in insertion order. *)
Fixpoint dict_set {V : Type} (d : list (string * V)) (k : string) (v : V)
    : list (string * V) :=
  match d with
  | [] => [(k, v)]
  | (k0, v0) :: t =>
      if String.eqb k0 k then (k0, v) :: t else (k0, v0) :: dict_set t k v
  end.

Record CorrelationEntry : Type := {
  correlation : cell;
  p_value : cell;
  significant : bool
}.

Record ColumnStats : Type := {
  st_mean : cell;
  st_median : cell;
  st_std : cell;
  st_min : cell;
  st_max : cell
}.

(** The dict [get_summary_statistics] returns.  The category
    distribution is a dict, read without its order: the count of each
    category of the categorical column, in the order of the labels. *)
Record Summary : Type := {
  total_days : nat;
  date_range_start : option date;
  date_range_end : option date;
  aqi_stats : list (string * ColumnStats);
  transport_stats : list (string * ColumnStats);
  aqi_category_distribution : option (list (Category * nat))
}.

Definition Qsum (l : list Q) : Q := fold_left (fun acc v => Qred (acc + v)) l 0.

(** [s.mean()] *)
Definition mean (l : list cell) : cell :=
  match dropna l with
  | [] => None
  | v => Some (Qred (Qsum v / Qnat (length v)))
  end.

(** [s.min()] and [s.max()] *)
Definition Qmin_list (l : list cell) : cell :=
  match dropna l with
  | [] => None
  | x :: t => Some (fold_left (fun m v => if Qle_bool v m then v else m) t x)
  end.

Definition Qmax_list (l : list cell) : cell :=
  match dropna l with
  | [] => None
  | x :: t => Some (fold_left (fun m v => if Qle_bool m v then v else m) t x)
  end.

Definition date_min (l : list date) : option date :=
  match l with
  | [] => None
  | x :: t => Some (fold_left Z.min t x)
  end.

Definition date_max (l : list date) : option date :=
  match l with
  | [] => None
  | x :: t => Some (fold_left Z.max t x)
  end.

Definition category_eqb (a b : Category) : bool :=
  match a, b with
  | Good, Good | Moderate, Moderate
  | UnhealthyForSensitive, UnhealthyForSensitive | Unhealthy, Unhealthy
  | VeryUnhealthy, VeryUnhealthy | Hazardous, Hazardous => true
  | _, _ => false
  end.

(** [s.value_counts().to_dict()] on the categorical column. *)
Definition value_counts (l : list (option Category)) : list (Category * nat) :=
  map (fun c =>
         (c, length (filter (fun x => match x with
                                      | Some c' => category_eqb c c'
                                      | None => false
                                      end) l)))
    aqi_labels.

(** [s.shift(k)]: the rows move down by [k] (up when [k] is negative),
    the rows left empty are missing. *)
Definition shift (k : Z) (l : list cell) : list cell :=
  let n := length l in
  if (0 <=? k)%Z
  then firstn n (repeat None (Z.to_nat k) ++ l)
  else skipn (Z.to_nat (- k)) l ++ repeat None (Nat.min (Z.to_nat (- k)) n).

(** [s.rolling(window, min_periods=1).mean()]: at each row the mean of
    the values present among the last [window] rows. *)
Definition rolling_mean (window : nat) (l : list cell) : list cell :=
  map (fun i => mean (skipn (S i - window) (firstn (S i) l)))
    (seq 0 (length l)).

(** [str(k)] of an int. *)
Definition str_of_int (k : Z) : string := NilZero.string_of_int (Z.to_int k).

Definition transport_col_names : list string :=
  ["bus"; "metro"; "total_passengers"]%string.

Definition no_merged_data : exn :=
  ValueError "No merged data available. Run merge_datasets first.".

Section Numerics.

(** The floating-point routines of scipy and numpy the class calls, taken
    as given: the coefficient and the two-tailed p-value of
    [stats.pearsonr] on two sequences of one length, at least 2, and the
    square root behind [Series.std]. *)
Variable pearson_stat : list Q -> list Q -> cell * cell.
Variable sqrt_float : Q -> Q.

(** [stats.pearsonr(x, y)] with the checks it makes on its arguments:
    a [ValueError] for two lengths that differ and for fewer than 2
    values (the messages are those of scipy 1.10; they are not part of
    the properties below). *)
Definition pearsonr (x y : list Q) : result (cell * cell) :=
  if negb (length x =? length y)%nat
  then Raise (ValueError "x and y must have the same length.")
  else if (length x <? 2)%nat
  then Raise (ValueError "x and y must have length at least 2.")
  else Ok (pearson_stat x y).

(** [p_value < 0.05]; a comparison with NaN is false. *)
Definition below_threshold (p : cell) : bool :=
  match p with
  | Some p => negb (Qle_bool (5 # 100) p)
  | None => false
  end.

(** The body of the two nested loops of [calculate_correlations]. *)
Definition correlate_pair (merged_df : DataFrame) (aqi_col : string)
    (correlations : list (string * CorrelationEntry)) (transport_col : string)
    : result (list (string * CorrelationEntry)) :=
  if mem aqi_col (columns merged_df) && mem transport_col (columns merged_df)
  then
    x <- get_num merged_df aqi_col ;;
    y <- get_num merged_df transport_col ;;
    rp <- pearsonr (dropna x) (dropna y) ;;
    Ok (dict_set correlations (aqi_col ++ "_vs_" ++ transport_col)%string
          {| correlation := fst rp;
             p_value := snd rp;
             significant := below_threshold (snd rp) |})
  else Ok correlations.

Definition calculate_correlations (self : DataProcessor)
    (merged_df : option DataFrame)
    : result (list (string * CorrelationEntry)) :=
  let merged_df :=
    match merged_df with
    | None => merged_data self
    | Some t => Some t
    end in
  match merged_df with
  | None => Raise no_merged_data
  | Some merged_df =>
      let aqi_cols :=
        filter (fun col => mem col (columns merged_df)) numeric_cols in
      let transport_cols :=
        filter (fun col => mem col (columns merged_df)) transport_col_names in
      for_each (fun correlations aqi_col =>
                  for_each (correlate_pair merged_df aqi_col) transport_cols
                    correlations)
        aqi_cols []
  end.

(** [s.std()]: the sample standard deviation (N-1 denominator), NaN with
    fewer than two values. *)
Definition std (l : list cell) : cell :=
  let v := dropna l in
  match mean l with
  | None => None
  | Some m =>
      if (length v <? 2)%nat then None
      else Some (sqrt_float
                   (Qred (Qsum (map (fun x => (x - m) * (x - m)) v)
                          / Qnat (length v - 1))))
  end.

Definition describe (l : list cell) : ColumnStats :=
  {| st_mean := mean l;
     st_median := median l;
     st_std := std l;
     st_min := Qmin_list l;
     st_max := Qmax_list l |}.

(** The body of the loops over the statistics columns. *)
Definition describe_column (merged_df : DataFrame)
    (stats : list (string * ColumnStats)) (col : string)
    : result (list (string * ColumnStats)) :=
  if mem col (columns merged_df)
  then v <- get_num merged_df col ;; Ok (dict_set stats col (describe v))
  else Ok stats.

Definition get_summary_statistics (self : DataProcessor)
    (merged_df : option DataFrame) : result Summary :=
  let merged_df :=
    match merged_df with
    | None => merged_data self
    | Some t => Some t
    end in
  match merged_df with
  | None => Raise no_merged_data
  | Some merged_df =>
      d <- get_date merged_df "date" ;;
      a <- for_each (describe_column merged_df) numeric_cols [] ;;
      t <- for_each (describe_column merged_df) transport_col_names [] ;;
      dist <-
        (if mem "AQI_Category" (columns merged_df)
         then
           s <- getitem merged_df "AQI_Category" ;;
           match s with
           | SCat v => Ok (Some (value_counts v))
           | _ => Raise (TypeError "categorical column expected")
           end
         else Ok None) ;;
      Ok {| total_days := nrows merged_df;
            date_range_start := date_min d;
            date_range_end := date_max d;
            aqi_stats := a;
            transport_stats := t;
            aqi_category_distribution := dist |}
  end.

End Numerics.

(** ** [add_lag_features] *)

(** The body of the loop over [lag_days]. *)
Definition add_lag (merged_df : DataFrame) (lag : Z) : result DataFrame :=
  aqi <- get_num merged_df "AQI" ;;
  let merged_df :=
    set_col merged_df ("AQI_lag_" ++ str_of_int lag) (SNum (shift lag aqi)) in
  tot <- get_num merged_df "total_passengers" ;;
  Ok (set_col merged_df ("total_passengers_lag_" ++ str_of_int lag)
        (SNum (shift lag tot))).

(** The body of the loop over the rolling windows. *)
Definition add_rolling (merged_df : DataFrame) (window : nat)
    : result DataFrame :=
  aqi <- get_num merged_df "AQI" ;;
  let merged_df :=
    set_col merged_df
      ("AQI_rolling_" ++ str_of_int (Z.of_nat window) ++ "d")
      (SNum (rolling_mean window aqi)) in
  tot <- get_num merged_df "total_passengers" ;;
  Ok (set_col merged_df
        ("total_passengers_rolling_" ++ str_of_int (Z.of_nat window) ++ "d")
        (SNum (rolling_mean window tot))).

Definition default_lag_days : list Z := [1; 3; 7]%Z.

Definition add_lag_features (self : DataProcessor)
    (merged_df : option DataFrame) (lag_days : list Z) : result DataFrame :=
  merged_df <-
    match merged_df with
    | Some t => Ok t
    | None =>
        match merged_data self with
        | Some t => Ok t
        | None =>
            Raise (AttributeError "'NoneType' object has no attribute 'copy'")
        end
    end ;;
  merged_df <- sort_values merged_df "date" ;;
  merged_df <- for_each add_lag lag_days merged_df ;;
  for_each add_rolling [3; 7; 14]%nat merged_df.

(** ** Reading the tables *)

(** What the loop over [numeric_cols] leaves in a column. *)
Definition clean (v : list cell) : list cell :=
  fillna (interpolate v) (median (interpolate v)).

Definition clean_series (s : series) : series :=
  match s with
  | SNum v => SNum (clean v)
  | _ => s
  end.

(** The declared numeric columns that are present hold floats. *)
Definition numeric_ok (df : DataFrame) : Prop :=
  forall c s, In c numeric_cols -> get_col df c = Some s ->
              exists v, s = SNum v.

(** A raw AQI table: distinct column names, a date column, an AQI column
    and float pollutant columns. *)
Record aqi_table (df : DataFrame) (dates : list date) (aqi : list cell)
    : Prop := {
  at_names : NoDup (columns df);
  at_date : get_col df "date" = Some (SDate dates);
  at_aqi : get_col df "AQI" = Some (SNum aqi);
  at_num : numeric_ok df
}.

(** No name ends in the suffix [sfx]. *)
Definition suffix_free (sfx : string) (names : list string) : Prop :=
  forall n, In n names -> endswith n sfx = false.

(** The columns of the table [process_aqi_data] returns for the raw table
    [df] with the dates [dates] and the AQI column [aqi]. *)
Definition processed_aqi_col (df : DataFrame) (dates : list date)
    (aqi : list cell) (n : string) : option series :=
  if String.eqb "is_weekend" n then Some (SBool (map is_weekend dates))
  else if String.eqb "month" n then Some (SStr (map month_name dates))
  else if String.eqb "day_of_week" n then Some (SStr (map day_name dates))
  else if String.eqb "date_dt" n then Some (SDate dates)
  else if String.eqb "AQI_Category" n
       then Some (SCat (map aqi_category (clean aqi)))
  else if mem n numeric_cols then option_map clean_series (get_col df n)
  else get_col df n.

(** A column of the pivot: the cells of mode [m], by date. *)
Definition pivot_column (events : list TransportEvent) (m : string)
    : list cell :=
  map (fun d => pivot_cell events d m) (pivot_dates events).

(** The columns of the table [process_transport_data] returns. *)
Definition processed_transport_col (events : list TransportEvent)
    (total : list cell) (n : string) : option series :=
  let dates := pivot_dates events in
  if String.eqb "total_passengers" n then Some (SNum total)
  else if String.eqb "date" n then Some (SDate dates)
  else if String.eqb "date_dt" n then Some (SDate dates)
  else if String.eqb "day_of_week" n then Some (SStr (map day_name dates))
  else if String.eqb "month" n then Some (SStr (map month_name dates))
  else if String.eqb "is_weekend" n then Some (SBool (map is_weekend dates))
  else if mem n (pivot_modes events) then Some (SNum (pivot_column events n))
  else None.

(** What [df.get(m, 0)] contributes at the row of date [d]. *)
Definition mode_value (events : list TransportEvent) (d : date) (m : string)
    : cell :=
  if mem m (pivot_modes events) then pivot_cell events d m else Some 0.

(** [total_passengers] at the row of date [d]. *)
Definition row_total (events : list TransportEvent) (d : date) : cell :=
  cell_add (mode_value events d "bus") (mode_value events d "metro").

(** The [total_passengers] column of the processed transport table. *)
Definition total_column (events : list TransportEvent) : list cell :=
  map (row_total events) (pivot_dates events).

(** A raw transport table: no mode is named as a column of the pivot
    index, nor ends in the suffix of the merge. *)
Definition transport_table (events : list TransportEvent) : Prop :=
  (forall e, In e events -> ~ In (ev_mode e) index_names) /\
  suffix_free "_transport" (map ev_mode events).

(** A passenger count is whole: missing, or an integer. *)
Definition whole_count (c : cell) : bool :=
  match c with
  | None => true
  | Some q => (Qden q =? 1)%positive
  end.

Definition count_size (c : cell) : Z :=
  match c with
  | None => 0%Z
  | Some q => Z.abs (Qnum q)
  end.

(** The passenger counts are integers whose sizes add up to [2^53] at
    most.  Every sum of such counts is then the same in the 64-bit
    integers and in the doubles of pandas as in the rationals. *)
Definition exact_counts (events : list TransportEvent) : Prop :=
  forallb (fun e => whole_count (number_of_passengers e)) events = true /\
  (fold_right Z.add 0 (map (fun e => count_size (number_of_passengers e))
                         events) <= 2 ^ 53)%Z.

(** The dates of the joined rows, before sorting. *)
Definition joined_dates (l r : list date) : list date :=
  take_rows (map fst (join_indices l r)) l.

(** ** The total of a row, read from the events *)

(** The passengers of mode [m] on date [d]. *)
Definition mode_sum (events : list TransportEvent) (d : date) (m : string)
    : Q :=
  nansum (map number_of_passengers (group events d m)).





(** ** The rows behind a correlation *)

(** The rows in which both columns have a value: the pairwise-complete
    observations of the pair, as the specification words them. *)
Fixpoint paired_rows (x y : list cell) : list (Q * Q) :=
  match x, y with
  | Some a :: x', Some b :: y' => (a, b) :: paired_rows x' y'
  | _ :: x', _ :: y' => paired_rows x' y'
  | _, _ => []
  end.

Definition metric_cols : list string := numeric_cols ++ transport_col_names.

(** A merged table as the statistics read it: distinct column names,
    and the metric columns that are present hold floats. *)
Definition metrics_numeric (df : DataFrame) : Prop :=
  NoDup (columns df) /\
  forall c s, In c metric_cols -> get_col df c = Some s ->
              exists v, s = SNum v.

(** A result that is a value or a [ValueError]. *)
Definition ok_or_value_error {A : Type} (r : result A) : Prop :=
  (exists a, r = Ok a) \/ (exists msg, r = Raise (ValueError msg)).

(** ** The columns the lag features read *)

(** The date, AQI and total columns of a merged table. *)
Definition lag_inputs (df : DataFrame) (d : list date) (aqi tot : list cell)
    : Prop :=
  get_col df "date" = Some (SDate d) /\
  get_col df "AQI" = Some (SNum aqi) /\
  get_col df "total_passengers" = Some (SNum tot).


(** ** Sample tables *)

(** 2024-01-01, a Monday. *)
Definition jan1 : date := 738886%Z.

Definition mk_event (d : date) (m : string) (n : Q) : TransportEvent :=
  {| ev_date := d; ev_mode := m; number_of_passengers := Some n |}.

(** The AQI table of three days, out of order, and a transport table
    with bus and metro on the first two days and a fourth day without an
    AQI record. *)
Definition sample_aqi : DataFrame :=
  [("date", SDate [jan1 + 1; jan1; jan1 + 2]%Z);
   ("AQI", SNum [Some 120; Some 80; Some 40])]%string.

Definition sample_transport : list TransportEvent :=
  [mk_event jan1 "bus" 100; mk_event jan1 "metro" 200;
   mk_event (jan1 + 1)%Z "bus" 50; mk_event (jan1 + 1)%Z "metro" 70;
   mk_event (jan1 + 3)%Z "bus" 10].




(** The AQI readings at the edges of the scale the specification
    names. *)
Definition boundary_aqi : DataFrame :=
  [("date", SDate [jan1; jan1 + 1; jan1 + 2; jan1 + 3]%Z);
   ("AQI", SNum [Some 0; Some 50; Some 51; Some 500])]%string.

(** Two AQI readings outside the scale. *)
Definition out_of_scale_aqi : DataFrame :=
  [("date", SDate [jan1; jan1 + 1]%Z);
   ("AQI", SNum [Some 501; Some (-1)])]%string.

(** A PM10 column without a value, and no Ozone column. *)
Definition empty_pm10_aqi : DataFrame :=
  [("date", SDate [jan1; jan1 + 1]%Z);
   ("AQI", SNum [Some 80; Some 120]);
   ("PM10", SNum [None; None])]%string.

(** Three days, bus missing on the second. *)
Definition uneven_transport : list TransportEvent :=
  [mk_event jan1 "bus" 100; mk_event jan1 "metro" 200;
   mk_event (jan1 + 1)%Z "metro" 70;
   mk_event (jan1 + 2)%Z "bus" 50; mk_event (jan1 + 2)%Z "metro" 20].

(** A merged table of one day. *)
Definition one_day : DataFrame :=
  [("date", SDate [jan1]);
   ("AQI", SNum [Some 80]);
   ("total_passengers", SNum [Some 300])]%string.

(** A merged table whose two columns miss a value in different rows. *)
Definition staggered : DataFrame :=
  [("date", SDate [jan1; jan1 + 1; jan1 + 2; jan1 + 3]%Z);
   ("AQI", SNum [Some 10; None; Some 30; Some 20]);
   ("bus", SNum [None; Some 1; Some 3; Some 2])]%string.


(** ** Reading results *)

(** A row of the calendar columns: the flag is set on Saturday and
    Sunday, and on no other day. *)
Definition weekend_of_name (name : string) (flag : bool) : Prop :=
  flag = true <-> name = "Saturday"%string \/ name = "Sunday"%string.

(** ** Reading the correlations *)

(** The names of [names] that are columns of [df], in the order of
    [names]: the lists the loops of the statistics run over. *)
Definition present (df : DataFrame) (names : list string) : list string :=
  filter (fun col => mem col (columns df)) names.

(** The values of a float column, its missing rows dropped. *)
Definition float_values (df : DataFrame) (c : string) : list Q :=
  match get_col df c with
  | Some (SNum v) => dropna v
  | _ => []
  end.

(** The key of a metric pair in the dict of correlations. *)
Definition correlation_key (ab : string * string) : string :=
  (fst ab ++ "_vs_" ++ snd ab)%string.

(** The entry made of a result of the Pearson routine. *)
Definition entry_of (rp : cell * cell) : CorrelationEntry :=
  {| correlation := fst rp;
     p_value := snd rp;
     significant := below_threshold (snd rp) |}.

(** All metric pairs, whether their columns are present or not. *)
Definition all_metric_pairs : list (string * string) :=
  list_prod numeric_cols transport_col_names.

(** ** Reading the summary *)

(** The cells of a float column; none for another column. *)
Definition float_column (df : DataFrame) (c : string) : list cell :=
  match get_col df c with
  | Some (SNum v) => v
  | _ => []
  end.

(** A merged table as [get_summary_statistics] reads it: a date column,
    float metric columns and, if present, a categorical category. *)
Definition summary_table (df : DataFrame) (d : list date) : Prop :=
  metrics_numeric df /\
  get_col df "date" = Some (SDate d) /\
  forall s, get_col df "AQI_Category" = Some s -> exists v, s = SCat v.

(** The statistics [st] of a column with the values [v]: without a
    value all of them are missing; otherwise the minimum and the maximum
    are values of the column, no value lies outside them, and the median
    lies between them. *)
Definition stats_of_values (v : list Q) (st : ColumnStats) : Prop :=
  match v with
  | [] =>
      st_min st = None /\ st_max st = None /\ st_mean st = None /\
      st_median st = None /\ st_std st = None
  | _ =>
      exists lo hi med,
        st_min st = Some lo /\ st_max st = Some hi /\
        st_median st = Some med /\
        In lo v /\ In hi v /\ (forall x, In x v -> lo <= x <= hi) /\
        lo <= med <= hi
  end.

(** The number of rows that have a category. *)
Definition count_categorized (l : list (option Category)) : nat :=
  length (filter (fun x => match x with
                           | Some _ => true
                           | None => false
                           end) l).

(** A merged table of two days. *)
Definition two_days : DataFrame :=
  [("date", SDate [jan1; jan1 + 1]%Z);
   ("AQI", SNum [Some 80; Some 120]);
   ("AQI_Category", SCat [Some Moderate; Some UnhealthyForSensitive]);
   ("bus", SNum [Some 100; Some 50]);
   ("metro", SNum [Some 200; Some 70]);
   ("total_passengers", SNum [Some 300; Some 120])]%string.

(** ** Reading the pivot *)

(** The cell of mode [m] at date [d], read from the events: missing
    without an event of that mode on that date, the sum of the
    passengers of all such events otherwise. *)
Definition cell_of_events (events : list TransportEvent) (m : string)
    (d : date) (c : cell) : Prop :=
  (group events d m = [] -> c = None) /\
  (group events d m <> [] -> c = Some (mode_sum events d m)).

(** The sample transport table with its rows in the reverse order. *)
Definition shuffled_transport : list TransportEvent := rev sample_transport.

(** ** Reading the lag and rolling columns *)







(** ** [data_fetcher.py]: the AQI of a PM2.5 concentration *)

(** [int(x)] of a float: the integer towards zero. *)
Definition int_of_float (x : Q) : Z := Z.quot (Qnum x) (Zpos (Qden x)).

(** The breakpoints of [calculate_aqi_from_pm25]: the ends of a range of
    concentrations and the ends of its range of index values. *)
Definition breakpoints : list (Q * Q * Z * Z) :=
  [(0, 12.0, 0%Z, 50%Z); (12.1, 35.4, 51%Z, 100%Z);
   (35.5, 55.4, 101%Z, 150%Z); (55.5, 150.4, 151%Z, 200%Z);
   (150.5, 250.4, 201%Z, 300%Z); (250.5, 500.4, 301%Z, 500%Z)].

(** The loop over the breakpoints: the first range that holds the
    concentration answers, 500 is returned after the last one. *)
Fixpoint aqi_of_breakpoints (bps : list (Q * Q * Z * Z)) (pm25_value : Q)
    : Z :=
  match bps with
  | [] => 500%Z
  | (c_low, c_high, i_low, i_high) :: rest =>
      if Qle_bool c_low pm25_value && Qle_bool pm25_value c_high
      then int_of_float
             (inject_Z (i_high - i_low) / (c_high - c_low)
              * (pm25_value - c_low) + inject_Z i_low)
      else aqi_of_breakpoints rest pm25_value
  end.

(** [AQIDataFetcher.calculate_aqi_from_pm25]: NaN for a missing
    concentration, an [int] otherwise. *)
Definition calculate_aqi_from_pm25 (pm25_value : cell) : option Z :=
  match pm25_value with
  | None => None
  | Some v => Some (aqi_of_breakpoints breakpoints v)
  end.

(** The concentration [v] lies in the range of breakpoint [k]. *)
Definition in_breakpoint (k : nat) (v : Q) : Prop :=
  match nth_error breakpoints k with
  | Some (c_low, c_high, _, _) => c_low <= v <= c_high
  | None => False
  end.

(** ** [data_fetcher.py]: the generator of transport data *)

(** [date.timetuple().tm_yday], by the Gregorian cycles as [month_of]. *)
Definition day_of_year (d : date) : Z :=
  (let n := d - 1 in
   let n := n mod 146097 in
   let n100 := n / 36524 in
   let n := n mod 36524 in
   let n4 := n / 1461 in
   let n := n mod 1461 in
   let n1 := n / 365 in
   let n := n mod 365 in
   if (n1 =? 4) || (n100 =? 4) then 366 else n + 1)%Z.

(** [pd.date_range(start, periods, freq='D')] *)
Definition date_range (start : date) (periods : nat) : list date :=
  map (fun i => (start + Z.of_nat i)%Z) (seq 0 periods).

(** The fields [TransportDataGenerator.__init__] sets. *)
Record TransportDataGenerator : Type := {
  start_date : date;
  days : nat
}.

Section Generator.

(** The state of numpy's global random generator and
    [np.random.normal(loc, scale)], which draws a float and moves the
    state; [np.pi] and [np.sin]. *)
Variable rng : Type.
Variable normal : rng -> Q -> Q -> Q * rng.
Variable np_pi : Q.
Variable np_sin : Q -> Q.

Definition seasonal_factor (d : date) : Q :=
  1 + 0.3 * np_sin (2 * np_pi * inject_Z (day_of_year d - 80) / 365).

(** The body of the loop over the dates: the two rows of a day. *)
Definition generate_day (g : rng) (d : date) : list TransportEvent * rng :=
  let seasonal := seasonal_factor d in
  let '(base_bus, base_metro, g) :=
    if is_weekend d
    then let '(b, g) := normal g 8000 1500 in
         let '(m, g) := normal g 12000 2000 in (b, m, g)
    else let '(b, g) := normal g 15000 2500 in
         let '(m, g) := normal g 25000 3500 in (b, m, g) in
  let bus_passengers := Z.max 0 (int_of_float (base_bus * seasonal)) in
  let metro_passengers := Z.max 0 (int_of_float (base_metro * seasonal)) in
  ([mk_event d "bus" (inject_Z bus_passengers);
    mk_event d "metro" (inject_Z metro_passengers)], g).

Fixpoint generate_rows (g : rng) (dates : list date)
    : list TransportEvent * rng :=
  match dates with
  | [] => ([], g)
  | d :: t =>
      let '(rows, g) := generate_day g d in
      let '(rest, g) := generate_rows g t in
      (rows ++ rest, g)
  end.

(** [TransportDataGenerator.generate_transport_data]: the rows of the
    table and the state the generator is left in. *)
Definition generate_transport_data (self : TransportDataGenerator) (g : rng)
    : list TransportEvent * rng :=
  generate_rows g (date_range (start_date self) (days self)).

End Generator.

(** The two rows of a day with the passenger counts [c]. *)
Definition day_rows (d : date) (c : Z * Z) : list TransportEvent :=
  [mk_event d "bus" (inject_Z (fst c)); mk_event d "metro" (inject_Z (snd c))].

(** The rows of the days [dates] with the counts [counts]. *)
Fixpoint rows_of_days (dates : list date) (counts : list (Z * Z))
    : list TransportEvent :=
  match dates, counts with
  | d :: t, c :: ct => day_rows d c ++ rows_of_days t ct
  | _, _ => []
  end.

(** A cell that holds the integer [n]. *)
Definition int_cell (n : Z) : cell := Some (inject_Z n).

(** A generator that draws the mean, in a year without seasons. *)
Definition mean_draw (g : nat) (loc scale : Q) : Q * nat := (loc, S g).

Definition no_season (x : Q) : Q := 0.

Definition ten_days : TransportDataGenerator :=
  {| start_date := jan1; days := 10 |}.

(** ** [data_fetcher.py]: the sample tables *)

(** [max(0, x)] of a float. *)
Definition max0 (x : Q) : Q := if Qle_bool x 0 then 0 else x.

(** The AQI record of a day: AQI, PM2.5, PM10, NO2 and Ozone. *)
Record AQIRecord : Type := {
  rec_aqi : Z;
  rec_pm25 : Q;
  rec_pm10 : Q;
  rec_no2 : Q;
  rec_o3 : Q
}.

(** [pd.DataFrame(aqi_data)] for the records of the days [dates]. *)
Definition aqi_frame (dates : list date) (aqi_data : list AQIRecord)
    : DataFrame :=
  [("date", SDate dates);
   ("AQI", SNum (map (fun r => int_cell (rec_aqi r)) aqi_data));
   ("PM2.5", SNum (map (fun r => Some (rec_pm25 r)) aqi_data));
   ("PM10", SNum (map (fun r => Some (rec_pm10 r)) aqi_data));
   ("NO2", SNum (map (fun r => Some (rec_no2 r)) aqi_data));
   ("Ozone", SNum (map (fun r => Some (rec_o3 r)) aqi_data))]%string.

Section SampleData.

Variable rng : Type.
Variable normal : rng -> Q -> Q -> Q * rng.
Variable np_pi : Q.
Variable np_sin : Q -> Q.

(** The body of the loop of [save_sample_data] over the dates. *)
Definition sample_aqi_day (g : rng) (d : date) : AQIRecord * rng :=
  let base_aqi :=
    50 + 30 * np_sin (2 * np_pi * inject_Z (day_of_year d - 80) / 365) in
  let '(x, g) := normal g base_aqi 20 in
  let aqi := Z.max 0 (int_of_float x) in
  let '(x, g) := normal g (15 + inject_Z aqi * 0.3) 5 in
  let pm25 := max0 x in
  let '(x, g) := normal g (25 + inject_Z aqi * 0.4) 8 in
  let pm10 := max0 x in
  let '(x, g) := normal g (20 + inject_Z aqi * 0.2) 6 in
  let no2 := max0 x in
  let '(x, g) := normal g (30 + inject_Z aqi * 0.25) 7 in
  let o3 := max0 x in
  ({| rec_aqi := aqi; rec_pm25 := pm25; rec_pm10 := pm10; rec_no2 := no2;
      rec_o3 := o3 |}, g).

Fixpoint sample_aqi_rows (g : rng) (dates : list date)
    : list AQIRecord * rng :=
  match dates with
  | [] => ([], g)
  | d :: t =>
      let '(r, g) := sample_aqi_day g d in
      let '(rest, g) := sample_aqi_rows g t in
      (r :: rest, g)
  end.

(** [save_sample_data], as far as it computes: the transport table and
    the AQI table it writes to the two CSV files, 90 days from
    2024-01-01, and the state the generator is left in. *)
Definition save_sample_data (g : rng)
    : (list TransportEvent * DataFrame) * rng :=
  let transport_gen := {| start_date := jan1; days := 90 |} in
  let '(transport_df, g) :=
    generate_transport_data normal np_pi np_sin transport_gen g in
  let dates := date_range jan1 90 in
  let '(aqi_data, g) := sample_aqi_rows g dates in
  ((transport_df, aqi_frame dates aqi_data), g).

End SampleData.

(** * Properties *)

(** ** Boolean comparisons of rationals *)

Lemma Qle_bool_false (x y : Q) : Qle_bool x y = false -> y < x.
Proof.
  intros H. apply Qnot_le_lt. intros Hle.
  apply Qle_bool_iff in Hle. congruence.
Qed.

Lemma Qeq_bool_false (x y : Q) : Qeq_bool x y = false -> ~ x == y.
Proof.
  intros H Heq. apply Qeq_bool_iff in Heq. congruence.
Qed.

(** Turns the boolean tests recorded in the context into (in)equalities. *)
Ltac qprops :=
  repeat match goal with
         | H : Qle_bool _ _ = true |- _ => apply Qle_bool_iff in H
         | H : Qle_bool _ _ = false |- _ => apply Qle_bool_false in H
         | H : Qeq_bool _ _ = true |- _ => apply Qeq_bool_iff in H
         | H : Qeq_bool _ _ = false |- _ => apply Qeq_bool_false in H
         end.

(** Decides every comparison of [v] with an edge of [aqi_bins], then
    closes the branch by arithmetic or by evaluation. *)
Ltac bin_cases v :=
  unfold aqi_category, cut, aqi_bins, aqi_labels, searchsorted_left, hd;
  destruct (Qeq_bool v 0) eqn:?; destruct (Qle_bool v 0) eqn:?;
  destruct (Qle_bool v 50) eqn:?; destruct (Qle_bool v 100) eqn:?;
  destruct (Qle_bool v 150) eqn:?; destruct (Qle_bool v 200) eqn:?;
  destruct (Qle_bool v 300) eqn:?; destruct (Qle_bool v 500) eqn:?;
  try reflexivity; qprops; exfalso; lra.

(** ** Small inputs *)

Example interpolate_interior :
  interpolate [Some 40; None; Some 60] = [Some 40; Some 50; Some 60].
Proof. reflexivity. Qed.

Example clean_edges :
  clean [None; Some 40; None; None; Some 70; None]
  = [Some 60; Some 40; Some 50; Some 60; Some 70; Some 70].
Proof. reflexivity. Qed.

Example shift_one :
  shift 1 [Some 10; Some 20; Some 30] = [None; Some 10; Some 20].
Proof. reflexivity. Qed.

Example rolling_truncated :
  rolling_mean 7 [Some 10; Some 20; Some 30] = [Some 10; Some 15; Some 20].
Proof. reflexivity. Qed.

Example calendar_of_jan1 :
  (day_name jan1, month_name jan1, is_weekend jan1, is_weekend (jan1 + 5)%Z)
  = ("Monday"%string, "January"%string, false, true).
Proof. reflexivity. Qed.

Example month_ends :
  map month_of [738885; 738945; 738946; 739251]%Z = [12; 2; 3; 12]%Z.
Proof. reflexivity. Qed.

Example merged_sample :
  exists M self,
    merge_datasets init sample_aqi sample_transport = Ok (M, self) /\
    M = [("date", SDate [jan1; jan1 + 1]%Z);
         ("AQI", SNum [Some 80; Some 120]);
         ("AQI_Category", SCat [Some Moderate; Some UnhealthyForSensitive]);
         ("bus", SNum [Some 100; Some 50]);
         ("metro", SNum [Some 200; Some 70]);
         ("total_passengers", SNum [Some 300; Some 120]);
         ("day_of_week", SStr ["Monday"; "Tuesday"]);
         ("month", SStr ["January"; "January"]);
         ("is_weekend", SBool [false; false])]%string.
Proof. eexists. eexists. split; reflexivity. Qed.

(** ** AQI categories *)

(** The category of one cell of the scale: the bins are closed on the
    right, and the lowest edge 0 lies in the first bin. *)
Lemma aqi_category_breakpoints : forall v : Q,
  (0 <= v <= 50 -> aqi_category (Some v) = Some Good) /\
  (50 < v <= 100 -> aqi_category (Some v) = Some Moderate) /\
  (100 < v <= 150 -> aqi_category (Some v) = Some UnhealthyForSensitive) /\
  (150 < v <= 200 -> aqi_category (Some v) = Some Unhealthy) /\
  (200 < v <= 300 -> aqi_category (Some v) = Some VeryUnhealthy) /\
  (300 < v <= 500 -> aqi_category (Some v) = Some Hazardous) /\
  aqi_category (Some 0) = Some Good /\
  aqi_category (Some 50) = Some Good /\
  aqi_category (Some 51) = Some Moderate /\
  aqi_category (Some 500) = Some Hazardous.
Proof.
  intros v.
  repeat split; try reflexivity; intros [Hlo Hhi]; bin_cases v.
Qed.

Lemma aqi_category_out_of_domain (v : Q) :
  v < 0 \/ 500 < v -> aqi_category (Some v) = None.
Proof.
  intros [H | H]; bin_cases v.
Qed.

(** ** Frames *)

Lemma get_set_same (df : DataFrame) (n : string) (s : series) :
  get_col (set_col df n s) n = Some s.
Proof.
  induction df as [| [m s0] t IH]; simpl.
  - now rewrite String.eqb_refl.
  - destruct (String.eqb m n) eqn:E; simpl; rewrite E; auto.
Qed.

Lemma get_set_other (df : DataFrame) (n m : string) (s : series) :
  n <> m -> get_col (set_col df n s) m = get_col df m.
Proof.
  intros Hnm. induction df as [| [k s0] t IH]; simpl.
  - apply String.eqb_neq in Hnm. now rewrite Hnm.
  - destruct (String.eqb k n) eqn:E; simpl.
    + apply String.eqb_eq in E. subst k.
      apply String.eqb_neq in Hnm. now rewrite Hnm.
    + now rewrite IH.
Qed.

Lemma get_set (df : DataFrame) (n m : string) (s : series) :
  get_col (set_col df n s) m =
  if String.eqb n m then Some s else get_col df m.
Proof.
  destruct (String.eqb n m) eqn:E.
  - apply String.eqb_eq in E. subst m. apply get_set_same.
  - apply String.eqb_neq in E. now apply get_set_other.
Qed.

Lemma mem_columns (df : DataFrame) (n : string) :
  mem n (columns df) =
  match get_col df n with
  | Some _ => true
  | None => false
  end.
Proof.
  unfold mem, columns. induction df as [| [m s] t IH]; simpl; auto.
  rewrite (String.eqb_sym n m). destruct (String.eqb m n); simpl; auto.
Qed.

Lemma mem_In (n : string) (l : list string) : mem n l = true <-> In n l.
Proof.
  unfold mem. rewrite existsb_exists. split.
  - intros [x [Hx E]]. apply String.eqb_eq in E. now subst.
  - intros H. exists n. split; auto. apply String.eqb_refl.
Qed.

Lemma mem_not_In (n : string) (l : list string) :
  mem n l = false <-> ~ In n l.
Proof.
  rewrite <- mem_In. destruct (mem n l); split; congruence.
Qed.

(** ** [process_aqi_data] *)

Lemma clean_column_spec (df : DataFrame) (col : string) :
  (forall s, get_col df col = Some s -> exists v, s = SNum v) ->
  exists df',
    clean_column df col = Ok df' /\
    forall n, get_col df' n =
              if String.eqb col n then option_map clean_series (get_col df col)
              else get_col df n.
Proof.
  intros Hnum. unfold clean_column. rewrite mem_columns.
  destruct (get_col df col) as [s |] eqn:E.
  - destruct (Hnum s eq_refl) as [v ->].
    unfold get_num, getitem. rewrite E. simpl.
    rewrite get_set_same. simpl.
    eexists. split; [reflexivity |]. intros n.
    rewrite !get_set. destruct (String.eqb col n); reflexivity.
  - exists df. split; [reflexivity |]. intros n.
    destruct (String.eqb col n) eqn:En; auto.
    apply String.eqb_eq in En. subst n. now rewrite E.
Qed.

Lemma for_each_clean (l : list string) : forall df : DataFrame,
  NoDup l ->
  (forall c s, In c l -> get_col df c = Some s -> exists v, s = SNum v) ->
  exists df',
    for_each clean_column l df = Ok df' /\
    forall n, get_col df' n =
              if mem n l then option_map clean_series (get_col df n)
              else get_col df n.
Proof.
  induction l as [| c l IH]; intros df Hnd Hnum; simpl.
  - exists df. split; auto.
  - inversion Hnd as [| ? ? Hc Hl]; subst.
    destruct (clean_column_spec df c) as [df1 [E1 G1]].
    { intros s. apply Hnum. now left. }
    rewrite E1. simpl.
    destruct (IH df1 Hl) as [df2 [E2 G2]].
    { intros c' s Hin. rewrite G1.
      destruct (String.eqb c c') eqn:Ec.
      - apply String.eqb_eq in Ec. subst c'. contradiction.
      - apply Hnum. now right. }
    exists df2. split; [exact E2 |]. intros n.
    rewrite G2, G1. unfold mem at 2. simpl.
    rewrite (String.eqb_sym n c).
    destruct (String.eqb c n) eqn:Ec; simpl.
    + apply String.eqb_eq in Ec. subst n.
      apply mem_not_In in Hc. now rewrite Hc.
    + fold (mem n l). reflexivity.
Qed.

Lemma NoDup_numeric_cols : NoDup numeric_cols.
Proof.
  unfold numeric_cols.
  repeat (constructor; [simpl; intuition discriminate |]). constructor.
Qed.

Lemma process_aqi_data_spec (df : DataFrame) (dates : list date)
    (aqi : list cell) :
  aqi_table df dates aqi ->
  exists out,
    process_aqi_data df = Ok out /\
    forall n, get_col out n = processed_aqi_col df dates aqi n.
Proof.
  intros [_ Hd Ha Hn].
  destruct (for_each_clean df NoDup_numeric_cols Hn) as [df1 [E1 G1]].
  unfold process_aqi_data. rewrite E1. simpl.
  unfold get_num, get_date, getitem.
  rewrite G1, Ha. simpl.
  rewrite get_set, G1, Hd. simpl.
  rewrite get_set_same. simpl.
  eexists. split; [reflexivity |]. intros n.
  unfold processed_aqi_col. rewrite !get_set, G1.
  repeat match goal with
         | |- context [String.eqb ?a n] => destruct (String.eqb a n); auto
         end.
Qed.

(** ** Sorting *)

Section SortBy.

Context {A : Type} (leb : A -> A -> bool).

Lemma insert_by_perm (x : A) (l : list A) :
  Permutation (insert_by leb x l) (x :: l).
Proof.
  induction l as [| y t IH]; simpl; auto.
  destruct (leb x y); auto.
  rewrite IH. apply perm_swap.
Qed.

Lemma sort_by_perm (l : list A) : Permutation (sort_by leb l) l.
Proof.
  induction l as [| x t IH]; simpl; auto.
  unfold sort_by in *. simpl. rewrite insert_by_perm. now constructor.
Qed.

Hypothesis leb_total : forall a b, leb a b = false -> leb b a = true.

Lemma insert_by_sorted (x : A) (l : list A) :
  Sorted (fun a b => leb a b = true) l ->
  Sorted (fun a b => leb a b = true) (insert_by leb x l).
Proof.
  induction 1 as [| y t Hs IH Hhd]; simpl.
  - repeat constructor.
  - destruct (leb x y) eqn:E.
    + constructor; [constructor; auto | constructor; auto].
    + constructor; auto.
      destruct t as [| z t']; simpl.
      * constructor. auto.
      * destruct (leb x z); constructor; auto.
        now inversion Hhd.
Qed.

Lemma sort_by_sorted (l : list A) :
  Sorted (fun a b => leb a b = true) (sort_by leb l).
Proof.
  induction l as [| x t IH]; simpl.
  - constructor.
  - apply insert_by_sorted. exact IH.
Qed.

End SortBy.

Lemma sort_by_In {A : Type} (leb : A -> A -> bool) (l : list A) (x : A) :
  In x (sort_by leb l) <-> In x l.
Proof.
  split; apply Permutation_in;
    [| symmetry]; apply sort_by_perm.
Qed.

(** ** [process_transport_data] *)

Lemma get_col_app (a b : DataFrame) (n : string) :
  get_col (a ++ b) n =
  match get_col a n with
  | Some s => Some s
  | None => get_col b n
  end.
Proof.
  induction a as [| [m s] t IH]; simpl; auto.
  destruct (String.eqb m n); auto.
Qed.

Lemma get_col_map_key (f : string -> series) (l : list string) (n : string) :
  get_col (map (fun m => (m, f m)) l) n = if mem n l then Some (f n) else None.
Proof.
  unfold mem. induction l as [| m t IH]; simpl; auto.
  rewrite (String.eqb_sym n m).
  destruct (String.eqb m n) eqn:E; simpl; auto.
  apply String.eqb_eq in E. now subst.
Qed.

Lemma pivot_modes_In (events : list TransportEvent) (m : string) :
  In m (pivot_modes events) <-> exists e, In e events /\ ev_mode e = m.
Proof.
  unfold pivot_modes. rewrite sort_by_In, nodup_In, in_map_iff.
  split; intros [e [H1 H2]]; exists e; auto.
Qed.

Lemma pivot_dates_In (events : list TransportEvent) (d : date) :
  In d (pivot_dates events) <-> In d (map ev_date events).
Proof.
  unfold pivot_dates. now rewrite sort_by_In, nodup_In.
Qed.

Lemma find_none_iff {A : Type} (p : A -> bool) (l : list A) :
  find p l = None <-> forall x, In x l -> p x = false.
Proof.
  split.
  - intros H x. now apply find_none.
  - induction l as [| a t IH]; simpl; auto.
    intros H. rewrite (H a) by now left. apply IH. intros x Hx.
    apply H. now right.
Qed.

Lemma pivot_table_ok (events : list TransportEvent) :
  transport_table events ->
  find (fun n => mem n (pivot_modes events)) (rev index_names) = None.
Proof.
  intros [H _]. apply find_none_iff. intros n Hn.
  apply mem_not_In. rewrite pivot_modes_In.
  intros [e [He Hm]]. apply (H e He). rewrite Hm. now apply in_rev.
Qed.

Lemma zip_with_map {A B C D : Type} (f : B -> C -> D) (g : A -> B)
    (h : A -> C) (l : list A) :
  zip_with f (map g l) (map h l) = map (fun x => f (g x) (h x)) l.
Proof.
  induction l as [| x t IH]; simpl; congruence.
Qed.

Lemma repeat_map {A B : Type} (c : B) (l : list A) :
  repeat c (length l) = map (fun _ => c) l.
Proof.
  induction l as [| x t IH]; simpl; congruence.
Qed.

Lemma total_column_eq (events : list TransportEvent) :
  let operand_of m :=
    if mem m (pivot_modes events) then Column (pivot_column events m)
    else Scalar 0 in
  broadcast (length (pivot_dates events))
    (operand_add (operand_of "bus"%string) (operand_of "metro"%string))
  = total_column events.
Proof.
  unfold total_column, row_total, mode_value, pivot_column. simpl.
  destruct (mem "bus" (pivot_modes events));
    destruct (mem "metro" (pivot_modes events)); simpl.
  - apply zip_with_map.
  - now rewrite map_map.
  - now rewrite map_map.
  - apply repeat_map.
Qed.

Lemma process_transport_data_spec (events : list TransportEvent) :
  transport_table events ->
  exists out,
    process_transport_data events = Ok out /\
    forall n, get_col out n =
              processed_transport_col events (total_column events) n.
Proof.
  intros Hok. apply pivot_table_ok in Hok.
  unfold process_transport_data, pivot_table. rewrite Hok.
  cbn [bind]. unfold get_default.
  rewrite !get_col_app. cbn [get_col String.eqb Ascii.eqb Bool.eqb].
  rewrite !get_col_map_key.
  pose proof (total_column_eq events) as Htot.
  cbv beta zeta in Htot. unfold pivot_column in Htot.
  destruct (mem "bus" (pivot_modes events)) eqn:Eb;
    destruct (mem "metro" (pivot_modes events)) eqn:Em;
    cbn [bind as_num nrows app];
    (eexists; split; [reflexivity |]); intros n;
    rewrite get_set, Htot; unfold processed_transport_col;
    (destruct (String.eqb "total_passengers" n); [reflexivity |]);
    cbn [get_col];
    repeat match goal with
           | |- context [String.eqb ?a n] => destruct (String.eqb a n); auto
           end;
    apply get_col_map_key.
Qed.

(** ** Strings *)

Lemma length_append (a b : string) :
  String.length (a ++ b) = (String.length a + String.length b)%nat.
Proof.
  induction a as [| c a IH]; simpl; congruence.
Qed.

Lemma substring_append (a b : string) (k : nat) :
  substring (String.length a) k (a ++ b) = substring 0 k b.
Proof.
  induction a as [| c a IH]; simpl; auto.
Qed.

Lemma substring_all (b : string) : substring 0 (String.length b) b = b.
Proof.
  induction b as [| c b IH]; simpl; congruence.
Qed.

Lemma endswith_append (a b : string) : endswith (a ++ b) b = true.
Proof.
  unfold endswith. rewrite length_append.
  replace (String.length a + String.length b - String.length b)%nat
    with (String.length a) by lia.
  rewrite substring_append, substring_all, String.eqb_refl.
  rewrite andb_true_r. apply Nat.leb_le. lia.
Qed.

(** ** Selecting rows *)


Lemma take_rows_pairs {A : Type} (l : list A) (ps : list (nat * A)) :
  Forall (fun p => nth_error l (fst p) = Some (snd p)) ps ->
  take_rows (map fst ps) l = map snd ps.
Proof.
  unfold take_rows. induction 1 as [| p t Hp Ht IH]; simpl; auto.
  rewrite Hp, IH. reflexivity.
Qed.

Lemma enumerate_from_In {A : Type} (l : list A) : forall (k i : nat) (x : A),
  In (i, x) (combine (seq k (length l)) l) <->
  (k <= i)%nat /\ nth_error l (i - k) = Some x.
Proof.
  induction l as [| a t IH]; intros k i x; simpl.
  - split; [tauto |]. intros [_ H]. destruct (i - k)%nat; discriminate.
  - rewrite IH. split.
    + intros [E | [Hk Hn]].
      * inversion E; subst. rewrite Nat.sub_diag. split; auto.
      * split; [lia |].
        replace (i - k)%nat with (S (i - S k)) by lia. exact Hn.
    + intros [Hk Hn]. destruct (i - k)%nat as [| m] eqn:E.
      * left. inversion Hn; subst. f_equal. lia.
      * right. split; [lia |].
        replace (i - S k)%nat with m by lia. exact Hn.
Qed.

Lemma enumerate_In {A : Type} (l : list A) (i : nat) (x : A) :
  In (i, x) (enumerate l) <-> nth_error l i = Some x.
Proof.
  unfold enumerate. rewrite enumerate_from_In, Nat.sub_0_r.
  split; [tauto | intros H; split; [lia | exact H]].
Qed.

Lemma enumerate_snd {A : Type} (l : list A) : map snd (enumerate l) = l.
Proof.
  unfold enumerate. generalize 0%nat.
  induction l as [| a t IH]; intros k; simpl; auto.
  now rewrite IH.
Qed.



(** ** Columns through [merge], [drop] and [sort_values] *)

Lemma get_col_map_values (f : series -> series) (df : DataFrame)
    (n : string) :
  get_col (map (fun c => (fst c, f (snd c))) df) n =
  option_map f (get_col df n).
Proof.
  induction df as [| [m s] t IH]; simpl; auto.
  destruct (String.eqb m n); auto.
Qed.

Lemma get_col_filter (q : string -> bool) (df : DataFrame) (n : string) :
  get_col (filter (fun c => q (fst c)) df) n =
  if q n then get_col df n else None.
Proof.
  induction df as [| [m s] t IH]; simpl.
  - now destruct (q n).
  - destruct (q m) eqn:Eq; simpl; destruct (String.eqb m n) eqn:E; auto.
    + apply String.eqb_eq in E. subst m. now rewrite Eq.
    + apply String.eqb_eq in E. subst m. now rewrite IH, Eq.
Qed.

Lemma get_col_drop (p : string -> bool) (df : DataFrame) (n : string) :
  get_col (drop_columns p df) n = if p n then None else get_col df n.
Proof.
  unfold drop_columns.
  rewrite (get_col_filter (fun m => negb (p m))). now destruct (p n).
Qed.

(** A column whose name does not end in the suffix comes out of the
    renaming under its own name, unless it was renamed. *)
Lemma get_col_map_suffix (ov : string -> bool) (sfx : string)
    (f : series -> series) (df : DataFrame) (c : string) :
  endswith c sfx = false ->
  get_col (map (fun col => (if ov (fst col) then (fst col ++ sfx)%string
                            else fst col, f (snd col))) df) c =
  if ov c then None else option_map f (get_col df c).
Proof.
  intros Hc. induction df as [| [m s] t IH]; simpl.
  - now destruct (ov c).
  - destruct (ov m) eqn:Em.
    + destruct (String.eqb (m ++ sfx) c) eqn:E.
      * apply String.eqb_eq in E. subst c.
        rewrite endswith_append in Hc. discriminate.
      * rewrite IH. destruct (String.eqb m c) eqn:E'; auto.
        apply String.eqb_eq in E'. subst m. now rewrite Em.
    + destruct (String.eqb m c) eqn:E.
      * apply String.eqb_eq in E. subst m. now rewrite Em.
      * exact IH.
Qed.

(** A renamed column is present under its new name. *)
Lemma get_col_map_renamed (ov : string -> bool) (sfx : string)
    (f : series -> series) (df : DataFrame) (c : string) :
  ov c = true -> get_col df c <> None ->
  get_col (map (fun col => (if ov (fst col) then (fst col ++ sfx)%string
                            else fst col, f (snd col))) df)
    (c ++ sfx)%string <> None.
Proof.
  intros Hov. induction df as [| [m s] t IH]; simpl; auto.
  destruct (String.eqb m c) eqn:E.
  - apply String.eqb_eq in E. subst m. rewrite Hov, String.eqb_refl.
    discriminate.
  - intros H. match goal with |- context [String.eqb ?a ?b] =>
      destruct (String.eqb a b) end; [discriminate | auto].
Qed.

Lemma merge_spec (L R : DataFrame) (lk rk : list date) :
  get_col L "date" = Some (SDate lk) ->
  get_col R "date" = Some (SDate rk) ->
  exists M0,
    merge L R "date" ("_aqi", "_transport")%string = Ok M0 /\
    (forall c, endswith c "_aqi" = false -> endswith c "_transport" = false ->
       get_col M0 c =
       if overlap L R "date" c then None
       else match get_col L c with
            | Some s => Some (series_take (map fst (join_indices lk rk)) s)
            | None =>
                if String.eqb c "date" then None
                else option_map (series_take (map snd (join_indices lk rk)))
                       (get_col R c)
            end) /\
    (forall c, overlap L R "date" c = true -> get_col M0 (c ++ "_aqi") <> None).
Proof.
  intros HL HR. unfold merge, get_date, getitem. rewrite HL, HR.
  cbn [bind as_date fst snd].
  eexists. split; [reflexivity |]. split.
  - intros c Ha Ht. rewrite get_col_app.
    rewrite (get_col_map_suffix (overlap L R "date") "_aqi" _ L c Ha).
    destruct (overlap L R "date" c) eqn:Eo.
    + rewrite (get_col_map_suffix (overlap L R "date") "_transport" _ _ c Ht).
      now rewrite Eo.
    + destruct (get_col L c) as [s |] eqn:El; cbn [option_map]; auto.
      rewrite (get_col_map_suffix (overlap L R "date") "_transport" _ _ c Ht).
      rewrite Eo.
      rewrite (get_col_filter (fun n => negb (String.eqb n "date"))).
      now destruct (String.eqb c "date").
  - intros c Ho Hnone. rewrite get_col_app in Hnone.
    assert (Hc : get_col L c <> None).
    { unfold overlap in Ho. apply andb_true_iff in Ho. destruct Ho as [Ho _].
      apply andb_true_iff in Ho. destruct Ho as [_ Ho].
      rewrite mem_columns in Ho. destruct (get_col L c); congruence. }
    pose proof (get_col_map_renamed (overlap L R "date") "_aqi"
                  (series_take (map fst (join_indices lk rk))) L c Ho Hc) as Hr.
    cbv beta zeta in Hnone. cbn [fst snd] in Hnone.
    match type of Hnone with
    | match ?x with _ => _ end = None => destruct x; congruence
    end.
Qed.

(** ** [merge_datasets] *)

Lemma processed_aqi_date (A : DataFrame) (dA : list date) (aq : list cell) :
  aqi_table A dA aq -> processed_aqi_col A dA aq "date" = Some (SDate dA).
Proof.
  intros [_ Hd _ _]. exact Hd.
Qed.

Lemma merge_datasets_spec (self : DataProcessor) (A : DataFrame)
    (T : list TransportEvent) (dA : list date) (aq : list cell) :
  aqi_table A dA aq -> transport_table T ->
  exists L R M0 M,
    process_aqi_data A = Ok L /\
    (forall n, get_col L n = processed_aqi_col A dA aq n) /\
    process_transport_data T = Ok R /\
    (forall n, get_col R n = processed_transport_col T (total_column T) n) /\
    merge L R "date" ("_aqi", "_transport")%string = Ok M0 /\
    merge_datasets self A T = Ok (M, {| merged_data := Some M |}) /\
    get_col M "date" =
      Some (SDate (take_rows (argsort (joined_dates dA (pivot_dates T)))
                     (joined_dates dA (pivot_dates T)))) /\
    forall c,
      endswith c "_aqi" = false -> endswith c "_transport" = false ->
      c <> "day_of_week"%string -> c <> "month"%string ->
      c <> "is_weekend"%string ->
      get_col M c =
      option_map (series_take (argsort (joined_dates dA (pivot_dates T))))
        (get_col M0 c).
Proof.
  intros HA HT.
  destruct (process_aqi_data_spec HA) as [L [EL GL]].
  destruct (process_transport_data_spec HT) as [R [ER GR]].
  assert (HLd : get_col L "date" = Some (SDate dA)).
  { rewrite GL. now apply processed_aqi_date. }
  assert (HRd : get_col R "date" = Some (SDate (pivot_dates T))).
  { rewrite GR. reflexivity. }
  destruct (merge_spec L R HLd HRd) as [M0 [EM0 [GM0 PM0]]].
  assert (Hov : forall c, In c ["day_of_week"; "month"; "is_weekend"]%string ->
                          get_col M0 (c ++ "_aqi") <> None).
  { intros c Hc. apply PM0. unfold overlap.
    rewrite !mem_columns, GL, GR.
    simpl in Hc. destruct Hc as [<- | [<- | [<- | []]]]; reflexivity. }
  assert (HM0d : get_col M0 "date" =
                 Some (SDate (joined_dates dA (pivot_dates T)))).
  { rewrite GM0 by reflexivity.
    unfold overlap. rewrite String.eqb_refl. cbn [negb andb].
    now rewrite HLd. }
  unfold merge_datasets. rewrite EL, ER. cbn [bind]. rewrite EM0. cbn [bind].
  unfold getitem.
  destruct (get_col M0 "day_of_week_aqi") as [s1 |] eqn:E1;
    [| exfalso; apply (Hov "day_of_week"%string); simpl; auto].
  cbn [bind]. rewrite get_set. cbn [String.eqb Ascii.eqb Bool.eqb].
  destruct (get_col M0 "month_aqi") as [s2 |] eqn:E2;
    [| exfalso; apply (Hov "month"%string); simpl; auto].
  cbn [bind]. rewrite !get_set. cbn [String.eqb Ascii.eqb Bool.eqb].
  destruct (get_col M0 "is_weekend_aqi") as [s3 |] eqn:E3;
    [| exfalso; apply (Hov "is_weekend"%string); simpl; auto].
  cbn [bind]. unfold sort_values, get_date, getitem.
  rewrite get_col_drop.
  replace (endswith "date" "_aqi" || endswith "date" "_transport")
    with false by reflexivity.
  rewrite !get_set. cbn [String.eqb Ascii.eqb Bool.eqb].
  rewrite HM0d. cbn [bind as_date].
  exists L, R, M0. eexists.
  repeat (split; [first [eassumption | reflexivity] |]).
  split.
  - rewrite get_col_map_values, get_col_drop.
    replace (endswith "date" "_aqi" || endswith "date" "_transport")
      with false by reflexivity.
    rewrite !get_set. cbn [String.eqb Ascii.eqb Bool.eqb].
    rewrite HM0d. reflexivity.
  - intros c Ha Ht H1 H2 H3.
    rewrite get_col_map_values, get_col_drop, Ha, Ht. cbn [orb].
    rewrite !get_set.
    apply String.eqb_neq in H1, H2, H3.
    rewrite String.eqb_sym in H1, H2, H3.
    rewrite H1, H2, H3. reflexivity.
Qed.

(** ** The dates of an inner join *)

Lemma flat_map_if_filter {A : Type} (p : A -> bool) (l : list A) :
  flat_map (fun d => if p d then [d] else []) l = filter p l.
Proof.
  induction l as [| a t IH]; simpl; auto.
  destruct (p a); simpl; congruence.
Qed.

Lemma matches_of_unique (d : date) (er : list (nat * date)) :
  NoDup (map snd er) ->
  map (fun _ => d) (filter (fun je => (snd je =? d)%Z) er) =
  if existsb (Z.eqb d) (map snd er) then [d] else [].
Proof.
  induction er as [| [j e] t IH]; simpl; auto.
  intros Hnd. inversion Hnd as [| ? ? Hnot Hnd']; subst.
  specialize (IH Hnd'). rewrite (Z.eqb_sym d e).
  destruct (e =? d)%Z eqn:E; simpl; auto.
  apply Z.eqb_eq in E. subst e.
  destruct (existsb (Z.eqb d) (map snd t)) eqn:Ex.
  - apply existsb_exists in Ex. destruct Ex as [x [Hx Hdx]].
    apply Z.eqb_eq in Hdx. subst x. contradiction.
  - now rewrite IH.
Qed.

Lemma joined_dates_flat (l r : list date) :
  joined_dates l r =
  flat_map (fun d => map (fun _ => d)
                       (filter (fun je => (snd je =? d)%Z) (enumerate r))) l.
Proof.
  pose (F := fun id : nat * date =>
               filter (fun je : nat * date => (snd je =? snd id)%Z)
                 (enumerate r)).
  pose (ps := flat_map (fun id => map (fun _ : nat * date => (fst id, snd id))
                                    (F id)) (enumerate l)).
  assert (Hfst : map fst (join_indices l r) = map fst ps).
  { unfold ps, join_indices. fold F.
    induction (enumerate l) as [| id t IH]; simpl; auto.
    rewrite !map_app, IH, !map_map. reflexivity. }
  assert (Hnth : Forall (fun p => nth_error l (fst p) = Some (snd p)) ps).
  { apply Forall_forall. intros [i d] Hin. unfold ps in Hin.
    apply in_flat_map in Hin. destruct Hin as [[i' d'] [Hid Hin]].
    apply in_map_iff in Hin. destruct Hin as [je [E _]].
    simpl in E. inversion E; subst. now apply enumerate_In. }
  unfold joined_dates. rewrite Hfst, (take_rows_pairs l Hnth).
  rewrite <- (enumerate_snd l) at 1.
  unfold ps, F. clear Hfst Hnth ps F.
  induction (enumerate l) as [| id t IH]; simpl; auto.
  rewrite map_app, IH, map_map. reflexivity.
Qed.

Lemma joined_dates_filter (l r : list date) :
  NoDup r -> joined_dates l r = filter (fun d => existsb (Z.eqb d) r) l.
Proof.
  intros Hr. rewrite joined_dates_flat, <- flat_map_if_filter.
  apply flat_map_ext. intros d.
  rewrite matches_of_unique; now rewrite enumerate_snd.
Qed.

(** ** [sort_values] *)

Lemma date_pair_leb_total (a b : nat * date) :
  date_pair_leb a b = false -> date_pair_leb b a = true.
Proof.
  unfold date_pair_leb. intros H. apply Z.leb_gt in H. apply Z.leb_le. lia.
Qed.

Lemma argsort_take (d : list date) :
  take_rows (argsort d) d = map snd (sort_by date_pair_leb (enumerate d)).
Proof.
  unfold argsort. apply take_rows_pairs.
  apply Forall_forall. intros [i x] Hin.
  apply sort_by_In in Hin. now apply enumerate_In.
Qed.

Lemma argsort_perm (d : list date) :
  Permutation (take_rows (argsort d) d) d.
Proof.
  rewrite argsort_take. rewrite <- (enumerate_snd d) at 2.
  apply Permutation_map, sort_by_perm.
Qed.

Lemma Sorted_map_snd (ps : list (nat * date)) :
  Sorted (fun a b => date_pair_leb a b = true) ps -> Sorted Z.le (map snd ps).
Proof.
  induction 1 as [| p t Hs IH Hhd]; simpl; constructor; auto.
  destruct Hhd as [| q t' Hpq]; simpl; constructor.
  now apply Z.leb_le.
Qed.

Lemma argsort_sorted (d : list date) : Sorted Z.le (take_rows (argsort d) d).
Proof.
  rewrite argsort_take. apply Sorted_map_snd.
  apply sort_by_sorted. exact date_pair_leb_total.
Qed.

Lemma Sorted_le_NoDup_lt (l : list Z) :
  Sorted Z.le l -> NoDup l -> StronglySorted Z.lt l.
Proof.
  intros Hs Hnd.
  apply Sorted_StronglySorted in Hs; [| intros x y z; apply Z.le_trans].
  induction Hs as [| a t Hs IH Hall]; constructor.
  - apply IH. now inversion Hnd.
  - inversion Hnd as [| ? ? Hnot _]; subst.
    rewrite Forall_forall in *. intros x Hx.
    specialize (Hall x Hx).
    assert (a <> x) by (intros ->; contradiction). lia.
Qed.

Lemma pivot_dates_NoDup (events : list TransportEvent) :
  NoDup (pivot_dates events).
Proof.
  unfold pivot_dates.
  eapply Permutation_NoDup; [symmetry; apply sort_by_perm |].
  apply NoDup_nodup.
Qed.

(** ** Sample tables *)

(** Distinct names, by evaluation. *)
Ltac distinct_names :=
  repeat (constructor; [simpl; intuition discriminate |]); constructor.

(** A property of each element of a literal list, by cases. *)
Ltac each_name H :=
  simpl in H;
  repeat match type of H with
         | _ \/ _ => destruct H as [H | H]
         end;
  try contradiction; subst.

Lemma sample_aqi_table :
  aqi_table sample_aqi [jan1 + 1; jan1; jan1 + 2]%Z [Some 120; Some 80; Some 40].
Proof.
  split; try reflexivity; [distinct_names |].
  intros c s Hc H. each_name Hc; simpl in H; inversion H; eauto.
Defined.

Lemma sample_aqi_suffix_free : suffix_free "_aqi" (columns sample_aqi).
Proof.
  intros n Hn. each_name Hn; reflexivity.
Defined.

Lemma sample_transport_table : transport_table sample_transport.
Proof.
  split.
  - intros e He Hin. each_name He; simpl in Hin; intuition discriminate.
  - intros n Hn. each_name Hn; reflexivity.
Defined.

Lemma sample_transport_exact : exact_counts sample_transport.
Proof. split; [reflexivity | vm_compute; discriminate]. Defined.

(** ** Join correctness *)




(** ** Total passengers *)








(** ** Cleaning *)

Lemma interpolate_from_keeps (l : list cell) :
  forall (prev : option Q) (j i : nat) (v : Q),
    nth_error l i = Some (Some v) ->
    nth_error (interpolate_from prev j l) i = Some (Some v).
Proof.
  induction l as [| c t IH]; intros prev j i v H.
  - destruct i; discriminate.
  - destruct i as [| i]; simpl in H.
    + inversion H; subst. reflexivity.
    + destruct c as [x |]; simpl; now apply IH.
Qed.

Lemma fillna_keeps (l : list cell) (value : cell) (i : nat) (v : Q) :
  nth_error l i = Some (Some v) ->
  nth_error (fillna l value) i = Some (Some v).
Proof.
  intros H. unfold fillna.
  exact (map_nth_error _ _ _ H).
Qed.

Lemma clean_keeps (l : list cell) (i : nat) (v : Q) :
  nth_error l i = Some (Some v) -> nth_error (clean l) i = Some (Some v).
Proof.
  intros H. unfold clean, interpolate.
  now apply fillna_keeps, interpolate_from_keeps.
Qed.

Lemma interpolate_from_all_missing (l : list cell) (j : nat) :
  dropna l = [] -> interpolate_from None j l = l.
Proof.
  revert j. induction l as [| [x |] t IH]; intros j H; simpl in *;
    try discriminate; auto.
  now rewrite IH.
Qed.

Lemma fillna_nan (l : list cell) : fillna l None = l.
Proof.
  induction l as [| [x |] t IH]; simpl; auto; fold (fillna t None);
    now rewrite IH.
Qed.

(** A column without a value has no median and stays as it is. *)
Lemma clean_all_missing (l : list cell) : dropna l = [] -> clean l = l.
Proof.
  intros H. unfold clean, interpolate.
  rewrite (interpolate_from_all_missing l 0 H).
  unfold median. rewrite H. simpl. apply fillna_nan.
Qed.

Lemma interpolate_from_length (l : list cell) :
  forall (prev : option Q) (j : nat),
    length (interpolate_from prev j l) = length l.
Proof.
  induction l as [| [x |] t IH]; intros prev j; simpl; auto.
Qed.

Lemma clean_length (l : list cell) : length (clean l) = length l.
Proof.
  unfold clean, fillna, interpolate.
  now rewrite length_map, interpolate_from_length.
Qed.

Lemma processed_aqi_column (A : DataFrame) (dA : list date)
    (aq : list cell) :
  aqi_table A dA aq ->
  processed_aqi_col A dA aq "AQI" = Some (SNum (clean aq)).
Proof.
  intros [_ _ Ha _]. unfold processed_aqi_col.
  cbn [String.eqb Ascii.eqb Bool.eqb mem existsb orb numeric_cols].
  now rewrite Ha.
Qed.

(** C4: in the table [process_aqi_data] returns, the [AQI_Category] of
    every row follows the breakpoints from the AQI of that row, the bins
    closed on the right and the lowest edge 0 in the first bin: [0,50]
    is Good, (50,100] Moderate, (100,150] Unhealthy for Sensitive,
    (150,200] Unhealthy, (200,300] Very Unhealthy, (300,500] Hazardous.
    The table has a row for every row given, with the AQI values that
    were given. *)
Theorem process_aqi_data_breakpoints :
  forall (A : DataFrame) (dA : list date) (aq : list cell),
    aqi_table A dA aq ->
    exists (out : DataFrame) (aqi : list cell) (cats : list (option Category)),
      process_aqi_data A = Ok out /\
      get_col out "AQI" = Some (SNum aqi) /\
      get_col out "AQI_Category" = Some (SCat cats) /\
      length aqi = length aq /\
      length cats = length aq /\
      (forall (i : nat) (v : Q),
         nth_error aq i = Some (Some v) -> nth_error aqi i = Some (Some v)) /\
      forall (i : nat) (v : Q),
        nth_error aqi i = Some (Some v) ->
        (0 <= v <= 50 -> nth_error cats i = Some (Some Good)) /\
        (50 < v <= 100 -> nth_error cats i = Some (Some Moderate)) /\
        (100 < v <= 150 ->
         nth_error cats i = Some (Some UnhealthyForSensitive)) /\
        (150 < v <= 200 -> nth_error cats i = Some (Some Unhealthy)) /\
        (200 < v <= 300 -> nth_error cats i = Some (Some VeryUnhealthy)) /\
        (300 < v <= 500 -> nth_error cats i = Some (Some Hazardous)).
Proof.
  intros A dA aq HA.
  destruct (process_aqi_data_spec HA) as [out [E G]].
  exists out, (clean aq), (map aqi_category (clean aq)).
  split; [exact E |].
  split; [rewrite G; now apply processed_aqi_column with (dA := dA) |].
  split; [rewrite G; reflexivity |].
  split; [apply clean_length |].
  split; [now rewrite length_map, clean_length |].
  split; [intros i v; apply clean_keeps |].
  intros i v Hv. rewrite nth_error_map, Hv. cbn [option_map].
  destruct (aqi_category_breakpoints v)
    as [H1 [H2 [H3 [H4 [H5 [H6 _]]]]]].
  repeat split; intros Hb; f_equal; auto.
Qed.

Lemma boundary_aqi_table :
  aqi_table boundary_aqi [jan1; jan1 + 1; jan1 + 2; jan1 + 3]%Z
    [Some 0; Some 50; Some 51; Some 500].
Proof.
  split; try reflexivity; [distinct_names |].
  intros c s Hc H. each_name Hc; simpl in H; inversion H; eauto.
Defined.

Lemma process_aqi_data_breakpoints_witness :
  exists (out : DataFrame) (cats : list (option Category)),
    process_aqi_data boundary_aqi = Ok out /\
    get_col out "AQI_Category" = Some (SCat cats) /\
    nth_error cats 0 = Some (Some Good) /\
    nth_error cats 1 = Some (Some Good) /\
    nth_error cats 2 = Some (Some Moderate) /\
    nth_error cats 3 = Some (Some Hazardous).
Proof.
  destruct (process_aqi_data_breakpoints boundary_aqi_table)
    as [out [aqi [cats [E [_ [Hc [_ [_ [Hk H]]]]]]]]].
  exists out, cats. split; [exact E |]. split; [exact Hc |].
  split; [| split; [| split]].
  - apply (H 0%nat 0 (Hk 0%nat 0 eq_refl)). split; lra.
  - apply (H 1%nat 50 (Hk 1%nat 50 eq_refl)). split; lra.
  - apply (H 2%nat 51 (Hk 2%nat 51 eq_refl)). split; lra.
  - apply (H 3%nat 500 (Hk 3%nat 500 eq_refl)). split; lra.
Defined.

(** C5, as the code has it: an AQI value outside [0, 500], above 500 or
    negative, is neither put in a category nor rejected: processing
    completes and the [AQI_Category] cell of its row is missing. *)
Theorem process_aqi_data_out_of_domain :
  forall (A : DataFrame) (dA : list date) (aq : list cell),
    aqi_table A dA aq ->
    exists out cats,
      process_aqi_data A = Ok out /\
      get_col out "AQI_Category" = Some (SCat cats) /\
      forall (i : nat) (v : Q),
        nth_error aq i = Some (Some v) -> v < 0 \/ 500 < v ->
        nth_error cats i = Some None.
Proof.
  intros A dA aq HA.
  destruct (process_aqi_data_spec HA) as [out [E G]].
  exists out. eexists. split; [exact E |]. split; [rewrite G; reflexivity |].
  intros i v Hi Hv.
  rewrite nth_error_map, (clean_keeps aq i Hi). cbn [option_map].
  now rewrite aqi_category_out_of_domain.
Qed.

Lemma out_of_scale_aqi_table :
  aqi_table out_of_scale_aqi [jan1; jan1 + 1]%Z [Some 501; Some (-1)].
Proof.
  split; try reflexivity; [distinct_names |].
  intros c s Hc H. each_name Hc; simpl in H; inversion H; eauto.
Defined.

Lemma process_aqi_data_out_of_domain_witness :
  exists out cats,
    process_aqi_data out_of_scale_aqi = Ok out /\
    get_col out "AQI_Category" = Some (SCat cats) /\
    forall (i : nat) (v : Q),
      nth_error [Some 501; Some (-1)] i = Some (Some v) ->
      v < 0 \/ 500 < v ->
      nth_error cats i = Some None.
Proof.
  apply (process_aqi_data_out_of_domain out_of_scale_aqi_table).
Defined.

(** C5 fails as stated: 501 is not made Hazardous and -1 is not
    rejected; processing returns the table with both categories
    missing. *)
Lemma process_aqi_data_keeps_out_of_scale :
  exists out,
    process_aqi_data out_of_scale_aqi = Ok out /\
    get_col out "AQI" = Some (SNum [Some 501; Some (-1)]) /\
    get_col out "AQI_Category" = Some (SCat [None; None]) /\
    aqi_category (Some 501) <> Some Hazardous.
Proof.
  eexists. split; [reflexivity |]. repeat split. discriminate.
Qed.

(** C6, as the code has it: a declared numeric column that is absent or
    has no usable value raises no validation error.  Processing completes
    and returns the column as it was, still absent or still entirely
    missing; only without an AQI column does processing fail, and then
    with a [KeyError]. *)
Theorem process_aqi_data_no_validation :
  forall (A : DataFrame) (dA : list date) (aq : list cell),
    NoDup (columns A) -> numeric_ok A ->
    get_col A "date" = Some (SDate dA) ->
    (get_col A "AQI" = Some (SNum aq) ->
     exists out,
       process_aqi_data A = Ok out /\
       forall c, In c numeric_cols ->
         (get_col A c = None -> get_col out c = None) /\
         (forall v, get_col A c = Some (SNum v) -> dropna v = [] ->
                    get_col out c = Some (SNum v))) /\
    (get_col A "AQI" = None -> process_aqi_data A = Raise (KeyError "AQI")).
Proof.
  intros A dA aq Hnd Hn Hd. split.
  - intros Ha.
    destruct (process_aqi_data_spec (Build_aqi_table Hnd Hd Ha Hn))
      as [out [E G]].
    exists out. split; [exact E |]. intros c Hc.
    assert (Hg : get_col out c = option_map clean_series (get_col A c)).
    { rewrite G. unfold processed_aqi_col.
      simpl in Hc. destruct Hc as [<- | [<- | [<- | [<- | [<- | []]]]]];
        reflexivity. }
    split.
    + intros H. now rewrite Hg, H.
    + intros v H Hv. rewrite Hg, H. simpl. now rewrite clean_all_missing.
  - intros Ha.
    destruct (for_each_clean A NoDup_numeric_cols Hn) as [df1 [E1 G1]].
    unfold process_aqi_data. rewrite E1. simpl.
    unfold get_num, getitem. rewrite G1, Ha. reflexivity.
Qed.

Lemma process_aqi_data_no_validation_witness :
  exists out,
    process_aqi_data empty_pm10_aqi = Ok out /\
    forall c, In c numeric_cols ->
      (get_col empty_pm10_aqi c = None -> get_col out c = None) /\
      (forall v, get_col empty_pm10_aqi c = Some (SNum v) -> dropna v = [] ->
                 get_col out c = Some (SNum v)).
Proof.
  refine (proj1 (@process_aqi_data_no_validation empty_pm10_aqi
                   [jan1; jan1 + 1]%Z [Some 80; Some 120] _ _ _) _);
    try reflexivity; [distinct_names |].
  intros c s Hc H. each_name Hc; simpl in H; inversion H; eauto.
Defined.

(** C6 fails as stated: with a PM10 column that has no value and without
    an Ozone column, processing completes, PM10 still entirely missing. *)
Lemma process_aqi_data_keeps_empty_column :
  exists out,
    process_aqi_data empty_pm10_aqi = Ok out /\
    get_col out "PM10" = Some (SNum [None; None]) /\
    get_col out "Ozone" = None.
Proof.
  eexists. split; [reflexivity |]. split; reflexivity.
Qed.

(** ** Loops that raise *)

Lemma for_each_cases {A S : Type} (body : S -> A -> result S) (l : list A) :
  (forall s y, In y l -> ok_or_value_error (body s y)) ->
  forall s, ok_or_value_error (for_each body l s).
Proof.
  induction l as [| a t IH]; intros Hb s; simpl.
  - left. now exists s.
  - destruct (Hb s a (or_introl eq_refl)) as [[s' E] | [msg E]]; rewrite E;
      simpl.
    + apply IH. intros s0 y Hy. apply Hb. now right.
    + right. now exists msg.
Qed.

Lemma for_each_raises {A S : Type} (body : S -> A -> result S) (l : list A)
    (x : A) :
  In x l ->
  (forall s, exists msg, body s x = Raise (ValueError msg)) ->
  (forall s y, In y l -> ok_or_value_error (body s y)) ->
  forall s, exists msg, for_each body l s = Raise (ValueError msg).
Proof.
  induction l as [| a t IH]; intros Hin Hx Hb s; simpl.
  - contradiction.
  - destruct (Hb s a (or_introl eq_refl)) as [[s' E] | [msg E]]; rewrite E;
      simpl.
    + destruct Hin as [-> | Hin].
      * destruct (Hx s) as [msg E']. congruence.
      * apply IH; auto. intros s0 y Hy. apply Hb. now right.
    + now exists msg.
Qed.

(** ** Correlations and summary *)

Section StatisticsProperties.

Variable pearson_stat : list Q -> list Q -> cell * cell.
Variable sqrt_float : Q -> Q.

Lemma pearsonr_cases (x y : list Q) :
  ok_or_value_error (pearsonr pearson_stat x y).
Proof.
  unfold pearsonr, ok_or_value_error.
  destruct (negb (length x =? length y)%nat); [right; now eexists |].
  destruct (length x <? 2)%nat; [right | left]; now eexists.
Qed.

Lemma pearsonr_short (x y : list Q) :
  (length x < 2)%nat \/ (length y < 2)%nat ->
  exists msg, pearsonr pearson_stat x y = Raise (ValueError msg).
Proof.
  intros H. unfold pearsonr.
  destruct (length x =? length y)%nat eqn:E; simpl; [| now eexists].
  apply Nat.eqb_eq in E.
  assert (Hx : (length x <? 2)%nat = true) by (apply Nat.ltb_lt; lia).
  rewrite Hx. now eexists.
Qed.

Lemma correlate_pair_cases (t : DataFrame) (a b : string)
    (corr : list (string * CorrelationEntry)) :
  metrics_numeric t -> In a numeric_cols -> In b transport_col_names ->
  ok_or_value_error (correlate_pair pearson_stat t a corr b).
Proof.
  intros [_ Hn] Ha Hb. unfold correlate_pair. rewrite !mem_columns.
  destruct (get_col t a) as [sa |] eqn:Ea; [| left; now eexists].
  destruct (get_col t b) as [sb |] eqn:Eb; [| left; now eexists].
  cbn [andb].
  destruct (Hn a sa) as [x ->]; auto.
  { unfold metric_cols. apply in_or_app. auto. }
  destruct (Hn b sb) as [y ->]; auto.
  { unfold metric_cols. apply in_or_app. auto. }
  unfold get_num, getitem. rewrite Ea, Eb. cbn [bind as_num].
  destruct (pearsonr_cases (dropna x) (dropna y)) as [[rp E] | [msg E]];
    rewrite E; [left | right]; now eexists.
Qed.

Lemma correlate_pair_short (t : DataFrame) (a b : string) (x y : list cell)
    (corr : list (string * CorrelationEntry)) :
  get_col t a = Some (SNum x) -> get_col t b = Some (SNum y) ->
  (length (dropna x) < 2)%nat \/ (length (dropna y) < 2)%nat ->
  exists msg, correlate_pair pearson_stat t a corr b = Raise (ValueError msg).
Proof.
  intros Ea Eb Hs. unfold correlate_pair. rewrite !mem_columns, Ea, Eb.
  cbn [andb]. unfold get_num, getitem. rewrite Ea, Eb. cbn [bind as_num].
  destruct (pearsonr_short _ _ Hs) as [msg E]. rewrite E. now eexists.
Qed.

(** C7, as the code has it: when one of the two columns of a metric pair
    has fewer than 2 values, the correlation computation as a whole
    fails with the [ValueError] of the Pearson routine: the pair is not
    skipped and no entry is returned for any pair. *)
Theorem calculate_correlations_too_few :
  forall (self : DataProcessor) (t : DataFrame) (a b : string)
         (x y : list cell),
    metrics_numeric t ->
    In a numeric_cols -> In b transport_col_names ->
    get_col t a = Some (SNum x) -> get_col t b = Some (SNum y) ->
    (length (dropna x) < 2)%nat \/ (length (dropna y) < 2)%nat ->
    exists msg,
      calculate_correlations pearson_stat self (Some t)
      = Raise (ValueError msg).
Proof.
  intros self t a b x y Hn Ha Hb Ea Eb Hs.
  unfold calculate_correlations.
  assert (Hin : forall c v l, In c l -> get_col t c = Some v ->
                  In c (filter (fun col => mem col (columns t)) l)).
  { intros c v l Hc Hv. apply filter_In. split; auto.
    now rewrite mem_columns, Hv. }
  apply for_each_raises with (x := a).
  - eapply Hin; eauto.
  - intros corr. apply for_each_raises with (x := b).
    + eapply Hin; eauto.
    + intros corr'. eapply correlate_pair_short; eauto.
    + intros corr' b' Hb'. apply filter_In in Hb'.
      apply correlate_pair_cases; tauto.
  - intros corr a' Ha'. apply filter_In in Ha'.
    apply for_each_cases. intros corr' b' Hb'. apply filter_In in Hb'.
    apply correlate_pair_cases; tauto.
Qed.

(** C9: with the table given as an argument, the correlations and the
    summary statistics do not depend on the instance: whatever the
    cached tables of two instances, none included, the results are the
    same. *)
Theorem statistics_ignore_cache :
  forall (s1 s2 : DataProcessor) (t : DataFrame),
    calculate_correlations pearson_stat s1 (Some t)
    = calculate_correlations pearson_stat s2 (Some t) /\
    get_summary_statistics sqrt_float s1 (Some t)
    = get_summary_statistics sqrt_float s2 (Some t).
Proof.
  intros s1 s2 t. split; reflexivity.
Qed.

(** C10: called without a table on an instance whose cache is empty, the
    correlations and the summary statistics raise a [ValueError]. *)
Theorem statistics_without_table :
  calculate_correlations pearson_stat {| merged_data := None |} None
  = Raise (ValueError "No merged data available. Run merge_datasets first.")
  /\
  get_summary_statistics sqrt_float {| merged_data := None |} None
  = Raise (ValueError "No merged data available. Run merge_datasets first.").
Proof.
  split; reflexivity.
Qed.

End StatisticsProperties.

Lemma one_day_numeric : metrics_numeric one_day.
Proof.
  split; [distinct_names |].
  intros c s Hc H. unfold metric_cols in Hc.
  each_name Hc; simpl in H; inversion H; eauto.
Defined.

Lemma calculate_correlations_too_few_witness :
  metrics_numeric one_day /\
  forall pearson_stat,
  exists msg,
    calculate_correlations pearson_stat init (Some one_day)
    = Raise (ValueError msg).
Proof.
  split; [exact one_day_numeric |]. intros pearson_stat.
  apply (@calculate_correlations_too_few pearson_stat init one_day
           "AQI" "total_passengers" [Some 80] [Some 300] one_day_numeric).
  - simpl. auto.
  - simpl. auto.
  - reflexivity.
  - reflexivity.
  - left. simpl. lia.
Defined.

(** C7 fails as stated: on a table of one day the error is the
    [ValueError] of the Pearson routine; and a pair with one paired
    observation whose columns have two values each gets an entry. *)
Lemma calculate_correlations_one_observation :
  (forall pearson_stat,
   exists msg,
     calculate_correlations pearson_stat init (Some one_day)
     = Raise (ValueError msg)) /\
  paired_rows [Some 10; None; Some 30] [None; Some 1; Some 3] = [(30, 3)] /\
  (forall pearson_stat,
     calculate_correlations pearson_stat init
       (Some [("AQI", SNum [Some 10; None; Some 30]);
              ("bus", SNum [None; Some 1; Some 3])]%string)
     = Ok [("AQI_vs_bus"%string,
            {| correlation := fst (pearson_stat [10; 30] [1; 3]);
               p_value := snd (pearson_stat [10; 30] [1; 3]);
               significant :=
                 below_threshold (snd (pearson_stat [10; 30] [1; 3])) |})]).
Proof.
  split; [| split]; try reflexivity.
  intros pearson_stat. eexists. reflexivity.
Qed.

(** C1 fails on the code: each column drops its own missing rows, so the
    two sequences given to the Pearson routine are not the paired rows.
    After a merge in which bus has no event on the second of three days,
    the AQI and bus columns have two paired rows, but the sequences have
    lengths 3 and 2 and the computation raises; and where the lengths
    agree, the coefficient is that of rows paired across dates. *)
Theorem calculate_correlations_not_pairwise :
  (exists M,
     merge_datasets init sample_aqi uneven_transport
       = Ok (M, {| merged_data := Some M |}) /\
     get_col M "AQI" = Some (SNum [Some 80; Some 120; Some 40]) /\
     get_col M "bus" = Some (SNum [Some 100; None; Some 50]) /\
     paired_rows [Some 80; Some 120; Some 40] [Some 100; None; Some 50]
       = [(80, 100); (40, 50)] /\
     forall pearson_stat,
     exists msg,
       calculate_correlations pearson_stat init (Some M)
       = Raise (ValueError msg)) /\
  paired_rows [Some 10; None; Some 30; Some 20] [None; Some 1; Some 3; Some 2]
    = [(30, 3); (20, 2)] /\
  (forall pearson_stat,
     calculate_correlations pearson_stat init (Some staggered)
     = Ok [("AQI_vs_bus"%string,
            {| correlation := fst (pearson_stat [10; 30; 20] [1; 3; 2]);
               p_value := snd (pearson_stat [10; 30; 20] [1; 3; 2]);
               significant :=
                 below_threshold
                   (snd (pearson_stat [10; 30; 20] [1; 3; 2])) |})]).
Proof.
  split; [| split; reflexivity].
  eexists. split; [reflexivity |]. repeat split.
  intros pearson_stat. eexists. reflexivity.
Qed.

(** ** Lag features *)






Lemma sort_values_spec (df : DataFrame) (d : list date) :
  get_col df "date" = Some (SDate d) ->
  exists out,
    sort_values df "date" = Ok out /\
    forall n, get_col out n =
              option_map (series_take (argsort d)) (get_col df n).
Proof.
  intros Hd. unfold sort_values, get_date, getitem. rewrite Hd.
  cbn [bind as_date]. eexists. split; [reflexivity |].
  intros n. apply get_col_map_values.
Qed.

Lemma for_each_invariant {A S : Type} (Inv : S -> Prop)
    (body : S -> A -> result S) (l : list A) :
  (forall s y, Inv s -> exists s', body s y = Ok s' /\ Inv s') ->
  forall s, Inv s -> exists s', for_each body l s = Ok s' /\ Inv s'.
Proof.
  intros Hb. induction l as [| a t IH]; intros s Hs; simpl.
  - now exists s.
  - destruct (Hb s a Hs) as [s' [E Hs']]. rewrite E. simpl. now apply IH.
Qed.

Lemma add_lag_keeps (d : list date) (aqi tot : list cell) (df : DataFrame)
    (lag : Z) :
  lag_inputs df d aqi tot ->
  exists out, add_lag df lag = Ok out /\ lag_inputs out d aqi tot.
Proof.
  intros [Hd [Ha Ht]]. unfold add_lag, get_num, getitem.
  rewrite Ha. cbn [bind as_num]. rewrite get_set.
  cbn [String.append String.eqb Ascii.eqb Bool.eqb].
  rewrite Ht. cbn [bind as_num].
  eexists. split; [reflexivity |].
  unfold lag_inputs. rewrite !get_set.
  cbn [String.append String.eqb Ascii.eqb Bool.eqb]. auto.
Qed.

Lemma add_rolling_keeps (d : list date) (aqi tot : list cell)
    (df : DataFrame) (window : nat) :
  lag_inputs df d aqi tot ->
  exists out, add_rolling df window = Ok out /\ lag_inputs out d aqi tot.
Proof.
  intros [Hd [Ha Ht]]. unfold add_rolling, get_num, getitem.
  rewrite Ha. cbn [bind as_num]. rewrite get_set.
  cbn [String.append String.eqb Ascii.eqb Bool.eqb].
  rewrite Ht. cbn [bind as_num].
  eexists. split; [reflexivity |].
  unfold lag_inputs. rewrite !get_set.
  cbn [String.append String.eqb Ascii.eqb Bool.eqb]. auto.
Qed.










(** * Further properties *)

(** ** Cleaning fills a column *)

Lemma dropna_In (l : list cell) (x : Q) : In x (dropna l) <-> In (Some x) l.
Proof.
  induction l as [| [y |] t IH]; simpl.
  - tauto.
  - rewrite IH. split; intros [H | H]; auto; left; congruence.
  - rewrite IH. split; [auto | intros [H | H]; [discriminate | auto]].
Qed.

Lemma median_some (l : list cell) :
  dropna l <> [] -> exists m, median l = Some m.
Proof.
  intros H. unfold median.
  assert (Hlen : length (sort_by Qle_bool (dropna l)) = length (dropna l)).
  { apply Permutation_length, sort_by_perm. }
  destruct (length (sort_by Qle_bool (dropna l))) as [| n] eqn:E.
  - destruct (dropna l); [contradiction | discriminate].
  - destruct (Nat.even (S n)); eexists; reflexivity.
Qed.

Lemma fillna_some (l : list cell) (m : Q) (c : cell) :
  In c (fillna l (Some m)) -> c <> None.
Proof.
  unfold fillna. intros H. apply in_map_iff in H.
  destruct H as [[x |] [E _]]; subst; discriminate.
Qed.

(** With one value or more, cleaning leaves no cell missing. *)
Lemma clean_complete (l : list cell) (c : cell) :
  dropna l <> [] -> In c (clean l) -> c <> None.
Proof.
  intros H. unfold clean.
  destruct (median_some (interpolate l)) as [m Em].
  - destruct (dropna l) as [| x t] eqn:E; [contradiction |].
    assert (Hx : In (Some x) l) by (apply dropna_In; rewrite E; now left).
    apply In_nth_error in Hx. destruct Hx as [i Hi].
    intros Hd.
    assert (Hin : In x (dropna (interpolate l))).
    { apply dropna_In. eapply nth_error_In.
      unfold interpolate. eapply interpolate_from_keeps; eauto. }
    rewrite Hd in Hin. contradiction.
  - rewrite Em. apply fillna_some.
Qed.

(** X1: in the table [process_aqi_data] returns, every declared numeric
    column that had one value or more has the same number of rows as
    before, no missing value left, and every value it had, at its row. *)
Theorem process_aqi_data_fills :
  forall (A : DataFrame) (dA : list date) (aq : list cell),
    aqi_table A dA aq ->
    exists out,
      process_aqi_data A = Ok out /\
      forall (c : string) (v : list cell),
        In c numeric_cols -> get_col A c = Some (SNum v) ->
        dropna v <> [] ->
        exists w,
          get_col out c = Some (SNum w) /\
          length w = length v /\
          (forall x, In x w -> x <> None) /\
          (forall i x, nth_error v i = Some (Some x) ->
                       nth_error w i = Some (Some x)).
Proof.
  intros A dA aq HA.
  destruct (process_aqi_data_spec HA) as [out [E G]].
  exists out. split; [exact E |]. intros c v Hc Hv Hne.
  exists (clean v). split.
  - rewrite G. unfold processed_aqi_col.
    each_name Hc; cbn [String.eqb Ascii.eqb Bool.eqb mem existsb orb];
      rewrite Hv; reflexivity.
  - split; [apply clean_length |]. split.
    + intros x. now apply clean_complete.
    + intros i x. apply clean_keeps.
Qed.

Lemma process_aqi_data_fills_witness :
  exists out,
    process_aqi_data sample_aqi = Ok out /\
    forall (c : string) (v : list cell),
      In c numeric_cols -> get_col sample_aqi c = Some (SNum v) ->
      dropna v <> [] ->
      exists w,
        get_col out c = Some (SNum w) /\
        length w = length v /\
        (forall x, In x w -> x <> None) /\
        (forall i x, nth_error v i = Some (Some x) ->
                     nth_error w i = Some (Some x)).
Proof.
  apply (process_aqi_data_fills sample_aqi_table).
Defined.

(** ** Calendar columns *)

Lemma weekday_range (d : date) : (0 <= weekday d < 7)%Z.
Proof.
  unfold weekday. apply Z.mod_pos_bound. lia.
Qed.

Lemma weekend_of_date (d : date) : weekend_of_name (day_name d) (is_weekend d).
Proof.
  unfold weekend_of_name, day_name, is_weekend.
  pose proof (weekday_range d) as Hr.
  assert (Hw : (weekday d = 0 \/ weekday d = 1 \/ weekday d = 2 \/
                weekday d = 3 \/ weekday d = 4 \/ weekday d = 5 \/
                weekday d = 6)%Z) by lia.
  destruct Hw as [-> | [-> | [-> | [-> | [-> | [-> | ->]]]]]]; simpl;
    split; auto; try discriminate; intros [H | H]; discriminate.
Qed.

Lemma weekend_columns (dates : list date) :
  Forall2 weekend_of_name (map day_name dates) (map is_weekend dates).
Proof.
  induction dates as [| d t IH]; simpl; constructor; auto.
  apply weekend_of_date.
Qed.

(** X2: in the table [process_aqi_data] returns, the calendar columns
    have one row per date, and [is_weekend] is set in exactly the rows
    whose [day_of_week] is Saturday or Sunday. *)
Theorem process_aqi_data_weekend :
  forall (A : DataFrame) (dA : list date) (aq : list cell),
    aqi_table A dA aq ->
    exists out names flags,
      process_aqi_data A = Ok out /\
      get_col out "day_of_week" = Some (SStr names) /\
      get_col out "is_weekend" = Some (SBool flags) /\
      length names = length dA /\
      Forall2 weekend_of_name names flags.
Proof.
  intros A dA aq HA.
  destruct (process_aqi_data_spec HA) as [out [E G]].
  exists out, (map day_name dA), (map is_weekend dA).
  split; [exact E |]. rewrite !G.
  split; [reflexivity |]. split; [reflexivity |].
  split; [apply length_map | apply weekend_columns].
Qed.

Lemma process_aqi_data_weekend_witness :
  exists out names flags,
    process_aqi_data sample_aqi = Ok out /\
    get_col out "day_of_week" = Some (SStr names) /\
    get_col out "is_weekend" = Some (SBool flags) /\
    length names = length [jan1 + 1; jan1; jan1 + 2]%Z /\
    Forall2 weekend_of_name names flags.
Proof.
  apply (process_aqi_data_weekend sample_aqi_table).
Defined.

(** ** The cache after a merge *)

(** Splits a successful sequence of steps into its steps. *)
Ltac invert_bind H :=
  repeat match type of H with
         | bind ?r _ = Ok _ =>
             let E := fresh "E" in
             destruct r eqn:E; cbn [bind] in H; [| discriminate H]
         end.

Lemma merge_datasets_cache (self self' : DataProcessor) (A : DataFrame)
    (T : list TransportEvent) (M : DataFrame) :
  merge_datasets self A T = Ok (M, self') -> merged_data self' = Some M.
Proof.
  unfold merge_datasets. intros H. invert_bind H.
  inversion H; subst. reflexivity.
Qed.

(** X3: after a successful [merge_datasets] the cache of the instance is
    the table returned, so the correlations, the summary statistics and
    the lag features called without a table give what they give when
    called with that table. *)
Theorem merge_datasets_then_statistics :
  forall (self self' : DataProcessor) (A : DataFrame)
         (T : list TransportEvent) (M : DataFrame),
    merge_datasets self A T = Ok (M, self') ->
    merged_data self' = Some M /\
    (forall pearson_stat,
       calculate_correlations pearson_stat self' None
       = calculate_correlations pearson_stat self (Some M)) /\
    (forall sqrt_float,
       get_summary_statistics sqrt_float self' None
       = get_summary_statistics sqrt_float self (Some M)) /\
    (forall lag_days,
       add_lag_features self' None lag_days
       = add_lag_features self (Some M) lag_days).
Proof.
  intros self self' A T M H. apply merge_datasets_cache in H.
  split; [exact H |].
  split; [| split]; intros x;
    unfold calculate_correlations, get_summary_statistics, add_lag_features;
    rewrite H; reflexivity.
Qed.

Lemma merge_datasets_then_statistics_witness :
  exists M self',
    merge_datasets init sample_aqi sample_transport = Ok (M, self') /\
    merged_data self' = Some M /\
    (forall pearson_stat,
       calculate_correlations pearson_stat self' None
       = calculate_correlations pearson_stat init (Some M)) /\
    (forall sqrt_float,
       get_summary_statistics sqrt_float self' None
       = get_summary_statistics sqrt_float init (Some M)) /\
    (forall lag_days,
       add_lag_features self' None lag_days
       = add_lag_features init (Some M) lag_days).
Proof.
  eexists. eexists. split; [reflexivity |].
  apply (@merge_datasets_then_statistics init _ sample_aqi sample_transport).
  reflexivity.
Defined.

(** ** The errors of [add_lag_features] *)

Lemma add_lag_no_aqi (df : DataFrame) (lag : Z) :
  get_col df "AQI" = None -> add_lag df lag = Raise (KeyError "AQI").
Proof.
  intros H. unfold add_lag, get_num, getitem. now rewrite H.
Qed.

Lemma add_rolling_no_aqi (df : DataFrame) (window : nat) :
  get_col df "AQI" = None -> add_rolling df window = Raise (KeyError "AQI").
Proof.
  intros H. unfold add_rolling, get_num, getitem. now rewrite H.
Qed.

Lemma add_lag_no_total (df : DataFrame) (lag : Z) (a : list cell) :
  get_col df "AQI" = Some (SNum a) ->
  get_col df "total_passengers" = None ->
  add_lag df lag = Raise (KeyError "total_passengers").
Proof.
  intros Ha Ht. unfold add_lag, get_num, getitem.
  rewrite Ha. cbn [bind as_num]. rewrite get_set.
  cbn [String.append String.eqb Ascii.eqb Bool.eqb].
  now rewrite Ht.
Qed.

Lemma add_rolling_no_total (df : DataFrame) (window : nat) (a : list cell) :
  get_col df "AQI" = Some (SNum a) ->
  get_col df "total_passengers" = None ->
  add_rolling df window = Raise (KeyError "total_passengers").
Proof.
  intros Ha Ht. unfold add_rolling, get_num, getitem.
  rewrite Ha. cbn [bind as_num]. rewrite get_set.
  cbn [String.append String.eqb Ascii.eqb Bool.eqb].
  now rewrite Ht.
Qed.

(** The two loops of [add_lag_features] on a table whose first step
    raises: the loop over the lags raises, or it is empty and the loop
    over the windows does. *)
Lemma feature_loops_raise (df : DataFrame) (lag_days : list Z) (e : exn) :
  (forall lag, add_lag df lag = Raise e) ->
  (forall window, add_rolling df window = Raise e) ->
  bind (for_each add_lag lag_days df)
    (fun df' => for_each add_rolling [3; 7; 14]%nat df') = Raise e.
Proof.
  intros Hl Hr. destruct lag_days as [| k ks]; cbn [for_each bind].
  - now rewrite Hr.
  - now rewrite Hl.
Qed.

(** X4: the errors of [add_lag_features] on tables with distinct column
    names.  Without a table and with an empty cache it fails on
    [self.merged_data.copy()] with an [AttributeError], so that the
    test that would raise "No merged data available" is never reached;
    without a table it works on the cached one as on a table given; and
    a table without the column [date], [AQI] or [total_passengers]
    raises the [KeyError] of the first of them that is absent, whatever
    the lags. *)
Theorem add_lag_features_errors :
  forall (self : DataProcessor) (t : DataFrame) (lag_days : list Z),
    NoDup (columns t) ->
    add_lag_features {| merged_data := None |} None lag_days
    = Raise (AttributeError "'NoneType' object has no attribute 'copy'") /\
    add_lag_features {| merged_data := Some t |} None lag_days
    = add_lag_features self (Some t) lag_days /\
    (get_col t "date" = None ->
     add_lag_features self (Some t) lag_days = Raise (KeyError "date")) /\
    (forall d : list date,
       get_col t "date" = Some (SDate d) -> get_col t "AQI" = None ->
       add_lag_features self (Some t) lag_days = Raise (KeyError "AQI")) /\
    (forall (d : list date) (a : list cell),
       get_col t "date" = Some (SDate d) ->
       get_col t "AQI" = Some (SNum a) ->
       get_col t "total_passengers" = None ->
       add_lag_features self (Some t) lag_days
       = Raise (KeyError "total_passengers")).
Proof.
  intros self t lag_days _.
  split; [reflexivity |]. split; [reflexivity |]. split; [| split].
  - intros Hd. unfold add_lag_features, sort_values, get_date, getitem.
    cbn [bind]. now rewrite Hd.
  - intros d Hd Ha.
    destruct (sort_values_spec t Hd) as [t1 [E1 G1]].
    unfold add_lag_features. cbn [bind]. rewrite E1. cbn [bind].
    assert (Ha1 : get_col t1 "AQI" = None) by (now rewrite G1, Ha).
    apply feature_loops_raise; intros x;
      [now apply add_lag_no_aqi | now apply add_rolling_no_aqi].
  - intros d a Hd Ha Ht.
    destruct (sort_values_spec t Hd) as [t1 [E1 G1]].
    unfold add_lag_features. cbn [bind]. rewrite E1. cbn [bind].
    assert (Ha1 : get_col t1 "AQI" = Some (SNum (take_rows (argsort d) a)))
      by (now rewrite G1, Ha).
    assert (Ht1 : get_col t1 "total_passengers" = None)
      by (now rewrite G1, Ht).
    apply feature_loops_raise; intros x;
      [now apply (add_lag_no_total _ _ Ha1)
      | now apply (add_rolling_no_total _ _ Ha1)].
Qed.

Lemma add_lag_features_errors_witness :
  add_lag_features init (Some staggered) default_lag_days
  = Raise (KeyError "total_passengers").
Proof.
  destruct (@add_lag_features_errors init staggered default_lag_days)
    as [_ [_ [_ [_ H]]]]; [distinct_names |].
  apply (H _ _ eq_refl eq_refl eq_refl).
Defined.

(** ** The rows of the merged table *)








(** ** The dict of correlations *)

Lemma dict_set_fresh {V : Type} (d : list (string * V)) (k : string) (v : V) :
  ~ In k (map fst d) -> dict_set d k v = d ++ [(k, v)].
Proof.
  induction d as [| [k0 v0] t IH]; simpl; auto.
  intros H. destruct (String.eqb k0 k) eqn:E.
  - apply String.eqb_eq in E. exfalso. auto.
  - rewrite IH; auto.
Qed.

Lemma correlation_key_distinct :
  forallb (fun p =>
             forallb (fun q =>
                        implb (String.eqb (correlation_key p)
                                 (correlation_key q))
                          (String.eqb (fst p) (fst q)
                           && String.eqb (snd p) (snd q)))
               all_metric_pairs)
    all_metric_pairs = true.
Proof. vm_compute. reflexivity. Qed.

(** Two metric pairs under one key are one pair. *)
Lemma correlation_key_inj (a a' b b' : string) :
  In a numeric_cols -> In a' numeric_cols ->
  In b transport_col_names -> In b' transport_col_names ->
  correlation_key (a, b) = correlation_key (a', b') -> a = a' /\ b = b'.
Proof.
  intros Ha Ha' Hb Hb' E.
  pose proof correlation_key_distinct as H.
  rewrite forallb_forall in H.
  specialize (H (a, b)). rewrite forallb_forall in H.
  assert (Hp : In (a, b) all_metric_pairs) by (apply in_prod; auto).
  assert (Hq : In (a', b') all_metric_pairs) by (apply in_prod; auto).
  specialize (H Hp (a', b') Hq).
  rewrite E, String.eqb_refl in H. simpl in H.
  apply andb_true_iff in H. destruct H as [H1 H2].
  apply String.eqb_eq in H1, H2. auto.
Qed.

Section CorrelationLoops.

Variable pearson_stat : list Q -> list Q -> cell * cell.
Variable t : DataFrame.
Hypothesis t_numeric : metrics_numeric t.

Let entry (ab : string * string) : string * CorrelationEntry :=
  (correlation_key ab,
   entry_of (pearson_stat (float_values t (fst ab))
               (float_values t (snd ab)))).

Lemma present_In (names : list string) (c : string) :
  In c (present t names) -> In c names /\ get_col t c <> None.
Proof.
  unfold present. rewrite filter_In, mem_columns.
  intros [H1 H2]. split; auto. destruct (get_col t c); congruence.
Qed.

Lemma correlate_pair_ok (a b : string)
    (corr r : list (string * CorrelationEntry)) :
  In a (present t numeric_cols) -> In b (present t transport_col_names) ->
  correlate_pair pearson_stat t a corr b = Ok r ->
  r = dict_set corr (correlation_key (a, b)) (snd (entry (a, b))) /\
  length (float_values t a) = length (float_values t b) /\
  (2 <= length (float_values t a))%nat.
Proof.
  intros Ha Hb. apply present_In in Ha, Hb.
  destruct Ha as [Ha Hga], Hb as [Hb Hgb].
  destruct t_numeric as [_ Hn].
  destruct (get_col t a) as [sa |] eqn:Ea; [| contradiction].
  destruct (get_col t b) as [sb |] eqn:Eb; [| contradiction].
  destruct (Hn a sa) as [x ->]; auto.
  { unfold metric_cols. apply in_or_app. auto. }
  destruct (Hn b sb) as [y ->]; auto.
  { unfold metric_cols. apply in_or_app. auto. }
  unfold correlate_pair, entry, float_values.
  rewrite !mem_columns, Ea, Eb. cbn [andb fst snd].
  unfold get_num, getitem. rewrite Ea, Eb. cbn [bind as_num].
  unfold pearsonr.
  destruct (length (dropna x) =? length (dropna y))%nat eqn:El;
    cbn [negb]; [| discriminate].
  destruct (length (dropna x) <? 2)%nat eqn:E2; [discriminate |].
  cbn [bind]. intros H. inversion H; subst.
  apply Nat.eqb_eq in El. apply Nat.ltb_ge in E2. auto.
Qed.

Lemma inner_loop_ok (a : string) (bs : list string) :
  forall corr r : list (string * CorrelationEntry),
    In a (present t numeric_cols) ->
    incl bs (present t transport_col_names) -> NoDup bs ->
    (forall b, In b bs -> ~ In (correlation_key (a, b)) (map fst corr)) ->
    for_each (correlate_pair pearson_stat t a) bs corr = Ok r ->
    r = corr ++ map (fun b => entry (a, b)) bs /\
    forall b, In b bs ->
      length (float_values t a) = length (float_values t b) /\
      (2 <= length (float_values t a))%nat.
Proof.
  induction bs as [| b bs IH]; intros corr r Ha Hbs Hnd Hfresh H.
  - simpl in H. inversion H; subst. rewrite app_nil_r. split; auto.
    intros b [].
  - simpl in H.
    destruct (correlate_pair pearson_stat t a corr b) as [c1 |] eqn:E1;
      [| discriminate].
    cbn [bind] in H.
    apply correlate_pair_ok in E1; auto; [| apply Hbs; now left].
    destruct E1 as [-> [Hl H2]].
    rewrite dict_set_fresh in H by (apply Hfresh; now left).
    inversion Hnd as [| ? ? Hnb Hnd']; subst.
    apply IH in H; auto.
    + destruct H as [-> Hall]. split.
      * rewrite <- app_assoc. reflexivity.
      * intros b' [<- | Hb']; auto.
    + intros b' Hb'. apply Hbs. now right.
    + intros b' Hb' Hin. rewrite map_app, in_app_iff in Hin.
      destruct Hin as [Hin | [Hin | []]].
      * apply (Hfresh b'); auto. now right.
      * simpl in Hin. apply present_In in Ha. destruct Ha as [Ha _].
        assert (Hb1 : In b transport_col_names).
        { apply (present_In transport_col_names), Hbs. now left. }
        assert (Hb2 : In b' transport_col_names).
        { apply (present_In transport_col_names), Hbs. now right. }
        destruct (correlation_key_inj Ha Ha Hb1 Hb2 Hin) as [_ E].
        subst b'. contradiction.
Qed.

Lemma outer_loop_ok (bs : list string) (aqs : list string) :
  incl bs (present t transport_col_names) -> NoDup bs ->
  forall corr r : list (string * CorrelationEntry),
    incl aqs (present t numeric_cols) -> NoDup aqs ->
    (forall a b, In a aqs -> In b bs ->
                 ~ In (correlation_key (a, b)) (map fst corr)) ->
    for_each (fun correlations aqi_col =>
                for_each (correlate_pair pearson_stat t aqi_col) bs
                  correlations) aqs corr = Ok r ->
    r = corr ++ map entry (list_prod aqs bs) /\
    forall a b, In a aqs -> In b bs ->
      length (float_values t a) = length (float_values t b) /\
      (2 <= length (float_values t a))%nat.
Proof.
  intros Hbs Hndb.
  induction aqs as [| a aqs IH]; intros corr r Has Hnd Hfresh H.
  - simpl in H. inversion H; subst. rewrite app_nil_r. split; auto.
    intros a b [].
  - simpl in H.
    destruct (for_each (correlate_pair pearson_stat t a) bs corr)
      as [c1 |] eqn:E1; [| discriminate].
    cbn [bind] in H.
    apply inner_loop_ok in E1; auto.
    2:{ apply Has. now left. }
    2:{ intros b Hb. apply Hfresh; auto. now left. }
    destruct E1 as [-> Hin1].
    inversion Hnd as [| ? ? Hna Hnd']; subst.
    apply IH in H; auto.
    + destruct H as [-> Hall]. split.
      * simpl. rewrite map_app, map_map, <- app_assoc. reflexivity.
      * intros a' b [<- | Ha'] Hb; auto.
    + intros a' Ha'. apply Has. now right.
    + intros a' b' Ha' Hb' Hin. rewrite map_app, in_app_iff in Hin.
      destruct Hin as [Hin | Hin].
      * apply (Hfresh a' b'); auto. now right.
      * rewrite map_map in Hin. apply in_map_iff in Hin.
        destruct Hin as [b [E Hb]]. simpl in E.
        assert (Ha1 : In a numeric_cols).
        { apply (present_In numeric_cols), Has. now left. }
        assert (Ha2 : In a' numeric_cols).
        { apply (present_In numeric_cols), Has. now right. }
        assert (Hb1 : In b transport_col_names).
        { apply (present_In transport_col_names), Hbs, Hb. }
        assert (Hb2 : In b' transport_col_names).
        { apply (present_In transport_col_names), Hbs, Hb'. }
        destruct (correlation_key_inj Ha1 Ha2 Hb1 Hb2 E) as [E' _].
        subst a'. contradiction.
Qed.

End CorrelationLoops.

Lemma NoDup_transport_col_names : NoDup transport_col_names.
Proof. unfold transport_col_names. distinct_names. Qed.

(** X6: when [calculate_correlations] returns, every metric pair passed
    the checks of the Pearson routine (its two sequences have one length,
    2 or more) and the dict holds exactly one entry per pair of an AQI
    metric and a transport metric present in the table, in the order of
    the loops, under the key [a_vs_b], made of the result of the routine
    on the values of the two columns with [significant] set where the
    p-value is below 0.05. *)
Theorem calculate_correlations_entries :
  forall (pearson_stat : list Q -> list Q -> cell * cell)
         (self : DataProcessor) (t : DataFrame)
         (r : list (string * CorrelationEntry)),
    metrics_numeric t ->
    calculate_correlations pearson_stat self (Some t) = Ok r ->
    r = map (fun ab =>
               (correlation_key ab,
                entry_of (pearson_stat (float_values t (fst ab))
                            (float_values t (snd ab)))))
          (list_prod (present t numeric_cols)
             (present t transport_col_names)) /\
    length r = (length (present t numeric_cols)
                * length (present t transport_col_names))%nat /\
    forall a b,
      In a (present t numeric_cols) ->
      In b (present t transport_col_names) ->
      length (float_values t a) = length (float_values t b) /\
      (2 <= length (float_values t a))%nat.
Proof.
  intros pearson_stat self t r Hn H.
  unfold calculate_correlations in H. fold (present t numeric_cols) in H.
  fold (present t transport_col_names) in H.
  apply (outer_loop_ok pearson_stat Hn) in H.
  - destruct H as [-> Hall]. simpl. split; [reflexivity |].
    split; [| exact Hall]. now rewrite length_map, length_prod.
  - apply incl_refl.
  - apply NoDup_filter, NoDup_transport_col_names.
  - apply incl_refl.
  - apply NoDup_filter, NoDup_numeric_cols.
  - intros a b _ _ [].
Qed.

Lemma two_days_numeric : metrics_numeric two_days.
Proof.
  split; [distinct_names |].
  intros c s Hc H. unfold metric_cols in Hc.
  each_name Hc; simpl in H; inversion H; eauto.
Defined.

Lemma calculate_correlations_entries_witness :
  metrics_numeric two_days /\
  forall pearson_stat,
  exists r,
    calculate_correlations pearson_stat init (Some two_days) = Ok r /\
    r = map (fun ab =>
               (correlation_key ab,
                entry_of (pearson_stat (float_values two_days (fst ab))
                            (float_values two_days (snd ab)))))
          (list_prod (present two_days numeric_cols)
             (present two_days transport_col_names)) /\
    length r = (length (present two_days numeric_cols)
                * length (present two_days transport_col_names))%nat /\
    forall a b,
      In a (present two_days numeric_cols) ->
      In b (present two_days transport_col_names) ->
      length (float_values two_days a) = length (float_values two_days b) /\
      (2 <= length (float_values two_days a))%nat.
Proof.
  split; [exact two_days_numeric |]. intros pearson_stat.
  eexists. split; [reflexivity |].
  apply (@calculate_correlations_entries pearson_stat init two_days _
           two_days_numeric).
  reflexivity.
Defined.

(** ** The summary statistics *)

Lemma date_min_spec (t : list date) : forall x0 : date,
  In (fold_left Z.min t x0) (x0 :: t) /\
  forall y, In y (x0 :: t) -> (fold_left Z.min t x0 <= y)%Z.
Proof.
  induction t as [| x t IH]; intros x0; simpl.
  - split; auto. intros y [<- | []]. lia.
  - destruct (IH (Z.min x0 x)) as [Hin Hle]. split.
    + destruct Hin as [E | Hin]; [| auto].
      rewrite <- E. destruct (Z.min_spec x0 x) as [[_ ->] | [_ ->]]; auto.
    + intros y [<- | [<- | Hy]].
      * specialize (Hle (Z.min x0 x) (or_introl eq_refl)). lia.
      * specialize (Hle (Z.min x0 x) (or_introl eq_refl)). lia.
      * apply Hle. now right.
Qed.

Lemma date_max_spec (t : list date) : forall x0 : date,
  In (fold_left Z.max t x0) (x0 :: t) /\
  forall y, In y (x0 :: t) -> (y <= fold_left Z.max t x0)%Z.
Proof.
  induction t as [| x t IH]; intros x0; simpl.
  - split; auto. intros y [<- | []]. lia.
  - destruct (IH (Z.max x0 x)) as [Hin Hle]. split.
    + destruct Hin as [E | Hin]; [| auto].
      rewrite <- E. destruct (Z.max_spec x0 x) as [[_ ->] | [_ ->]]; auto.
    + intros y [<- | [<- | Hy]].
      * specialize (Hle (Z.max x0 x) (or_introl eq_refl)). lia.
      * specialize (Hle (Z.max x0 x) (or_introl eq_refl)). lia.
      * apply Hle. now right.
Qed.

Section SummaryLoops.

Variable sqrt_float : Q -> Q.
Variable t : DataFrame.
Hypothesis t_numeric : metrics_numeric t.

Lemma describe_loop (cols : list string) :
  incl cols metric_cols -> NoDup cols ->
  forall stats : list (string * ColumnStats),
    (forall c, In c cols -> ~ In c (map fst stats)) ->
    for_each (describe_column sqrt_float t) cols stats
    = Ok (stats ++ map (fun c => (c, describe sqrt_float (float_column t c)))
                     (present t cols)).
Proof.
  intros Hcols Hnd. induction cols as [| c cols IH]; intros stats Hfresh.
  - simpl. now rewrite app_nil_r.
  - inversion Hnd as [| ? ? Hnc Hnd']; subst.
    simpl. unfold describe_column at 1. unfold present. simpl.
    fold (present t cols). rewrite mem_columns.
    destruct (get_col t c) as [sc |] eqn:Ec.
    + destruct t_numeric as [_ Hn].
      destruct (Hn c sc) as [v ->]; auto. { apply Hcols. now left. }
      unfold get_num, getitem. rewrite Ec. cbn [bind as_num].
      rewrite dict_set_fresh by (apply Hfresh; now left).
      rewrite IH.
      * rewrite <- app_assoc. simpl. unfold float_column at 2.
        now rewrite Ec.
      * intros c' Hc'. apply Hcols. now right.
      * exact Hnd'.
      * intros c' Hc'. rewrite map_app, in_app_iff. simpl.
        intros [H | [H | []]].
        -- apply (Hfresh c'); auto. now right.
        -- subst c'. contradiction.
    + cbn [bind]. apply IH; auto.
      * intros c' Hc'. apply Hcols. now right.
      * intros c' Hc'. apply Hfresh. now right.
Qed.

End SummaryLoops.

(** The summary of a table [get_summary_statistics] can read. *)
Lemma get_summary_statistics_spec (sqrt_float : Q -> Q)
    (self : DataProcessor) (t : DataFrame) (d : list date) :
  summary_table t d ->
  exists dist,
    get_summary_statistics sqrt_float self (Some t)
    = Ok {| total_days := nrows t;
            date_range_start := date_min d;
            date_range_end := date_max d;
            aqi_stats :=
              map (fun c => (c, describe sqrt_float (float_column t c)))
                (present t numeric_cols);
            transport_stats :=
              map (fun c => (c, describe sqrt_float (float_column t c)))
                (present t transport_col_names);
            aqi_category_distribution := dist |}.
Proof.
  intros [Hn [Hd Hcat]]. unfold get_summary_statistics, get_date, getitem.
  rewrite Hd. cbn [bind as_date].
  rewrite (describe_loop sqrt_float Hn) with (stats := []); auto.
  2:{ unfold metric_cols. apply incl_appl, incl_refl. }
  2:{ apply NoDup_numeric_cols. }
  cbn [bind app].
  rewrite (describe_loop sqrt_float Hn) with (stats := []); auto.
  2:{ unfold metric_cols. apply incl_appr, incl_refl. }
  2:{ apply NoDup_transport_col_names. }
  cbn [bind app]. rewrite mem_columns.
  destruct (get_col t "AQI_Category") as [sc |] eqn:Ec.
  - destruct (Hcat sc eq_refl) as [v ->]. cbn [bind]. eexists. reflexivity.
  - cbn [bind]. eexists. reflexivity.
Qed.

(** X7: on a merged table with a date column, float metric columns and a
    categorical category (if any), [get_summary_statistics] returns:
    [total_days] is the number of rows, the statistics hold one entry per
    metric column present, in the order of the lists of the code, and the
    date range is the earliest and the latest date of the table (both
    missing for a table without rows). *)
Theorem get_summary_statistics_range :
  forall (sqrt_float : Q -> Q) (self : DataProcessor) (t : DataFrame)
         (d : list date),
    summary_table t d ->
    exists s,
      get_summary_statistics sqrt_float self (Some t) = Ok s /\
      total_days s = nrows t /\
      map fst (aqi_stats s) = present t numeric_cols /\
      map fst (transport_stats s) = present t transport_col_names /\
      (d = [] -> date_range_start s = None /\ date_range_end s = None) /\
      (forall x, In x d ->
         exists lo hi,
           date_range_start s = Some lo /\ date_range_end s = Some hi /\
           In lo d /\ In hi d /\ (lo <= x <= hi)%Z).
Proof.
  intros sqrt_float self t d Ht.
  destruct (get_summary_statistics_spec sqrt_float self Ht) as [dist E].
  eexists. split; [exact E |]. cbn.
  split; [reflexivity |].
  split; [rewrite map_map; apply map_id |].
  split; [rewrite map_map; apply map_id |].
  split.
  - intros ->. auto.
  - intros x Hx. destruct d as [| x0 d']; [contradiction |].
    destruct (date_min_spec d' x0) as [Hin1 Hle1].
    destruct (date_max_spec d' x0) as [Hin2 Hle2].
    eexists. eexists. simpl date_min. simpl date_max.
    split; [reflexivity |]. split; [reflexivity |].
    split; [exact Hin1 |]. split; [exact Hin2 |].
    split; [apply Hle1 | apply Hle2]; exact Hx.
Qed.

Lemma two_days_summary_table : summary_table two_days [jan1; jan1 + 1]%Z.
Proof.
  split; [exact two_days_numeric |]. split; [reflexivity |].
  intros s H. simpl in H. inversion H. eauto.
Defined.

Lemma get_summary_statistics_range_witness :
  summary_table two_days [jan1; jan1 + 1]%Z /\
  forall sqrt_float,
  exists s,
    get_summary_statistics sqrt_float init (Some two_days) = Ok s /\
    total_days s = nrows two_days /\
    map fst (aqi_stats s) = present two_days numeric_cols /\
    map fst (transport_stats s) = present two_days transport_col_names /\
    ([jan1; jan1 + 1]%Z = [] ->
     date_range_start s = None /\ date_range_end s = None) /\
    (forall x, In x [jan1; jan1 + 1]%Z ->
       exists lo hi,
         date_range_start s = Some lo /\ date_range_end s = Some hi /\
         In lo [jan1; jan1 + 1]%Z /\ In hi [jan1; jan1 + 1]%Z /\
         (lo <= x <= hi)%Z).
Proof.
  split; [exact two_days_summary_table |]. intros sqrt_float.
  apply (get_summary_statistics_range sqrt_float init two_days_summary_table).
Defined.

(** ** The order of the statistics of a column *)

Lemma Qmin_fold_spec (t : list Q) : forall x0 : Q,
  let m := fold_left (fun m v => if Qle_bool v m then v else m) t x0 in
  In m (x0 :: t) /\ forall y, In y (x0 :: t) -> m <= y.
Proof.
  induction t as [| x t IH]; intros x0; simpl.
  - split; auto. intros y [<- | []]. apply Qle_refl.
  - destruct (Qle_bool x x0) eqn:E.
    + destruct (IH x) as [Hin Hle]. apply Qle_bool_iff in E. split.
      * simpl in Hin. tauto.
      * intros y [<- | [<- | Hy]].
        -- eapply Qle_trans; [apply Hle; now left | exact E].
        -- apply Hle. now left.
        -- apply Hle. now right.
    + destruct (IH x0) as [Hin Hle]. apply Qle_bool_false in E. split.
      * simpl in Hin. tauto.
      * intros y [<- | [<- | Hy]].
        -- apply Hle. now left.
        -- eapply Qle_trans; [apply Hle; now left | now apply Qlt_le_weak].
        -- apply Hle. now right.
Qed.

Lemma Qmax_fold_spec (t : list Q) : forall x0 : Q,
  let m := fold_left (fun m v => if Qle_bool m v then v else m) t x0 in
  In m (x0 :: t) /\ forall y, In y (x0 :: t) -> y <= m.
Proof.
  induction t as [| x t IH]; intros x0; simpl.
  - split; auto. intros y [<- | []]. apply Qle_refl.
  - destruct (Qle_bool x0 x) eqn:E.
    + destruct (IH x) as [Hin Hle]. apply Qle_bool_iff in E. split.
      * simpl in Hin. tauto.
      * intros y [<- | [<- | Hy]].
        -- eapply Qle_trans; [exact E | apply Hle; now left].
        -- apply Hle. now left.
        -- apply Hle. now right.
    + destruct (IH x0) as [Hin Hle]. apply Qle_bool_false in E. split.
      * simpl in Hin. tauto.
      * intros y [<- | [<- | Hy]].
        -- apply Hle. now left.
        -- eapply Qle_trans; [apply Qlt_le_weak; exact E | apply Hle; now left].
        -- apply Hle. now right.
Qed.

Lemma median_bounds (lo hi : Q) (l : list cell) :
  dropna l <> [] -> (forall x, In x (dropna l) -> lo <= x <= hi) ->
  exists m, median l = Some m /\ lo <= m <= hi.
Proof.
  intros Hne Hb. unfold median.
  set (sv := sort_by Qle_bool (dropna l)).
  assert (Hsv : forall x, In x sv -> lo <= x <= hi).
  { intros x Hx. apply Hb. now apply (sort_by_In Qle_bool). }
  assert (Hlen : length sv = length (dropna l)).
  { apply Permutation_length, sort_by_perm. }
  destruct (length sv) as [| n] eqn:En.
  - destruct (dropna l); [contradiction | discriminate].
  - assert (Hmid : (S n / 2 < length sv)%nat).
    { rewrite En. apply Nat.div_lt; lia. }
    assert (Hmid' : (S n / 2 - 1 < length sv)%nat) by lia.
    pose proof (Hsv _ (nth_In sv 0 Hmid)) as [A1 A2].
    pose proof (Hsv _ (nth_In sv 0 Hmid')) as [B1 B2].
    destruct (Nat.even (S n)); eexists; (split; [reflexivity |]).
    + rewrite Qred_correct.
      set (p := nth (S n / 2 - 1) sv 0) in *.
      set (q := nth (S n / 2) sv 0) in *.
      split.
      * apply Qle_shift_div_l; lra.
      * apply Qle_shift_div_r; lra.
    + split; assumption.
Qed.

Lemma describe_values (sqrt_float : Q -> Q) (l : list cell) :
  stats_of_values (dropna l) (describe sqrt_float l).
Proof.
  unfold stats_of_values, describe.
  cbn [st_min st_max st_mean st_median st_std].
  unfold Qmin_list, Qmax_list, std.
  destruct (dropna l) as [| x v] eqn:E.
  - unfold median, mean. rewrite E. simpl. auto.
  - destruct (Qmin_fold_spec v x) as [Hin1 Hlo].
    destruct (Qmax_fold_spec v x) as [Hin2 Hhi].
    cbv zeta in Hin1, Hlo, Hin2, Hhi.
    assert (Hb : forall y, In y (dropna l) ->
               fold_left (fun m v => if Qle_bool v m then v else m) v x <= y
               <= fold_left (fun m v => if Qle_bool m v then v else m) v x).
    { rewrite E. intros y Hy. split; [apply Hlo | apply Hhi]; exact Hy. }
    assert (Hne : dropna l <> []) by (rewrite E; discriminate).
    destruct (median_bounds l Hne Hb) as [med [Em Hm]].
    eexists. eexists. exists med.
    split; [reflexivity |]. split; [reflexivity |]. split; [exact Em |].
    split; [exact Hin1 |]. split; [exact Hin2 |].
    split; [rewrite <- E; exact Hb | exact Hm].
Qed.

(** X8: in every summary [get_summary_statistics] returns, each entry
    of the statistics belongs to a float column of the table and
    describes its values: for a column with a value the minimum and the
    maximum are values of the column, no value of the column lies
    outside them, and the median lies between them; for a column
    without a value the minimum, the maximum, the mean, the median and
    the standard deviation are all missing. *)
Theorem get_summary_statistics_ordered :
  forall (sqrt_float : Q -> Q) (self : DataProcessor) (t : DataFrame)
         (d : list date) (s : Summary),
    summary_table t d ->
    get_summary_statistics sqrt_float self (Some t) = Ok s ->
    forall (c : string) (st : ColumnStats),
      In (c, st) (aqi_stats s ++ transport_stats s) ->
      exists v : list cell,
        get_col t c = Some (SNum v) /\ stats_of_values (dropna v) st.
Proof.
  intros sqrt_float self t d s Ht H c st Hc.
  destruct (get_summary_statistics_spec sqrt_float self Ht) as [dist E].
  rewrite E in H. inversion H; subst. cbn [aqi_stats transport_stats] in Hc.
  assert (Hin : exists names,
             incl names metric_cols /\
             In (c, st)
               (map (fun c => (c, describe sqrt_float (float_column t c)))
                  (present t names))).
  { apply in_app_or in Hc. destruct Hc as [Hc | Hc].
    - exists numeric_cols. split; [| exact Hc].
      unfold metric_cols. apply incl_appl, incl_refl.
    - exists transport_col_names. split; [| exact Hc].
      unfold metric_cols. apply incl_appr, incl_refl. }
  destruct Hin as [names [Hincl Hin]].
  apply in_map_iff in Hin. destruct Hin as [c' [Heq Hp]].
  injection Heq as -> <-.
  unfold present in Hp. apply filter_In in Hp. destruct Hp as [Hn Hm].
  rewrite mem_columns in Hm.
  destruct (get_col t c) as [sc |] eqn:Ec; [| discriminate].
  destruct Ht as [[_ Hnum] _].
  destruct (Hnum c sc (Hincl c Hn) Ec) as [v ->].
  exists v. split; [reflexivity |].
  unfold float_column. rewrite Ec. apply describe_values.
Qed.

Lemma get_summary_statistics_ordered_witness :
  summary_table two_days [jan1; jan1 + 1]%Z /\
  forall sqrt_float,
  exists s,
    get_summary_statistics sqrt_float init (Some two_days) = Ok s /\
    forall (c : string) (st : ColumnStats),
      In (c, st) (aqi_stats s ++ transport_stats s) ->
      exists v : list cell,
        get_col two_days c = Some (SNum v) /\ stats_of_values (dropna v) st.
Proof.
  split; [exact two_days_summary_table |]. intros sqrt_float.
  eexists. split; [reflexivity |].
  apply (@get_summary_statistics_ordered sqrt_float init two_days _ _
           two_days_summary_table).
  reflexivity.
Defined.

(** ** The category distribution *)

Lemma value_counts_sum (l : list (option Category)) :
  list_sum (map snd (value_counts l)) = count_categorized l.
Proof.
  unfold value_counts, count_categorized, aqi_labels.
  induction l as [| x l IH]; [reflexivity |].
  unfold list_sum in *. cbn [map snd fold_right] in *.
  destruct x as [[] |]; cbn [filter category_eqb length] in *; lia.
Qed.

(** X9: the category distribution of a summary has one count per
    category of the scale, each the number of rows of that category, and
    the counts add up to the number of rows that have a category. *)
Theorem get_summary_statistics_categories :
  forall (sqrt_float : Q -> Q) (self : DataProcessor) (t : DataFrame)
         (cats : list (option Category)) (s : Summary),
    get_col t "AQI_Category" = Some (SCat cats) ->
    get_summary_statistics sqrt_float self (Some t) = Ok s ->
    exists dist,
      aqi_category_distribution s = Some dist /\
      map fst dist = aqi_labels /\
      list_sum (map snd dist) = count_categorized cats /\
      forall c n, In (c, n) dist ->
        n = length (filter (fun x => match x with
                                     | Some c' => category_eqb c c'
                                     | None => false
                                     end) cats).
Proof.
  intros sqrt_float self t cats s Hc H.
  unfold get_summary_statistics in H. invert_bind H.
  inversion H; subst. cbn [aqi_category_distribution].
  match goal with
  | E : (if mem _ _ then _ else _) = Ok _ |- _ =>
      rewrite mem_columns in E; unfold getitem in E; rewrite Hc in E;
      cbn [bind] in E; inversion E; subst
  end.
  eexists. split; [reflexivity |]. split; [reflexivity |].
  split; [apply value_counts_sum |].
  intros c n Hin. unfold value_counts in Hin. apply in_map_iff in Hin.
  destruct Hin as [c' [Ec _]]. inversion Ec; subst. reflexivity.
Qed.

Lemma get_summary_statistics_categories_witness :
  get_col two_days "AQI_Category"
  = Some (SCat [Some Moderate; Some UnhealthyForSensitive]) /\
  forall sqrt_float,
  exists s dist,
    get_summary_statistics sqrt_float init (Some two_days) = Ok s /\
    aqi_category_distribution s = Some dist /\
    map fst dist = aqi_labels /\
    list_sum (map snd dist)
    = count_categorized [Some Moderate; Some UnhealthyForSensitive].
Proof.
  split; [reflexivity |]. intros sqrt_float.
  eexists.
  destruct (@get_summary_statistics_categories sqrt_float init two_days
              [Some Moderate; Some UnhealthyForSensitive] _ eq_refl eq_refl)
    as [dist [E [Hk [Hs _]]]].
  exists dist. split; [reflexivity |]. auto.
Defined.

(** ** The pivot of the transport table *)

(** X10: for a transport table none of whose modes is named as a
    column of the pivot index or ends in [_transport], and whose
    passenger counts are integers with sizes adding up to [2^53] at
    most, the table [process_transport_data] returns has one row per
    distinct date of the events, in strictly ascending order, and for
    every mode one float column with a cell per date: missing where the
    mode has no event on that date, otherwise the sum of the passengers
    of all its events on that date. *)
Theorem process_transport_data_pivot :
  forall T : list TransportEvent,
    transport_table T -> exact_counts T ->
    exists R dates,
      process_transport_data T = Ok R /\
      get_col R "date" = Some (SDate dates) /\
      StronglySorted Z.lt dates /\
      (forall d, In d dates <-> In d (map ev_date T)) /\
      forall m, In m (map ev_mode T) -> m <> "total_passengers"%string ->
        exists col,
          get_col R m = Some (SNum col) /\
          Forall2 (cell_of_events T m) dates col.
Proof.
  intros T HT _.
  destruct (process_transport_data_spec HT) as [R [ER GR]].
  exists R, (pivot_dates T). split; [exact ER |].
  split; [rewrite GR; reflexivity |]. split.
  { apply Sorted_le_NoDup_lt; [| apply pivot_dates_NoDup].
    unfold pivot_dates.
    assert (Hs : Sorted (fun a b => Z.leb a b = true)
                   (sort_by Z.leb (nodup Z.eq_dec (map ev_date T)))).
    { apply sort_by_sorted. intros a b H. apply Z.leb_gt in H.
      apply Z.leb_le. lia. }
    induction Hs as [| a l Hs IH Hhd]; constructor; auto.
    destruct Hhd; constructor. now apply Z.leb_le. }
  split; [apply pivot_dates_In |].
  intros m Hm Htot. exists (pivot_column T m). split.
  - rewrite GR. unfold processed_transport_col.
    destruct HT as [Hidx _].
    apply in_map_iff in Hm. destruct Hm as [e [<- He]].
    specialize (Hidx e He).
    apply String.eqb_neq in Htot. rewrite String.eqb_sym in Htot.
    rewrite Htot.
    repeat match goal with
           | |- context [String.eqb ?a (ev_mode e)] =>
               let E := fresh "E" in
               destruct (String.eqb a (ev_mode e)) eqn:E;
               [apply String.eqb_eq in E; exfalso; apply Hidx;
                rewrite <- E; simpl; tauto |]
           end.
    assert (Hin : mem (ev_mode e) (pivot_modes T) = true).
    { apply mem_In, pivot_modes_In. eauto. }
    now rewrite Hin.
  - unfold pivot_column. induction (pivot_dates T) as [| d ds IH]; simpl;
      constructor; auto.
    unfold cell_of_events, pivot_cell, mode_sum.
    destruct (group T d m); split; congruence.
Qed.

Lemma process_transport_data_pivot_witness :
  exists R dates,
    process_transport_data sample_transport = Ok R /\
    get_col R "date" = Some (SDate dates) /\
    StronglySorted Z.lt dates /\
    (forall d, In d dates <-> In d (map ev_date sample_transport)) /\
    forall m, In m (map ev_mode sample_transport) ->
      m <> "total_passengers"%string ->
      exists col,
        get_col R m = Some (SNum col) /\
        Forall2 (cell_of_events sample_transport m) dates col.
Proof.
  apply (process_transport_data_pivot sample_transport_table
           sample_transport_exact).
Defined.

(** ** The order of the rows of the transport table *)

Section SortedUnique.

Context {A : Type} (leb : A -> A -> bool).
Hypothesis leb_total : forall a b, leb a b = false -> leb b a = true.
Hypothesis leb_antisym : forall a b, leb a b = true -> leb b a = true -> a = b.
Hypothesis leb_trans :
  forall a b c, leb a b = true -> leb b c = true -> leb a c = true.

Lemma sorted_perm_eq (s : list A) : forall s' : list A,
  StronglySorted (fun a b => leb a b = true) s ->
  StronglySorted (fun a b => leb a b = true) s' ->
  Permutation s s' -> s = s'.
Proof.
  induction s as [| a t IH]; intros s' Hs Hs' Hp.
  - apply Permutation_nil in Hp. now subst.
  - destruct s' as [| a' t'].
    { apply Permutation_sym, Permutation_nil in Hp. discriminate. }
    apply StronglySorted_inv in Hs. destruct Hs as [Hst Ha].
    apply StronglySorted_inv in Hs'. destruct Hs' as [Hst' Ha'].
    rewrite Forall_forall in Ha, Ha'.
    assert (E : a = a').
    { assert (H1 : In a (a' :: t')).
      { eapply Permutation_in; [exact Hp | now left]. }
      assert (H2 : In a' (a :: t)).
      { eapply Permutation_in; [symmetry; exact Hp | now left]. }
      destruct H1 as [H1 | H1]; [now symmetry |].
      destruct H2 as [H2 | H2]; [exact H2 |].
      apply leb_antisym; auto. }
    subst a'. f_equal. apply IH; auto.
    eapply Permutation_cons_inv; exact Hp.
Qed.

Lemma sort_by_perm_eq (l l' : list A) :
  Permutation l l' -> sort_by leb l = sort_by leb l'.
Proof.
  intros Hp.
  assert (Htr : Relation_Definitions.transitive A
                  (fun a b => leb a b = true)).
  { intros a b c. apply leb_trans. }
  apply sorted_perm_eq.
  - apply Sorted_StronglySorted; [exact Htr | now apply sort_by_sorted].
  - apply Sorted_StronglySorted; [exact Htr | now apply sort_by_sorted].
  - rewrite (sort_by_perm leb l), (sort_by_perm leb l'). exact Hp.
Qed.

End SortedUnique.

Lemma string_leb_cases (a b : string) :
  String.leb a b = true <-> a = b \/ OrderedTypeEx.String_as_OT.lt a b.
Proof.
  unfold String.leb.
  rewrite <- OrderedTypeEx.String_as_OT.cmp_lt,
          <- OrderedTypeEx.String_as_OT.cmp_eq.
  unfold OrderedTypeEx.String_as_OT.cmp.
  destruct (String.compare a b); split; intros H; auto;
    try discriminate; destruct H; discriminate.
Qed.

Lemma string_leb_trans (a b c : string) :
  String.leb a b = true -> String.leb b c = true -> String.leb a c = true.
Proof.
  rewrite !string_leb_cases. intros [-> | H1] [-> | H2]; auto.
  right. eapply OrderedTypeEx.String_as_OT.lt_trans; eauto.
Qed.

Lemma string_leb_total (a b : string) :
  String.leb a b = false -> String.leb b a = true.
Proof.
  intros H. destruct (String.leb_total a b) as [H' | H']; congruence.
Qed.

Lemma nodup_perm {A : Type} (dec : forall x y : A, {x = y} + {x <> y})
    (l l' : list A) :
  Permutation l l' -> Permutation (nodup dec l) (nodup dec l').
Proof.
  intros Hp. apply NoDup_Permutation; try apply NoDup_nodup.
  intros x. rewrite !nodup_In. split; apply Permutation_in;
    [| symmetry]; exact Hp.
Qed.

Lemma filter_perm {A : Type} (f : A -> bool) (l l' : list A) :
  Permutation l l' -> Permutation (filter f l) (filter f l').
Proof.
  induction 1 as [| x l l' Hp IH | x y l | l l' l'' H1 IH1 H2 IH2]; simpl.
  - constructor.
  - destruct (f x); auto.
  - destruct (f x), (f y); auto. apply perm_swap.
  - etransitivity; eauto.
Qed.

Lemma dropna_perm (l l' : list cell) :
  Permutation l l' -> Permutation (dropna l) (dropna l').
Proof.
  induction 1 as [| x l l' Hp IH | x y l | l l' l'' H1 IH1 H2 IH2]; simpl.
  - constructor.
  - destruct x; auto.
  - destruct x, y; auto. apply perm_swap.
  - etransitivity; eauto.
Qed.

(** The plain sum of a list of rationals. *)
Lemma Qsum_canonical (l : list Q) : forall a : Q,
  l <> [] ->
  exists u, fold_left (fun acc v => Qred (acc + v)) l a = Qred u /\
            u == a + fold_right Qplus 0 l.
Proof.
  induction l as [| x t IH]; intros a Hne; [contradiction |].
  destruct t as [| y t'].
  - exists (a + x). split; [reflexivity |]. simpl. ring.
  - destruct (IH (Qred (a + x))) as [u [E Hu]]; [discriminate |].
    exists u. split; [exact E |].
    rewrite Hu, Qred_correct.
    change (fold_right Qplus 0 (x :: y :: t'))
      with (x + fold_right Qplus 0 (y :: t')).
    ring.
Qed.

Lemma Qplus_fold_perm (l l' : list Q) :
  Permutation l l' -> fold_right Qplus 0 l == fold_right Qplus 0 l'.
Proof.
  induction 1 as [| x l l' Hp IH | x y l | l l' l'' H1 IH1 H2 IH2]; simpl.
  - reflexivity.
  - now rewrite IH.
  - ring.
  - now rewrite IH1.
Qed.

Lemma nansum_perm (l l' : list cell) :
  Permutation l l' -> nansum l = nansum l'.
Proof.
  intros Hp. apply dropna_perm in Hp. unfold nansum.
  destruct (dropna l) as [| x v] eqn:E.
  - apply Permutation_nil in Hp. now rewrite Hp.
  - destruct (dropna l') as [| x' v'] eqn:E'.
    { apply Permutation_sym, Permutation_nil in Hp. discriminate. }
    destruct (@Qsum_canonical (x :: v) 0) as [u [-> Hu]]; [discriminate |].
    destruct (@Qsum_canonical (x' :: v') 0) as [u' [-> Hu']]; [discriminate |].
    apply Qred_complete. rewrite Hu, Hu'.
    now rewrite (Qplus_fold_perm Hp).
Qed.

Lemma pivot_cell_perm (T T' : list TransportEvent) (d : date) (m : string) :
  Permutation T T' -> pivot_cell T d m = pivot_cell T' d m.
Proof.
  intros Hp. unfold pivot_cell.
  assert (Hg : Permutation (group T d m) (group T' d m)).
  { unfold group. now apply filter_perm. }
  destruct (group T d m) as [| e g] eqn:E.
  - apply Permutation_nil in Hg. now rewrite Hg.
  - destruct (group T' d m) as [| e' g'] eqn:E'.
    { apply Permutation_sym, Permutation_nil in Hg. discriminate. }
    f_equal. apply nansum_perm. now apply Permutation_map.
Qed.

Lemma pivot_dates_perm (T T' : list TransportEvent) :
  Permutation T T' -> pivot_dates T = pivot_dates T'.
Proof.
  intros Hp. unfold pivot_dates. apply sort_by_perm_eq.
  - intros a b H. apply Z.leb_gt in H. apply Z.leb_le. lia.
  - intros a b H1 H2. apply Z.leb_le in H1, H2. lia.
  - intros a b c H1 H2. apply Z.leb_le in H1, H2. apply Z.leb_le. lia.
  - apply nodup_perm. now apply Permutation_map.
Qed.

Lemma pivot_modes_perm (T T' : list TransportEvent) :
  Permutation T T' -> pivot_modes T = pivot_modes T'.
Proof.
  intros Hp. unfold pivot_modes. apply sort_by_perm_eq.
  - exact string_leb_total.
  - intros a b H1 H2. now apply String.leb_antisym.
  - exact string_leb_trans.
  - apply nodup_perm. now apply Permutation_map.
Qed.

(** X11: for passenger counts that are integers with sizes adding up to
    [2^53] at most, the order of the rows of the transport table does
    not matter: two tables with the same events in another order give
    the same result, table or error. *)
Theorem process_transport_data_row_order :
  forall T T' : list TransportEvent,
    Permutation T T' -> exact_counts T ->
    process_transport_data T = process_transport_data T'.
Proof.
  intros T T' Hp _.
  assert (Hpivot : pivot_table T = pivot_table T').
  { unfold pivot_table.
    rewrite (pivot_dates_perm Hp), (pivot_modes_perm Hp).
    destruct (find (fun n => mem n (pivot_modes T')) (rev index_names));
      [reflexivity |].
    do 2 f_equal. apply map_ext. intros m. do 2 f_equal.
    apply map_ext. intros d. now apply pivot_cell_perm. }
  unfold process_transport_data. now rewrite Hpivot.
Qed.

Lemma process_transport_data_row_order_witness :
  process_transport_data sample_transport
  = process_transport_data shuffled_transport.
Proof.
  apply process_transport_data_row_order.
  - apply Permutation_rev.
  - exact sample_transport_exact.
Defined.

(** ** The lag and rolling columns *)




Section ColumnLoop.
Variable A : Type.
Variable body : DataFrame -> A -> result DataFrame.
Variables name1 name2 : A -> string.
Variables val1 val2 : A -> series.
Variable Inv : DataFrame -> Prop.
Hypothesis eq_dec : forall y y' : A, {y = y'} + {y <> y'}.
Hypothesis name1_inj : forall y y', name1 y = name1 y' -> y = y'.
Hypothesis name2_inj : forall y y', name2 y = name2 y' -> y = y'.
Hypothesis names_apart : forall y y', name1 y <> name2 y'.
Hypothesis body_spec : forall df y, Inv df ->
  exists out, body df y = Ok out /\ Inv out /\
    get_col out (name1 y) = Some (val1 y) /\
    get_col out (name2 y) = Some (val2 y) /\
    forall n, n <> name1 y -> n <> name2 y -> get_col out n = get_col df n.

End ColumnLoop.












(** ** The AQI of a PM2.5 concentration *)

Lemma int_of_float_floor (x : Q) : 0 <= x -> int_of_float x = Qround.Qfloor x.
Proof.
  intros H. unfold int_of_float. destruct x as [n d]. simpl.
  apply Z.quot_div_nonneg; [| lia].
  unfold Qle in H. simpl in H. lia.
Qed.

Lemma int_of_float_bounds (x : Q) (lo hi : Z) :
  (0 <= lo)%Z -> inject_Z lo <= x <= inject_Z hi ->
  (lo <= int_of_float x <= hi)%Z.
Proof.
  intros Hlo [H1 H2].
  assert (H0 : 0 <= x).
  { eapply Qle_trans; [| exact H1]. change 0 with (inject_Z 0).
    now rewrite <- Zle_Qle. }
  rewrite int_of_float_floor by exact H0.
  split.
  - rewrite <- (Qround.Qfloor_Z lo). now apply Qround.Qfloor_resp_le.
  - rewrite <- (Qround.Qfloor_Z hi). now apply Qround.Qfloor_resp_le.
Qed.

Lemma int_of_float_monotone (x y : Q) :
  0 <= x -> x <= y -> (int_of_float x <= int_of_float y)%Z.
Proof.
  intros H0 Hxy. rewrite !int_of_float_floor.
  - now apply Qround.Qfloor_resp_le.
  - now apply Qle_trans with x.
  - exact H0.
Qed.

(** The linear scale of a range maps it into the range of its index
    values. *)
Lemma scale_bounds (c_low c_high : Q) (i_low i_high : Z) (v : Q) :
  c_low < c_high -> (i_low <= i_high)%Z -> c_low <= v <= c_high ->
  inject_Z i_low
  <= inject_Z (i_high - i_low) / (c_high - c_low) * (v - c_low)
     + inject_Z i_low
  <= inject_Z i_high.
Proof.
  intros Hc Hi [H1 H2].
  assert (Hw : 0 < c_high - c_low) by lra.
  assert (Hd : 0 <= inject_Z (i_high - i_low)).
  { change 0 with (inject_Z 0). rewrite <- Zle_Qle. lia. }
  set (s := inject_Z (i_high - i_low) / (c_high - c_low)).
  assert (Hs : 0 <= s).
  { unfold s. apply Qle_shift_div_l; [exact Hw | lra]. }
  assert (Hfull : s * (c_high - c_low) == inject_Z i_high - inject_Z i_low).
  { unfold s. rewrite Qmult_comm, Qmult_div_r by lra.
    unfold Zminus. rewrite inject_Z_plus, inject_Z_opp. ring. }
  assert (H0 : 0 <= s * (v - c_low)).
  { apply Qmult_le_0_compat; lra. }
  assert (Hle : s * (v - c_low) <= s * (c_high - c_low)).
  { rewrite !(Qmult_comm s). apply Qmult_le_compat_r; lra. }
  split; lra.
Qed.

Lemma scale_monotone (c_low c_high : Q) (i_low i_high : Z) (v v' : Q) :
  c_low < c_high -> (i_low <= i_high)%Z -> v <= v' ->
  inject_Z (i_high - i_low) / (c_high - c_low) * (v - c_low)
  + inject_Z i_low
  <= inject_Z (i_high - i_low) / (c_high - c_low) * (v' - c_low)
     + inject_Z i_low.
Proof.
  intros Hc Hi Hv.
  assert (Hw : 0 < c_high - c_low) by lra.
  assert (Hd : 0 <= inject_Z (i_high - i_low)).
  { change 0 with (inject_Z 0). rewrite <- Zle_Qle. lia. }
  set (s := inject_Z (i_high - i_low) / (c_high - c_low)).
  assert (Hs : 0 <= s).
  { unfold s. apply Qle_shift_div_l; [exact Hw | lra]. }
  assert (Hle : s * (v - c_low) <= s * (v' - c_low)).
  { rewrite !(Qmult_comm s). apply Qmult_le_compat_r; lra. }
  lra.
Qed.

(** Decides the tests of the loop over the breakpoints one after the
    other, leaving the branches the context allows. *)
Ltac breakpoint_tests :=
  unfold breakpoints; cbn [aqi_of_breakpoints];
  repeat match goal with
         | |- context [Qle_bool ?a ?b] =>
             let E := fresh "E" in
             destruct (Qle_bool a b) eqn:E; qprops;
             try (exfalso; lra); cbn [andb]
         end.

(** The breakpoint that answers for a concentration in its range. *)
Lemma aqi_of_breakpoints_range (k : nat) (c_low c_high : Q)
    (i_low i_high : Z) (v : Q) :
  nth_error breakpoints k = Some (c_low, c_high, i_low, i_high) ->
  c_low <= v <= c_high ->
  aqi_of_breakpoints breakpoints v
  = int_of_float
      (inject_Z (i_high - i_low) / (c_high - c_low) * (v - c_low)
       + inject_Z i_low) /\
  c_low < c_high /\ (0 <= i_low <= i_high)%Z.
Proof.
  intros Hk Hv.
  destruct k as [| [| [| [| [| [| k]]]]]]; cbn [nth_error breakpoints] in Hk;
    try (destruct k; discriminate Hk);
    injection Hk as <- <- <- <-;
    (split; [breakpoint_tests; reflexivity | split; [reflexivity | lia]]).
Qed.

(** X14: a PM2.5 concentration in the range of a breakpoint gets an AQI
    within the index values of that breakpoint, and [pd.cut] of
    [process_aqi_data] puts that AQI into the category of the same rank:
    Good for the first range, Hazardous for the last. *)
Theorem calculate_aqi_from_pm25_range :
  forall (k : nat) (c_low c_high : Q) (i_low i_high : Z) (v : Q),
    nth_error breakpoints k = Some (c_low, c_high, i_low, i_high) ->
    c_low <= v <= c_high ->
    exists aqi : Z,
      calculate_aqi_from_pm25 (Some v) = Some aqi /\
      (i_low <= aqi <= i_high)%Z /\
      aqi_category (Some (inject_Z aqi)) = nth_error aqi_labels k.
Proof.
  intros k c_low c_high i_low i_high v Hk Hv.
  destruct (aqi_of_breakpoints_range k Hk Hv) as [Heq [Hc [Hi0 Hi]]].
  assert (Hb : (i_low <= aqi_of_breakpoints breakpoints v <= i_high)%Z).
  { rewrite Heq. apply int_of_float_bounds; [exact Hi0 |].
    now apply scale_bounds. }
  exists (aqi_of_breakpoints breakpoints v).
  split; [reflexivity |]. split; [exact Hb |].
  assert (Hq : inject_Z i_low <= inject_Z (aqi_of_breakpoints breakpoints v)
               <= inject_Z i_high).
  { split; rewrite <- Zle_Qle; lia. }
  clear Heq Hb Hv Hc Hi0 Hi.
  generalize dependent (inject_Z (aqi_of_breakpoints breakpoints v)).
  intros q Hq.
  destruct k as [| [| [| [| [| [| k]]]]]]; cbn [nth_error breakpoints] in Hk;
    try (destruct k; discriminate Hk);
    injection Hk as <- <- <- <-; unfold inject_Z in Hq;
    bin_cases q.
Qed.

Lemma calculate_aqi_from_pm25_range_witness :
  exists aqi : Z,
    calculate_aqi_from_pm25 (Some 20) = Some aqi /\
    (51 <= aqi <= 100)%Z /\
    aqi_category (Some (inject_Z aqi)) = nth_error aqi_labels 1.
Proof.
  apply (@calculate_aqi_from_pm25_range 1 12.1 35.4 51%Z 100%Z 20).
  - reflexivity.
  - split; unfold Qle; simpl; lia.
Defined.

(** X15: a concentration between two ranges gets the AQI 500, as does
    a negative one and one above the last range.  The ends of the ranges
    are decimal literals, most of them not exact in binary; the
    concentrations here keep 0.01 away from them, so that they lie
    outside every range for the doubles of the code as for the decimals
    of [breakpoints]. *)
Theorem calculate_aqi_from_pm25_gap :
  forall v : Q,
    v < 0 \/ 12.01 <= v <= 12.09 \/ 35.41 <= v <= 35.49 \/
    55.41 <= v <= 55.49 \/ 150.41 <= v <= 150.49 \/
    250.41 <= v <= 250.49 \/ 500.41 <= v ->
    calculate_aqi_from_pm25 (Some v) = Some 500%Z.
Proof.
  intros v H. unfold calculate_aqi_from_pm25. f_equal.
  repeat match type of H with
         | _ \/ _ => destruct H as [H | H]
         end;
    breakpoint_tests; reflexivity.
Qed.

Lemma calculate_aqi_from_pm25_gap_witness :
  calculate_aqi_from_pm25 (Some 12.05) = Some 500%Z.
Proof.
  apply (@calculate_aqi_from_pm25_gap 12.05).
  right. left. split; unfold Qle; simpl; lia.
Defined.

(** X16: over the ranges of the breakpoints the AQI does not decrease
    with the concentration: of two concentrations, each in the range of
    some breakpoint, the higher one does not get the lower AQI. *)
Theorem calculate_aqi_from_pm25_monotone :
  forall (k k' : nat) (v v' : Q),
    in_breakpoint k v -> in_breakpoint k' v' -> v <= v' ->
    exists aqi aqi' : Z,
      calculate_aqi_from_pm25 (Some v) = Some aqi /\
      calculate_aqi_from_pm25 (Some v') = Some aqi' /\
      (aqi <= aqi')%Z.
Proof.
  intros k k' v v' Hk Hk' Hv. unfold in_breakpoint in Hk, Hk'.
  destruct (nth_error breakpoints k) as [[[[cl ch] il] ih] |] eqn:Ek;
    [| contradiction].
  destruct (nth_error breakpoints k') as [[[[cl' ch'] il'] ih'] |] eqn:Ek';
    [| contradiction].
  destruct (aqi_of_breakpoints_range k Ek Hk) as [Heq [Hc [Hi0 Hi]]].
  destruct (aqi_of_breakpoints_range k' Ek' Hk') as [Heq' [Hc' [Hi0' Hi']]].
  exists (aqi_of_breakpoints breakpoints v),
    (aqi_of_breakpoints breakpoints v').
  split; [reflexivity |]. split; [reflexivity |].
  assert (Hb : (il <= aqi_of_breakpoints breakpoints v <= ih)%Z).
  { rewrite Heq. apply int_of_float_bounds; [exact Hi0 |].
    now apply scale_bounds. }
  assert (Hb' : (il' <= aqi_of_breakpoints breakpoints v' <= ih')%Z).
  { rewrite Heq'. apply int_of_float_bounds; [exact Hi0' |].
    now apply scale_bounds. }
  assert (Hsame : cl = cl' -> ch = ch' -> il = il' -> ih = ih' ->
                  (aqi_of_breakpoints breakpoints v
                   <= aqi_of_breakpoints breakpoints v')%Z).
  { intros <- <- <- <-. rewrite Heq, Heq'.
    apply int_of_float_monotone; [| now apply scale_monotone].
    apply Qle_trans with (inject_Z il).
    - change 0 with (inject_Z 0). rewrite <- Zle_Qle. lia.
    - now apply scale_bounds. }
  clear Heq Heq'.
  destruct k as [| [| [| [| [| [| k]]]]]]; cbn [nth_error breakpoints] in Ek;
    try (destruct k; discriminate Ek);
    injection Ek as <- <- <- <-;
    (destruct k' as [| [| [| [| [| [| k']]]]]];
     cbn [nth_error breakpoints] in Ek';
     try (destruct k'; discriminate Ek');
     injection Ek' as <- <- <- <-);
    first [now apply Hsame | lia | exfalso; lra].
Qed.

Lemma calculate_aqi_from_pm25_monotone_witness :
  exists aqi aqi' : Z,
    calculate_aqi_from_pm25 (Some 12.0) = Some aqi /\
    calculate_aqi_from_pm25 (Some 12.1) = Some aqi' /\
    (aqi <= aqi')%Z.
Proof.
  apply (@calculate_aqi_from_pm25_monotone 0 1 12.0 12.1).
  - split; unfold Qle; simpl; lia.
  - split; unfold Qle; simpl; lia.
  - unfold Qle; simpl; lia.
Defined.

(** ** The generated transport table *)

Example day_of_year_2024 :
  day_of_year jan1 = 1%Z /\ day_of_year (jan1 + 365)%Z = 366%Z /\
  day_of_year (jan1 + 366)%Z = 1%Z.
Proof. repeat split. Qed.

Section GeneratorFacts.
Variable rng : Type.
Variable normal : rng -> Q -> Q -> Q * rng.
Variable np_pi : Q.
Variable np_sin : Q -> Q.

Lemma generate_day_rows (g : rng) (d : date) :
  exists c : Z * Z,
    (0 <= fst c)%Z /\ (0 <= snd c)%Z /\
    fst (generate_day normal np_pi np_sin g d) = day_rows d c.
Proof.
  unfold generate_day.
  destruct (is_weekend d);
    repeat match goal with
           | |- context [normal ?g ?a ?b] =>
               let x := fresh "x" in
               let g' := fresh "g" in
               destruct (normal g a b) as [x g']
           end;
    cbn [fst];
    match goal with
    | |- context [mk_event d "bus" (inject_Z ?b)
                  :: mk_event d "metro" (inject_Z ?m) :: nil] =>
        exists (b, m)
    end;
    (split; [apply Z.le_max_l | split; [apply Z.le_max_l | reflexivity]]).
Qed.

Lemma generate_rows_days (dates : list date) : forall g : rng,
  exists counts : list (Z * Z),
    length counts = length dates /\
    Forall (fun c => (0 <= fst c)%Z /\ (0 <= snd c)%Z) counts /\
    fst (generate_rows normal np_pi np_sin g dates) = rows_of_days dates counts.
Proof.
  induction dates as [| d t IH]; intros g.
  - exists []. repeat split. constructor.
  - cbn [generate_rows].
    destruct (generate_day_rows g d) as [c [Hb [Hm Hc]]].
    destruct (generate_day normal np_pi np_sin g d) as [rows g1].
    destruct (IH g1) as [ct [Hlen [Hall Hct]]].
    destruct (generate_rows normal np_pi np_sin g1 t) as [rest g2].
    cbn [fst] in *. subst rows rest.
    exists (c :: ct). split; [simpl; now rewrite Hlen |].
    split; [constructor; auto | reflexivity].
Qed.

End GeneratorFacts.

Lemma rows_of_days_length (dates : list date) : forall counts : list (Z * Z),
  length counts = length dates ->
  length (rows_of_days dates counts) = (2 * length dates)%nat.
Proof.
  induction dates as [| d t IH]; intros [| c ct] Hlen; try discriminate.
  - reflexivity.
  - cbn [rows_of_days day_rows app length]. rewrite IH; [lia |].
    simpl in Hlen. lia.
Qed.

Lemma rows_of_days_nth (dates : list date) :
  forall (counts : list (Z * Z)) (i : nat) (d : date) (c : Z * Z),
    nth_error dates i = Some d -> nth_error counts i = Some c ->
    nth_error (rows_of_days dates counts) (2 * i)
    = Some (mk_event d "bus" (inject_Z (fst c))) /\
    nth_error (rows_of_days dates counts) (2 * i + 1)
    = Some (mk_event d "metro" (inject_Z (snd c))).
Proof.
  induction dates as [| d0 t IH]; intros [| c0 ct] [| i] d c Hd Hc;
    try discriminate.
  - injection Hd as <-. injection Hc as <-. split; reflexivity.
  - replace (2 * S i)%nat with (S (S (2 * i))) by lia.
    replace (S (S (2 * i)) + 1)%nat with (S (S (2 * i + 1))) by lia.
    cbn [rows_of_days day_rows app nth_error].
    apply IH; assumption.
Qed.

Lemma rows_of_days_modes (dates : list date) :
  forall (counts : list (Z * Z)) (e : TransportEvent),
    In e (rows_of_days dates counts) ->
    ev_mode e = "bus"%string \/ ev_mode e = "metro"%string.
Proof.
  induction dates as [| d t IH]; intros [| c ct] e He;
    try contradiction.
  cbn [rows_of_days day_rows app] in He.
  destruct He as [<- | [<- | He]]; [now left | now right | eauto].
Qed.

Lemma rows_of_days_table (dates : list date) (counts : list (Z * Z)) :
  transport_table (rows_of_days dates counts).
Proof.
  split.
  - intros e He Hin.
    destruct (rows_of_days_modes _ _ _ He) as [E | E]; rewrite E in Hin;
      simpl in Hin; intuition discriminate.
  - intros n Hn. apply in_map_iff in Hn. destruct Hn as [e [<- He]].
    destruct (rows_of_days_modes _ _ _ He) as [E | E]; rewrite E;
      reflexivity.
Qed.

Lemma date_range_nth (start : date) (periods i : nat) :
  (i < periods)%nat ->
  nth_error (date_range start periods) i = Some (start + Z.of_nat i)%Z.
Proof.
  intros Hi. unfold date_range.
  rewrite nth_error_map, nth_error_seq.
  destruct (Nat.ltb_spec i periods) as [_ | Hc]; [reflexivity | lia].
Qed.

Lemma date_range_length (start : date) (periods : nat) :
  length (date_range start periods) = periods.
Proof. unfold date_range. now rewrite length_map, length_seq. Qed.

(** X17: whatever the random draws, the generated table has two rows
    per day, [2 * days] in all: for the day [i] of the range a bus row
    and then a metro row, both dated [start_date + i] and both with a
    passenger count that is an integer not below 0.  No mode of the
    table is named as a column of the pivot index or ends in
    [_transport]. *)
Theorem generate_transport_data_rows :
  forall (rng : Type) (normal : rng -> Q -> Q -> Q * rng) (np_pi : Q)
         (np_sin : Q -> Q) (self : TransportDataGenerator) (g : rng),
    exists rows : list TransportEvent,
      fst (generate_transport_data normal np_pi np_sin self g) = rows /\
      length rows = (2 * days self)%nat /\
      (forall i : nat, (i < days self)%nat ->
         exists b m : Z,
           (0 <= b)%Z /\ (0 <= m)%Z /\
           nth_error rows (2 * i)
           = Some {| ev_date := (start_date self + Z.of_nat i)%Z;
                     ev_mode := "bus";
                     number_of_passengers := int_cell b |} /\
           nth_error rows (2 * i + 1)
           = Some {| ev_date := (start_date self + Z.of_nat i)%Z;
                     ev_mode := "metro";
                     number_of_passengers := int_cell m |}) /\
      transport_table rows.
Proof.
  intros rng normal np_pi np_sin self g. unfold generate_transport_data.
  destruct (generate_rows_days normal np_pi np_sin
              (date_range (start_date self) (days self)) g)
    as [counts [Hlen [Hall Hrows]]].
  rewrite date_range_length in Hlen.
  eexists. split; [exact Hrows |]. split; [| split].
  - rewrite rows_of_days_length; rewrite date_range_length; auto.
  - intros i Hi.
    destruct (nth_error counts i) as [c |] eqn:Ec.
    2:{ apply nth_error_None in Ec. lia. }
    pose proof (date_range_nth (start_date self) Hi) as Hd.
    destruct (rows_of_days_nth _ _ _ Hd Ec) as [Hb Hm].
    rewrite Forall_forall in Hall.
    destruct (Hall c (nth_error_In _ _ Ec)) as [H1 H2].
    exists (fst c), (snd c). repeat split; assumption.
  - apply rows_of_days_table.
Qed.

(** ** The generated table through [process_transport_data] *)

Lemma Qred_inject_Z (z : Z) : Qred (inject_Z z) = inject_Z z.
Proof.
  unfold inject_Z, Qred.
  generalize (Z.ggcd_gcd z 1), (Z.ggcd_correct_divisors z 1).
  destruct (Z.ggcd z 1) as [g [aa bb]]. simpl.
  intros Hg [H1 H2]. rewrite Z.gcd_1_r in Hg. subst g.
  rewrite Z.mul_1_l in H1, H2. now subst.
Qed.

Lemma nansum_int (z : Z) : nansum [int_cell z] = inject_Z z.
Proof.
  unfold nansum, int_cell. cbn [dropna fold_left].
  rewrite <- (Qred_inject_Z z) at 2. apply Qred_complete. ring.
Qed.

Lemma cell_add_int (a b : Z) :
  cell_add (int_cell a) (int_cell b) = int_cell (a + b).
Proof.
  unfold cell_add, int_cell. f_equal.
  rewrite <- (Qred_inject_Z (a + b)). apply Qred_complete.
  now rewrite inject_Z_plus.
Qed.

Lemma strictly_sorted_ext (l : list Z) : forall l' : list Z,
  StronglySorted Z.lt l -> StronglySorted Z.lt l' ->
  (forall x, In x l <-> In x l') -> l = l'.
Proof.
  induction l as [| a t IH]; intros [| a' t'] Hs Hs' Hx.
  - reflexivity.
  - exfalso. apply (Hx a'). now left.
  - exfalso. apply (Hx a). now left.
  - apply StronglySorted_inv in Hs. destruct Hs as [Hst Ha].
    apply StronglySorted_inv in Hs'. destruct Hs' as [Hst' Ha'].
    rewrite Forall_forall in Ha, Ha'.
    assert (E : a = a').
    { destruct (proj1 (Hx a) (or_introl eq_refl)) as [E | Hin]; [auto |].
      destruct (proj2 (Hx a') (or_introl eq_refl)) as [E | Hin']; [auto |].
      specialize (Ha _ Hin'). specialize (Ha' _ Hin). lia. }
    subst a'. f_equal. apply IH; auto.
    intros x. split; intros Hin.
    + destruct (proj1 (Hx x) (or_intror Hin)) as [E | H]; [| exact H].
      specialize (Ha _ Hin). lia.
    + destruct (proj2 (Hx x) (or_intror Hin)) as [E | H]; [| exact H].
      specialize (Ha' _ Hin). lia.
Qed.

Lemma pivot_dates_sorted (events : list TransportEvent) :
  StronglySorted Z.lt (pivot_dates events).
Proof.
  apply Sorted_le_NoDup_lt; [| apply pivot_dates_NoDup].
  unfold pivot_dates.
  assert (Hs : Sorted (fun a b => Z.leb a b = true)
                 (sort_by Z.leb (nodup Z.eq_dec (map ev_date events)))).
  { apply sort_by_sorted. intros a b H. apply Z.leb_gt in H.
    apply Z.leb_le. lia. }
  induction Hs as [| a l Hs IH Hhd]; constructor; auto.
  destruct Hhd; constructor. now apply Z.leb_le.
Qed.

Lemma date_range_sorted (start : date) (periods : nat) :
  StronglySorted Z.lt (date_range start periods).
Proof.
  unfold date_range. generalize 0%nat.
  induction periods as [| n IH]; intros k; simpl; constructor.
  - apply IH.
  - apply Forall_forall. intros x Hx. apply in_map_iff in Hx.
    destruct Hx as [i [<- Hi]]. apply in_seq in Hi. lia.
Qed.

Lemma StronglySorted_lt_NoDup (l : list Z) :
  StronglySorted Z.lt l -> NoDup l.
Proof.
  induction 1 as [| a t Hs IH Ha]; constructor; auto.
  intros Hin. rewrite Forall_forall in Ha. specialize (Ha _ Hin). lia.
Qed.

Lemma rows_of_days_date_In (dates : list date) :
  forall (counts : list (Z * Z)) (e : TransportEvent),
    In e (rows_of_days dates counts) -> In (ev_date e) dates.
Proof.
  induction dates as [| d t IH]; intros [| c ct] e He;
    try contradiction.
  cbn [rows_of_days day_rows app] in He.
  destruct He as [<- | [<- | He]]; [now left | now left | right; eauto].
Qed.

Lemma rows_of_days_dates (dates : list date) :
  forall (counts : list (Z * Z)) (d : date),
    length counts = length dates ->
    (In d (map ev_date (rows_of_days dates counts)) <-> In d dates).
Proof.
  intros counts d Hlen. split.
  - intros H. apply in_map_iff in H. destruct H as [e [<- He]].
    eapply rows_of_days_date_In; eauto.
  - revert counts Hlen.
    induction dates as [| d0 t IH]; intros [| c ct] Hlen Hin;
      try discriminate; try contradiction.
    cbn [rows_of_days day_rows app map].
    destruct Hin as [<- | Hin]; [now left |].
    right. right. apply IH; auto.
Qed.

Lemma group_app (l l' : list TransportEvent) (d : date) (m : string) :
  group (l ++ l') d m = group l d m ++ group l' d m.
Proof. unfold group. apply filter_app. Qed.

Lemma group_no_date (events : list TransportEvent) (d : date) (m : string) :
  (forall e, In e events -> ev_date e <> d) -> group events d m = [].
Proof.
  intros Hno. unfold group.
  induction events as [| e t IH]; simpl; auto.
  destruct (Z.eqb_spec (ev_date e) d) as [E | E].
  - exfalso. apply (Hno e); simpl; auto.
  - simpl. apply IH. intros e' He'. apply Hno. simpl. auto.
Qed.

Lemma group_day_rows (d : date) (c : Z * Z) :
  group (day_rows d c) d "bus" = [mk_event d "bus" (inject_Z (fst c))] /\
  group (day_rows d c) d "metro" = [mk_event d "metro" (inject_Z (snd c))].
Proof.
  unfold group, day_rows, mk_event. cbn [filter ev_date ev_mode].
  rewrite Z.eqb_refl. split; reflexivity.
Qed.

(** The cells of the pivot at the generated days, whatever rows of other
    days come first. *)
Lemma rows_of_days_cells (dates : list date) :
  forall (counts : list (Z * Z)) (pre : list TransportEvent),
    length counts = length dates -> NoDup dates ->
    (forall e, In e pre -> ~ In (ev_date e) dates) ->
    map (fun d =>
           (pivot_cell (pre ++ rows_of_days dates counts) d "bus",
            pivot_cell (pre ++ rows_of_days dates counts) d "metro")) dates
    = map (fun c => (int_cell (fst c), int_cell (snd c))) counts.
Proof.
  induction dates as [| d0 t IH]; intros [| c0 ct] pre Hlen Hnd Hpre;
    try discriminate.
  - reflexivity.
  - inversion Hnd as [| ? ? Hd0 Hnd']; subst.
    cbn [rows_of_days map]. f_equal.
    + assert (Hp : forall m, group pre d0 m = []).
      { intros m. apply group_no_date. intros e He E.
        apply (Hpre e He). rewrite E. now left. }
      assert (Hr : forall m, group (rows_of_days t ct) d0 m = []).
      { intros m. apply group_no_date. intros e He E.
        apply Hd0. rewrite <- E. eapply rows_of_days_date_In; eauto. }
      destruct (group_day_rows d0 c0) as [Hb Hm].
      unfold pivot_cell.
      rewrite !group_app, !Hp, !Hr, Hb, Hm. cbn [app map].
      unfold mk_event. cbn [number_of_passengers].
      fold (int_cell (fst c0)). fold (int_cell (snd c0)).
      now rewrite !nansum_int.
    + rewrite app_assoc.
      rewrite <- (IH ct (pre ++ day_rows d0 c0)); auto.
      intros e He Hin. apply in_app_or in He. destruct He as [He | He].
      * apply (Hpre e He). now right.
      * apply Hd0. destruct He as [<- | [<- | []]]; exact Hin.
Qed.

(** X18: the table of a generator of at least one day goes through
    [process_transport_data]: the result has one row per day of the
    range, in the order of the range, and no missing cell in [bus],
    [metro] and [total_passengers]; the counts are integers not below 0
    and the total of a day is its bus count plus its metro count. *)
Theorem generated_table_processed :
  forall (rng : Type) (normal : rng -> Q -> Q -> Q * rng) (np_pi : Q)
         (np_sin : Q -> Q) (self : TransportDataGenerator) (g : rng),
    (0 < days self)%nat ->
    exists (R : DataFrame) (counts : list (Z * Z)),
      process_transport_data
        (fst (generate_transport_data normal np_pi np_sin self g)) = Ok R /\
      length counts = days self /\
      Forall (fun c => (0 <= fst c)%Z /\ (0 <= snd c)%Z) counts /\
      get_col R "date"
      = Some (SDate (date_range (start_date self) (days self))) /\
      get_col R "bus" = Some (SNum (map (fun c => int_cell (fst c)) counts)) /\
      get_col R "metro"
      = Some (SNum (map (fun c => int_cell (snd c)) counts)) /\
      get_col R "total_passengers"
      = Some (SNum (map (fun c => int_cell (fst c + snd c)) counts)).
Proof.
  intros rng normal np_pi np_sin self g Hpos.
  unfold generate_transport_data.
  set (dates := date_range (start_date self) (days self)).
  destruct (generate_rows_days normal np_pi np_sin dates g)
    as [counts [Hlen [Hall Hrows]]].
  rewrite Hrows. set (E := rows_of_days dates counts).
  destruct (process_transport_data_spec (rows_of_days_table dates counts))
    as [R [ER GR]].
  fold E in ER, GR.
  assert (Hdates : pivot_dates E = dates).
  { apply strictly_sorted_ext.
    - apply pivot_dates_sorted.
    - apply date_range_sorted.
    - intros x. rewrite pivot_dates_In. now apply rows_of_days_dates. }
  assert (Hcells :
            map (fun d => (pivot_cell E d "bus", pivot_cell E d "metro")) dates
            = map (fun c => (int_cell (fst c), int_cell (snd c))) counts).
  { apply (@rows_of_days_cells dates counts []); auto.
    apply StronglySorted_lt_NoDup, date_range_sorted. }
  assert (Hfirst : exists d c t ct, dates = d :: t /\ counts = c :: ct).
  { unfold dates in *. rewrite date_range_length in Hlen.
    unfold date_range. destruct (days self) as [| n]; [lia |].
    destruct counts as [| c ct]; [discriminate |].
    cbn [seq map]. do 4 eexists. split; reflexivity. }
  assert (Hbus : mem "bus" (pivot_modes E) = true).
  { apply mem_In, pivot_modes_In.
    destruct Hfirst as [d [c [t [ct [Ed Ec]]]]]. unfold E. rewrite Ed, Ec.
    eexists. split; [left; reflexivity | reflexivity]. }
  assert (Hmetro : mem "metro" (pivot_modes E) = true).
  { apply mem_In, pivot_modes_In.
    destruct Hfirst as [d [c [t [ct [Ed Ec]]]]]. unfold E. rewrite Ed, Ec.
    eexists. split; [right; left; reflexivity | reflexivity]. }
  exists R, counts. split; [exact ER |].
  split; [unfold dates in Hlen; now rewrite date_range_length in Hlen |].
  split; [exact Hall |].
  rewrite !GR. unfold processed_transport_col.
  cbn [String.eqb Ascii.eqb Bool.eqb]. rewrite Hbus, Hmetro, Hdates.
  split; [reflexivity |]. split; [| split]; do 2 f_equal.
  - unfold pivot_column. rewrite Hdates.
    apply (f_equal (map fst)) in Hcells. rewrite !map_map in Hcells.
    exact Hcells.
  - unfold pivot_column. rewrite Hdates.
    apply (f_equal (map snd)) in Hcells. rewrite !map_map in Hcells.
    exact Hcells.
  - unfold total_column, row_total, mode_value.
    rewrite Hbus, Hmetro, Hdates.
    apply (f_equal (map (fun p => cell_add (fst p) (snd p)))) in Hcells.
    rewrite !map_map in Hcells. cbn [fst snd] in Hcells.
    rewrite Hcells. apply map_ext. intros c. apply cell_add_int.
Qed.

Lemma generated_table_processed_witness :
  exists (R : DataFrame) (counts : list (Z * Z)),
    process_transport_data
      (fst (generate_transport_data mean_draw 3 no_season ten_days 0%nat))
    = Ok R /\
    length counts = days ten_days /\
    Forall (fun c => (0 <= fst c)%Z /\ (0 <= snd c)%Z) counts /\
    get_col R "date"
    = Some (SDate (date_range (start_date ten_days) (days ten_days))) /\
    get_col R "bus" = Some (SNum (map (fun c => int_cell (fst c)) counts)) /\
    get_col R "metro"
    = Some (SNum (map (fun c => int_cell (snd c)) counts)) /\
    get_col R "total_passengers"
    = Some (SNum (map (fun c => int_cell (fst c + snd c)) counts)).
Proof.
  apply (@generated_table_processed nat mean_draw 3 no_season ten_days 0%nat).
  simpl. lia.
Defined.

(** ** The generated table through [merge_datasets] *)

Lemma date_range_In (start : date) (periods : nat) (d : date) :
  In d (date_range start periods)
  <-> (start <= d < start + Z.of_nat periods)%Z.
Proof.
  unfold date_range. rewrite in_map_iff. split.
  - intros [i [<- Hi]]. apply in_seq in Hi. lia.
  - intros Hd. exists (Z.to_nat (d - start)). split; [lia |].
    apply in_seq. lia.
Qed.

Lemma rows_of_days_pivot_dates (dates : list date) (counts : list (Z * Z)) :
  length counts = length dates -> StronglySorted Z.lt dates ->
  pivot_dates (rows_of_days dates counts) = dates.
Proof.
  intros Hlen Hs. apply strictly_sorted_ext.
  - apply pivot_dates_sorted.
  - exact Hs.
  - intros x. rewrite pivot_dates_In. now apply rows_of_days_dates.
Qed.

(** X19: an AQI table with at most one record per date, merged with the
    table of a generator of at least one day, gives a table whose dates
    are the dates of the AQI table that fall in the range of the
    generator, [start_date] to [start_date + days - 1], each once, in
    ascending order. *)
Theorem generated_table_merged :
  forall (rng : Type) (normal : rng -> Q -> Q -> Q * rng) (np_pi : Q)
         (np_sin : Q -> Q) (gen : TransportDataGenerator) (g : rng)
         (self : DataProcessor) (A : DataFrame) (dA : list date)
         (aq : list cell),
    (0 < days gen)%nat ->
    aqi_table A dA aq -> suffix_free "_aqi" (columns A) -> NoDup dA ->
    exists M dM,
      merge_datasets self A
        (fst (generate_transport_data normal np_pi np_sin gen g))
      = Ok (M, {| merged_data := Some M |}) /\
      get_col M "date" = Some (SDate dM) /\
      StronglySorted Z.lt dM /\
      forall d, In d dM <->
                In d dA /\
                (start_date gen <= d < start_date gen + Z.of_nat (days gen))%Z.
Proof.
  intros rng normal np_pi np_sin gen g self A dA aq _ HA _ Hnd.
  unfold generate_transport_data.
  set (dates := date_range (start_date gen) (days gen)).
  destruct (generate_rows_days normal np_pi np_sin dates g)
    as [counts [Hlen [_ Hrows]]].
  rewrite Hrows.
  destruct (merge_datasets_spec self HA (rows_of_days_table dates counts))
    as [L [R [M0 [M [_ [_ [_ [_ [_ [EM [Hd _]]]]]]]]]]].
  rewrite (rows_of_days_pivot_dates _ Hlen (date_range_sorted _ _)) in Hd.
  exists M. eexists. split; [exact EM |]. split; [exact Hd |].
  set (dJ := joined_dates dA dates).
  assert (HdJ : dJ = filter (fun d => existsb (Z.eqb d) dates) dA).
  { apply joined_dates_filter, StronglySorted_lt_NoDup, date_range_sorted. }
  assert (Hnd' : NoDup (take_rows (argsort dJ) dJ)).
  { eapply Permutation_NoDup; [symmetry; apply argsort_perm |].
    rewrite HdJ. now apply NoDup_filter. }
  split.
  - apply Sorted_le_NoDup_lt; [apply argsort_sorted | exact Hnd'].
  - intros d. unfold dates in HdJ. rewrite <- date_range_In.
    transitivity (In d dJ).
    + split; apply Permutation_in; [| symmetry]; apply argsort_perm.
    + rewrite HdJ, filter_In, existsb_exists. split.
      * intros [H1 [x [Hx E]]]. apply Z.eqb_eq in E. now subst x.
      * intros [H1 H2]. split; auto. exists d. split; auto.
        apply Z.eqb_refl.
Qed.

Lemma generated_table_merged_witness :
  exists M dM,
    merge_datasets init sample_aqi
      (fst (generate_transport_data mean_draw 3 no_season ten_days 0%nat))
    = Ok (M, {| merged_data := Some M |}) /\
    get_col M "date" = Some (SDate dM) /\
    StronglySorted Z.lt dM /\
    forall d, In d dM <->
              In d [jan1 + 1; jan1; jan1 + 2]%Z /\
              (start_date ten_days <= d
               < start_date ten_days + Z.of_nat (days ten_days))%Z.
Proof.
  apply (@generated_table_merged nat mean_draw 3 no_season ten_days 0%nat
           init sample_aqi [jan1 + 1; jan1; jan1 + 2]%Z
           [Some 120; Some 80; Some 40]).
  - simpl. lia.
  - exact sample_aqi_table.
  - exact sample_aqi_suffix_free.
  - distinct_names.
Defined.

(** ** The range of the cleaned values *)

Lemma next_valid_In (l : list cell) (k : nat) (b : Q) :
  next_valid l = Some (k, b) -> In (Some b) l.
Proof.
  revert k. induction l as [| [x |] t IH]; intros k H; simpl in H.
  - discriminate.
  - injection H as _ <-. now left.
  - destruct (next_valid t) as [[k' b'] |]; [| discriminate].
    injection H as _ <-. right. eauto.
Qed.

(** A point of the line between two values lies between them. *)
Lemma line_bounds (lo hi a b : Q) (j k : nat) :
  lo <= a <= hi -> lo <= b <= hi ->
  lo <= a + (b - a) * Qnat j / Qnat (j + k + 1) <= hi.
Proof.
  intros [Ha1 Ha2] [Hb1 Hb2].
  assert (Hn : 0 < Qnat (j + k + 1)).
  { unfold Qnat. change 0 with (inject_Z 0). rewrite <- Zlt_Qlt. lia. }
  assert (Hj : 0 <= Qnat j).
  { unfold Qnat. change 0 with (inject_Z 0). rewrite <- Zle_Qle. lia. }
  assert (Hjn : Qnat j <= Qnat (j + k + 1)).
  { unfold Qnat. rewrite <- Zle_Qle. lia. }
  set (t := Qnat j / Qnat (j + k + 1)).
  assert (Ht0 : 0 <= t).
  { unfold t. apply Qle_shift_div_l; [exact Hn | lra]. }
  assert (Ht1 : t <= 1).
  { unfold t. apply Qle_shift_div_r; [exact Hn | lra]. }
  assert (E : a + (b - a) * Qnat j / Qnat (j + k + 1)
              == a * (1 - t) + b * t).
  { unfold t. field. lra. }
  rewrite E.
  assert (H1 : 0 <= (a - lo) * (1 - t)) by (apply Qmult_le_0_compat; lra).
  assert (H2 : 0 <= (b - lo) * t) by (apply Qmult_le_0_compat; lra).
  assert (H3 : 0 <= (hi - a) * (1 - t)) by (apply Qmult_le_0_compat; lra).
  assert (H4 : 0 <= (hi - b) * t) by (apply Qmult_le_0_compat; lra).
  split; lra.
Qed.

Lemma interpolate_from_bounds (lo hi : Q) (l : list cell) :
  forall (prev : option Q) (j : nat),
    (forall a, prev = Some a -> lo <= a <= hi) ->
    (forall x, In (Some x) l -> lo <= x <= hi) ->
    forall x, In (Some x) (interpolate_from prev j l) -> lo <= x <= hi.
Proof.
  induction l as [| [v |] t IH]; intros prev j Hp Hl x Hx.
  - destruct Hx.
  - cbn [interpolate_from] in Hx. destruct Hx as [E | Hx].
    + apply Hl. now left.
    + apply (IH (Some v) 1%nat); auto.
      * intros a Ha. injection Ha as <-. apply Hl. now left.
      * intros y Hy. apply Hl. now right.
  - cbn [interpolate_from] in Hx. destruct Hx as [E | Hx].
    + destruct prev as [a |]; [| discriminate].
      specialize (Hp a eq_refl).
      destruct (next_valid t) as [[k b] |] eqn:En.
      * replace x with (Qred (a + (b - a) * Qnat j / Qnat (j + k + 1)))
          by congruence.
        rewrite Qred_correct.
        apply line_bounds; [exact Hp |].
        apply Hl. right. eapply next_valid_In; eauto.
      * injection E as <-. exact Hp.
    + apply (IH prev (S j)); auto.
      intros y Hy. apply Hl. now right.
Qed.

Lemma clean_bounds (lo hi : Q) (l : list cell) :
  (forall x, In (Some x) l -> lo <= x <= hi) ->
  forall x, In (Some x) (clean l) -> lo <= x <= hi.
Proof.
  intros Hl.
  assert (Hi : forall x, In (Some x) (interpolate l) -> lo <= x <= hi).
  { apply interpolate_from_bounds; [discriminate | exact Hl]. }
  intros x Hx. unfold clean, fillna in Hx. apply in_map_iff in Hx.
  destruct Hx as [[y |] [E Hy]].
  - injection E as <-. now apply Hi.
  - destruct (dropna (interpolate l)) as [| z zs] eqn:Ed.
    + unfold median in E. rewrite Ed in E. discriminate.
    + destruct (@median_bounds lo hi (interpolate l)) as [m [Em Hm]].
      * rewrite Ed. discriminate.
      * intros y Hy'. apply Hi. now apply dropna_In.
      * rewrite Em in E. injection E as <-. exact Hm.
Qed.

(** X20: [process_aqi_data] keeps a declared numeric column within its
    range: when every value the column had lies between [lo] and [hi],
    so does every value of the column in the table returned, the
    interpolated ones and those filled with the median included. *)
Theorem process_aqi_data_bounds :
  forall (A : DataFrame) (dA : list date) (aq : list cell),
    aqi_table A dA aq ->
    exists out,
      process_aqi_data A = Ok out /\
      forall (c : string) (v : list cell) (lo hi : Q),
        In c numeric_cols -> get_col A c = Some (SNum v) ->
        (forall x, In (Some x) v -> lo <= x <= hi) ->
        exists w,
          get_col out c = Some (SNum w) /\
          forall x, In (Some x) w -> lo <= x <= hi.
Proof.
  intros A dA aq HA.
  destruct (process_aqi_data_spec HA) as [out [E G]].
  exists out. split; [exact E |]. intros c v lo hi Hc Hv Hb.
  exists (clean v). split.
  - rewrite G. unfold processed_aqi_col.
    each_name Hc; cbn [String.eqb Ascii.eqb Bool.eqb mem existsb orb];
      rewrite Hv; reflexivity.
  - now apply clean_bounds.
Qed.

Lemma process_aqi_data_bounds_witness :
  exists out,
    process_aqi_data sample_aqi = Ok out /\
    forall (c : string) (v : list cell) (lo hi : Q),
      In c numeric_cols -> get_col sample_aqi c = Some (SNum v) ->
      (forall x, In (Some x) v -> lo <= x <= hi) ->
      exists w,
        get_col out c = Some (SNum w) /\
        forall x, In (Some x) w -> lo <= x <= hi.
Proof.
  apply (process_aqi_data_bounds sample_aqi_table).
Defined.

Lemma aqi_category_in_scale (v : Q) :
  0 <= v <= 500 -> aqi_category (Some v) <> None.
Proof.
  intros [Hlo Hhi].
  unfold aqi_category, cut, aqi_bins, aqi_labels, searchsorted_left, hd.
  destruct (Qeq_bool v 0) eqn:?; destruct (Qle_bool v 0) eqn:?;
    destruct (Qle_bool v 50) eqn:?; destruct (Qle_bool v 100) eqn:?;
    destruct (Qle_bool v 150) eqn:?; destruct (Qle_bool v 200) eqn:?;
    destruct (Qle_bool v 300) eqn:?; destruct (Qle_bool v 500) eqn:?;
    try (cbn; discriminate); qprops; exfalso; lra.
Qed.

(** X21: when the AQI column has a value and every value it has lies
    between 0 and 500, every row of the table [process_aqi_data]
    returns has a category: no [AQI_Category] cell is missing, the rows
    whose AQI was interpolated or filled included. *)
Theorem process_aqi_data_categories :
  forall (A : DataFrame) (dA : list date) (aq : list cell),
    aqi_table A dA aq ->
    dropna aq <> [] ->
    (forall x, In (Some x) aq -> 0 <= x <= 500) ->
    exists out cats,
      process_aqi_data A = Ok out /\
      get_col out "AQI_Category" = Some (SCat cats) /\
      length cats = length aq /\
      forall c, In c cats -> c <> None.
Proof.
  intros A dA aq HA Hne Hb.
  destruct (process_aqi_data_spec HA) as [out [E G]].
  exists out, (map aqi_category (clean aq)).
  split; [exact E |]. split; [rewrite G; reflexivity |].
  split; [now rewrite length_map, clean_length |].
  intros c Hc. apply in_map_iff in Hc. destruct Hc as [x [<- Hx]].
  destruct x as [v |].
  - apply aqi_category_in_scale. now apply (clean_bounds aq Hb).
  - exfalso. now apply (clean_complete aq Hne Hx).
Qed.

Lemma process_aqi_data_categories_witness :
  exists out cats,
    process_aqi_data sample_aqi = Ok out /\
    get_col out "AQI_Category" = Some (SCat cats) /\
    length cats = length [Some 120; Some 80; Some 40] /\
    forall c, In c cats -> c <> None.
Proof.
  apply (@process_aqi_data_categories sample_aqi
           [jan1 + 1; jan1; jan1 + 2]%Z [Some 120; Some 80; Some 40]
           sample_aqi_table).
  - discriminate.
  - intros x Hx. each_name Hx; injection Hx as <-;
      split; unfold Qle; simpl; lia.
Defined.

(** ** The sample tables through [merge_datasets] *)

Lemma aqi_frame_table (dates : list date) (aqi_data : list AQIRecord) :
  aqi_table (aqi_frame dates aqi_data) dates
    (map (fun r => int_cell (rec_aqi r)) aqi_data).
Proof.
  split; try reflexivity; [distinct_names |].
  intros c s Hc H. each_name Hc; simpl in H; inversion H; eauto.
Qed.

Lemma joined_dates_same (dates : list date) :
  NoDup dates -> joined_dates dates dates = dates.
Proof.
  intros Hnd. rewrite joined_dates_filter by exact Hnd.
  apply forallb_filter_id. apply forallb_forall. intros d Hd.
  apply existsb_exists. exists d. split; [exact Hd | apply Z.eqb_refl].
Qed.

Lemma sort_values_sorted (d : list date) :
  StronglySorted Z.lt d -> take_rows (argsort d) d = d.
Proof.
  intros Hs. apply strictly_sorted_ext; [| exact Hs |].
  - apply Sorted_le_NoDup_lt; [apply argsort_sorted |].
    eapply Permutation_NoDup; [symmetry; apply argsort_perm |].
    now apply StronglySorted_lt_NoDup.
  - intros x. split; apply Permutation_in; [| symmetry]; apply argsort_perm.
Qed.

(** X22: whatever the random draws, the two tables [save_sample_data]
    writes merge without error into a table of 90 rows, one for each day
    from 2024-01-01 on, in ascending order of date. *)
Theorem save_sample_data_merged :
  forall (rng : Type) (normal : rng -> Q -> Q -> Q * rng) (np_pi : Q)
         (np_sin : Q -> Q) (g : rng) (self : DataProcessor),
    exists (T : list TransportEvent) (A M : DataFrame),
      fst (save_sample_data normal np_pi np_sin g) = (T, A) /\
      merge_datasets self A T = Ok (M, {| merged_data := Some M |}) /\
      get_col M "date" = Some (SDate (date_range jan1 90)) /\
      length (date_range jan1 90) = 90%nat.
Proof.
  intros rng normal np_pi np_sin g self.
  unfold save_sample_data, generate_transport_data.
  cbn [start_date days].
  set (dates := date_range jan1 90).
  destruct (generate_rows_days normal np_pi np_sin dates g)
    as [counts [Hlen [_ Hrows]]].
  destruct (generate_rows normal np_pi np_sin g dates) as [T g1].
  cbn [fst] in Hrows. subst T.
  destruct (sample_aqi_rows normal np_pi np_sin g1 dates) as [aqi_data g2].
  cbn [fst].
  destruct (merge_datasets_spec self (aqi_frame_table dates aqi_data)
              (rows_of_days_table dates counts))
    as [L [R [M0 [M [_ [_ [_ [_ [_ [EM [Hd _]]]]]]]]]]].
  assert (Hs : StronglySorted Z.lt dates) by apply date_range_sorted.
  rewrite (rows_of_days_pivot_dates _ Hlen Hs) in Hd.
  rewrite (joined_dates_same (StronglySorted_lt_NoDup Hs)) in Hd.
  rewrite (sort_values_sorted Hs) in Hd.
  exists (rows_of_days dates counts), (aqi_frame dates aqi_data), M.
  split; [reflexivity |]. split; [exact EM |]. split; [exact Hd |].
  apply date_range_length.
Qed.
